(** * Rocket League Replays: the [replays] application

    A shallow embedding of [rocket_league/apps/replays/models.py] and
    [serializers.py]: the Django models [Replay], [Player], [Goal],
    [ReplayPack] and [BoostData], the derived properties of a replay
    ([match_length], [region], [queue_priority], ...), upload validation
    ([Replay.clean]) and the REST serializers.

    Python values are modelled as the code has them: integers as [Z],
    [None]-able fields as [option], floats as the kernel's binary64
    floats, exceptions as an error monad, the database as explicit tables. *)

From Stdlib Require Import ZArith Lia Bool List String Ascii DecimalString.
From Stdlib Require Import Floats.
From stdpp Require Import base strings gmap.

Local Open Scope Z_scope.

(** ** Python exceptions and the error monad *)

Inductive exn : Type :=
| ValidationError (messages : list string)
| ReadError
| KeyError (key : string)
| AttributeError
| IndexError
| ZeroDivisionError
| ValueError
| OverflowError
| TypeError.

Inductive result (A : Type) : Type :=
| Ok (a : A)
| Raise (e : exn).

Arguments Ok {A} a.
Arguments Raise {A} e.

Global Instance result_ret : MRet result := @Ok.

Global Instance result_bind : MBind result := fun A B k m =>
  match m with
  | Ok a => k a
  | Raise e => Raise e
  end.

Global Instance result_fmap : FMap result := fun A B f m =>
  match m with
  | Ok a => Ok (f a)
  | Raise e => Raise e
  end.

Definition raises {A : Type} (m : result A) : bool :=
  match m with Ok _ => false | Raise _ => true end.

(** ** Python floats

    A Python [float] is an IEEE 754 binary64 number: the kernel's
    primitive [float].  Arithmetic uses the primitive operations; the C
    library functions CPython calls ([fmod], [floor], [copysign]) and the
    conversions to and from [int] are written on [Prim2SF]. *)

Module PyFloat.

(** [bool(x)]: a float is false exactly when it equals zero of either sign. *)
Definition truthy (x : float) : bool := negb (x =? 0)%float.

(** [float(z)] for an [int]: correctly rounded, [OverflowError] when the
    integer is too large for a double. *)
Definition of_int (z : Z) : result float :=
  let x := SF2Prim (binary_normalize prec emax z 0 false) in
  if is_infinity x then Raise OverflowError else Ok x.

(** [a / b] on floats. *)
Definition truediv (a b : float) : result float :=
  if (b =? 0)%float then Raise ZeroDivisionError else Ok (a / b)%float.

(** C [fmod]: the remainder of the truncated quotient, computed exactly;
    it carries the sign of [x]. *)
Definition fmod (x y : float) : float :=
  match Prim2SF x, Prim2SF y with
  | S754_nan, _ | _, S754_nan => nan
  | S754_infinity _, _ => nan
  | _, S754_zero _ => nan
  | S754_zero _, _ => x
  | S754_finite _ _ _, S754_infinity _ => x
  | S754_finite sx mx ex, S754_finite _ my ey =>
      let e0 := Z.min ex ey in
      let X := Zpos mx * 2 ^ (ex - e0) in
      let Y := Zpos my * 2 ^ (ey - e0) in
      SF2Prim (binary_normalize prec emax (cond_Zopp sx (X mod Y)) e0 sx)
  end.

(** C [floor]. *)
Definition floor (x : float) : float :=
  match Prim2SF x with
  | S754_finite s m e =>
      if 0 <=? e then x
      else
        let v := cond_Zopp s (Zpos m) in
        if v mod 2 ^ (- e) =? 0 then x
        else SF2Prim (binary_normalize prec emax (v / 2 ^ (- e)) 0 s)
  | _ => x
  end.

(** C [copysign(0.0, y)]. *)
Definition copysign_zero (y : float) : float :=
  if get_sign y then neg_zero else zero.

(** [divmod(vx, wx)] on floats, as CPython's [float_divmod] computes it. *)
Definition divmod (vx wx : float) : result (float * float) :=
  if (wx =? 0)%float then Raise ZeroDivisionError
  else
    let mod0 := fmod vx wx in
    let div0 := ((vx - mod0) / wx)%float in
    let '(md, dv) :=
      if truthy mod0 then
        if negb (Bool.eqb (wx <? 0)%float (mod0 <? 0)%float)
        then ((mod0 + wx)%float, (div0 - 1)%float)
        else (mod0, div0)
      else (copysign_zero wx, div0) in
    let floordiv :=
      if truthy dv then
        let fl := floor dv in
        if (0.5 <? dv - fl)%float then (fl + 1)%float else fl
      else copysign_zero (vx / wx)%float in
    Ok (floordiv, md).

(** [int(x)]: truncation towards zero. *)
Definition to_int (x : float) : result Z :=
  match Prim2SF x with
  | S754_nan => Raise ValueError
  | S754_infinity _ => Raise OverflowError
  | S754_zero _ => Ok 0
  | S754_finite s m e =>
      Ok (cond_Zopp s (if 0 <=? e then Zpos m * 2 ^ e else Zpos m / 2 ^ (- e)))
  end.

(** [a / b] on integers (CPython's [long_true_divide]): the quotient
    correctly rounded, a zero with the sign of the quotient for [a = 0],
    [OverflowError] when the quotient is too large for a double. *)
Definition int_truediv (a b : Z) : result float :=
  if b =? 0 then Raise ZeroDivisionError
  else if a =? 0 then Ok (if b <? 0 then neg_zero else zero)
  else
    match SFdiv prec emax
            (S754_finite (a <? 0) (Z.to_pos (Z.abs a)) 0)
            (S754_finite (b <? 0) (Z.to_pos (Z.abs b)) 0) with
    | S754_infinity _ => Raise OverflowError
    | q => Ok (SF2Prim q)
    end.

End PyFloat.

(** A Python number: an [int] or a [float]. *)
Inductive pynum : Type :=
| NInt (z : Z)
| NFloat (x : float).

(** [divmod(v, 60)]. *)
Definition pynum_divmod_60 (v : pynum) : result (pynum * pynum) :=
  match v with
  | NInt z => Ok (NInt (z / 60), NInt (z mod 60))
  | NFloat x => '(q, r) ← PyFloat.divmod x 60; Ok (NFloat q, NFloat r)
  end.

(** [v > 0]. *)
Definition pynum_positive (v : pynum) : bool :=
  match v with
  | NInt z => 0 <? z
  | NFloat x => (0 <? x)%float
  end.

(** [int(v)]. *)
Definition pynum_to_int (v : pynum) : result Z :=
  match v with
  | NInt z => Ok z
  | NFloat x => PyFloat.to_int x
  end.

(** ** String formatting *)

(** ['%d' % z]. *)
Definition format_d (z : Z) : string := NilZero.string_of_int (Z.to_int z).

(** ['%02d' % z]: zero-padded to width two (a sign counts in the width). *)
Definition format_02d (z : Z) : string :=
  let s := format_d z in
  if (String.length s <? 2)%nat then ("0" ++ s)%string else s.

(** ['%d:%02d' % (minutes, seconds)]. *)
Definition format_clock (minutes seconds : Z) : string :=
  (format_d minutes ++ ":" ++ format_02d seconds)%string.

(** ** Truthiness of the Python values the models test with [if] and [not] *)

Definition truthy_int (v : option Z) : bool :=
  match v with Some z => negb (z =? 0) | None => false end.

Definition truthy_float (v : option float) : bool :=
  match v with Some x => PyFloat.truthy x | None => false end.

Definition truthy_str (v : option string) : bool :=
  match v with Some s => negb (String.eqb s "") | None => false end.

(** ** Regular expressions the models use

    Strings are byte strings; the character classes below are ASCII, as the
    identifiers and server names they are applied to.  The classes the
    patterns spell out ([[A-F0-9]], [[A-Z]], [[a-z]]) are these on every
    string; [\d] is [is_digit] on ASCII strings, see [is_ascii] below. *)

Module Re.

Definition in_range (lo hi c : ascii) : bool :=
  ((nat_of_ascii lo <=? nat_of_ascii c) && (nat_of_ascii c <=? nat_of_ascii hi))%nat.

Definition is_digit (c : ascii) : bool := in_range "0" "9" c.
Definition is_upper (c : ascii) : bool := in_range "A" "Z" c.
Definition is_lower (c : ascii) : bool := in_range "a" "z" c.
(** The class [[A-F0-9]]. *)
Definition is_hex_upper (c : ascii) : bool := in_range "A" "F" c || is_digit c.

(** [n] characters of class [p] at the start of [s]: the characters and the rest. *)
Fixpoint take_n (p : ascii -> bool) (n : nat) (s : string) : option (string * string) :=
  match n with
  | O => Some (EmptyString, s)
  | S n' =>
      match s with
      | String c s' =>
          if p c then
            match take_n p n' s' with
            | Some (g, rest) => Some (String c g, rest)
            | None => None
            end
          else None
      | EmptyString => None
      end
  end.

(** The longest run of class [p] at the start of [s] (a greedy [p*]). *)
Fixpoint take_while (p : ascii -> bool) (s : string) : string * string :=
  match s with
  | String c s' =>
      if p c then let '(g, rest) := take_while p s' in (String c g, rest)
      else (EmptyString, s)
  | EmptyString => (EmptyString, s)
  end.

(** A literal prefix. *)
Fixpoint strip_prefix (lit s : string) : option string :=
  match lit, s with
  | EmptyString, _ => Some s
  | String a lit', String c s' => if Ascii.eqb a c then strip_prefix lit' s' else None
  | String _ _, EmptyString => None
  end.

(** [([A-F0-9]{8})(4[A-F0-9]{3})([A-F0-9]{4})([A-F0-9]{4})([A-F0-9]{12})]
    matched at the start of [s]: the five groups. *)
Definition match_uuid (s : string) : option (list string) :=
  match take_n is_hex_upper 8 s with
  | Some (g1, String "4" s1) =>
      match take_n is_hex_upper 3 s1 with
      | Some (g2, s2) =>
          match take_n is_hex_upper 4 s2 with
          | Some (g3, s3) =>
              match take_n is_hex_upper 4 s3 with
              | Some (g4, s4) =>
                  match take_n is_hex_upper 12 s4 with
                  | Some (g5, _) => Some [g1; String "4" g2; g3; g4; g5]
                  | None => None
                  end
              | None => None
              end
          | None => None
          end
      | None => None
      end
  | _ => None
  end.

(** [re.sub(pattern, r'\1-\2-\3-\4-\5', s)] for the pattern above: every
    non-overlapping match, leftmost first, is replaced by its groups
    joined with dashes.  A match is 32 characters long; [skip] counts the
    characters of the last match still to be passed over. *)
Fixpoint sub_uuid_from (skip : nat) (s : string) : string :=
  match s with
  | EmptyString => EmptyString
  | String c s' =>
      match skip with
      | S k => sub_uuid_from k s'
      | O =>
          match match_uuid s with
          | Some groups => (String.concat "-" groups ++ sub_uuid_from 31 s')%string
          | None => String c (sub_uuid_from 0 s')
          end
      end
  end.

Definition sub_uuid (s : string) : string := sub_uuid_from 0 s.

(** [(EU|USE|USW|OCE|SAM)(\d+)(-([A-Z][a-z]+))?] matched at the start of
    [s]: the four groups, [None] for a group that took no part. *)
Definition match_server (s : string) : option (list (option string)) :=
  let alternatives := ["EU"; "USE"; "USW"; "OCE"; "SAM"]%string in
  let after_region :=
    fold_right
      (fun lit acc =>
         match strip_prefix lit s with
         | Some rest => Some (lit, rest)
         | None => acc
         end)
      None alternatives in
  match after_region with
  | Some (g1, rest) =>
      match take_while is_digit rest with
      | (EmptyString, _) => None
      | (g2, rest2) =>
          let tail :=
            match rest2 with
            | String "-" (String u rest3) =>
                if is_upper u then
                  match take_while is_lower rest3 with
                  | (EmptyString, _) => None
                  | (low, _) => Some (String u low)
                  end
                else None
            | _ => None
            end in
          Some [Some g1; Some g2;
                option_map (fun g4 => String "-" g4) tail; tail]
      end
  | None => None
  end.

(** [re.search] for the server pattern: the groups of the leftmost match. *)
Fixpoint search_server (s : string) : option (list (option string)) :=
  match match_server s with
  | Some groups => Some groups
  | None =>
      match s with
      | String _ s' => search_server s'
      | EmptyString => None
      end
  end.

End Re.

(** A string of ASCII characters only.  A string of the model is a
    string of bytes; on an ASCII string every byte is a character, and
    the classes above and [lower] below are Python's.  Beyond ASCII a
    character takes several bytes, [\d] matches the decimal digits of
    every script and [str.lower] lowers the letters of every script, which
    the functions here do not: what is proved of [Re.search_server] and of
    [lower] is stated for ASCII strings. *)
Definition is_ascii (s : string) : bool :=
  forallb (fun c => (nat_of_ascii c <? 128)%nat) (list_ascii_of_string s).

(** [str.lower()] of an ASCII string. *)
Definition lower_ascii (c : ascii) : ascii :=
  if Re.is_upper c then ascii_of_nat (nat_of_ascii c + 32) else c.

Fixpoint lower (s : string) : string :=
  match s with
  | EmptyString => EmptyString
  | String c s' => String (lower_ascii c) (lower s')
  end.

(** ** Django model fields and their validation *)

Inductive validator : Type :=
| MinValueValidator (limit_value : Z)
| MaxValueValidator (limit_value : Z).

(** Calling a validator on a value: [None] when it passes, its message
    when it raises. *)
Definition run_validator (v : validator) (value : Z) : option string :=
  match v with
  | MinValueValidator limit =>
      if value <? limit
      then Some ("Ensure this value is greater than or equal to " ++ format_d limit ++ ".")%string
      else None
  | MaxValueValidator limit =>
      if limit <? value
      then Some ("Ensure this value is less than or equal to " ++ format_d limit ++ ".")%string
      else None
  end.

Inductive internal_type : Type := IntegerField | PositiveIntegerField.

(** An integer field as the models declare it. *)
Record integer_field : Type := {
  field_type : internal_type;
  blank : bool;
  null : bool;
  validators : list validator
}.

(** What the application does not define itself: the replay decoder
    (pyrope), the URL configuration, the settings, the patron lookup of
    the site application and the database backend. *)

Record HeaderGoal : Type := {
  PlayerName : string;
  PlayerTeam : Z;
  goal_frame : Z
}.

(** The header dictionary of a decoded replay.  Each key has a fixed
    property type in the format; a key the file does not have is [None]
    and subscripting it raises [KeyError]. *)
Record Header : Type := {
  Id : option string;
  TeamSize : option Z;
  Team0Score : option Z;
  Team1Score : option Z;
  NumFrames : option Z;
  RecordFPS : option float;
  Goals : option (list HeaderGoal)
}.

Class Environment : Type := {
  (** [pyrope.Replay(data).header]; [bitstring.ReadError] when the decoder
      reads past the end of the data. *)
  Pyrope : list Byte.byte -> result Header;
  (** [django.core.urlresolvers.reverse(viewname, kwargs=...)]. *)
  reverse : string -> list (string * string) -> string;
  (** [re.search(settings.SERVER_REGEX, s)]: the groups of the leftmost
      match, [None] when there is none. *)
  search_SERVER_REGEX : string -> option (list (option string));
  (** [patreon_pledge_amount({}, user=..., steam_id=...)]. *)
  patreon_pledge_amount : option Z -> option string -> Z;
  (** [connection.ops.integer_field_range(internal_type)]. *)
  integer_field_range : internal_type -> option Z * option Z
}.

(** [IntegerField.validators]: the declared validators followed by the
    backend's range validators. *)
Definition field_validators `{Environment} (f : integer_field) : list validator :=
  let '(min_value, max_value) := integer_field_range (field_type f) in
  validators f
  ++ match min_value with Some lo => [MinValueValidator lo] | None => [] end
  ++ match max_value with Some hi => [MaxValueValidator hi] | None => [] end.

(** [Field.run_validators]: every validator runs; the messages of those
    that fail are collected. *)
Definition run_validators `{Environment} (f : integer_field) (value : Z) : list string :=
  omap (fun v => run_validator v value) (field_validators f).

(** One field's step of [Model.clean_fields]: a blank field holding an
    empty value is skipped, otherwise [Field.clean] validates the value.
    The result is the list of error messages of the field. *)
Definition field_errors `{Environment} (f : integer_field) (value : option Z)
  : list string :=
  match value with
  | None =>
      if blank f then []
      else if negb (null f) then ["This field cannot be null."%string]
      else ["This field cannot be blank."%string]
  | Some z => run_validators f z
  end.

(** [Model.full_clean] raises one [ValidationError] carrying the errors of
    all fields, and returns normally when there are none. *)
Definition raise_if_errors {A : Type} (errors : list string) (a : A) : result A :=
  match errors with
  | [] => Ok a
  | _ => Raise (ValidationError errors)
  end.

(** ** The models *)

(** A [FileField] value: the stored name ([None] or empty when no file is
    attached) and the bytes [read()] returns. *)
Record FieldFile : Type := {
  file_name : option string;
  file_data : list Byte.byte
}.

Definition FieldFile_bool (f : FieldFile) : bool := truthy_str (file_name f).

Record Season : Type := {
  season_pk : Z;
  season_title : string;
  start_date : Z
}.

Record Map : Type := {
  map_pk : Z;
  map_title : option string;
  slug : string;
  image : option string
}.

Record Replay : Type := {
  pk : option Z;
  user : option Z;
  season : Z;
  title : option string;
  playlist : option Z;
  file : FieldFile;
  heatmap_json_file : option string;
  location_json_file : option string;
  replay_id : option string;
  player_name : option string;
  player_team : option Z;
  map : option Z;
  server_name : option string;
  timestamp : option Z;
  date_created : Z;
  team_sizes : option Z;
  team_0_score : option Z;
  team_1_score : option Z;
  match_type : option string;
  privacy : Z;
  keyframe_delay : option float;
  max_channels : option Z;
  max_replay_size_mb : option Z;
  num_frames : option Z;
  record_fps : option float;
  shot_data : option string;
  excitement_factor : float;
  show_leaderboard : bool;
  average_rating : option Z;
  crashed_heatmap_parser : bool;
  processed : bool
}.

Record Player : Type := {
  player_pk : Z;
  player_replay : Z;
  p_player_name : string;
  team : Z;
  score : Z;
  goals : Z;
  shots : Z;
  assists : Z;
  saves : Z;
  platform : option string;
  online_id : option string;
  bot : bool;
  spectator : bool;
  user_entered : bool;
  actor_id : option Z;
  unique_id : option string;
  heatmap : option string;
  party_leader : option Z;
  camera_settings : option string;
  vehicle_loadout : option string;
  total_xp : option Z;
  boost_data : option string
}.

Record Goal : Type := {
  goal_pk : Z;
  goal_replay : Z;
  number : Z;
  goal_player : Z;
  frame : option Z
}.

Record ReplayPack : Type := {
  pack_title : string;
  pack_user : Z;
  pack_replays : list Z
}.

Record BoostData : Type := {
  boost_replay : Z;
  boost_player : Z;
  boost_frame : Z;
  value : Z
}.

(** The tables of the database.  A table lists its rows in the order the
    model's default queryset returns them. *)
Record DB : Type := {
  season_table : list Season;
  map_table : list Map;
  replay_table : list Replay;
  player_table : list Player;
  goal_table : list Goal;
  boostdata_table : list BoostData
}.

(** The assignments to a replay's attributes this development needs. *)
Definition set_replay_id (r : Replay) (v : option string) : Replay :=
  {| pk := pk r; user := user r; season := season r; title := title r;
     playlist := playlist r; file := file r;
     heatmap_json_file := heatmap_json_file r;
     location_json_file := location_json_file r;
     replay_id := v;
     player_name := player_name r; player_team := player_team r;
     map := map r; server_name := server_name r; timestamp := timestamp r;
     date_created := date_created r; team_sizes := team_sizes r;
     team_0_score := team_0_score r; team_1_score := team_1_score r;
     match_type := match_type r; privacy := privacy r;
     keyframe_delay := keyframe_delay r; max_channels := max_channels r;
     max_replay_size_mb := max_replay_size_mb r; num_frames := num_frames r;
     record_fps := record_fps r; shot_data := shot_data r;
     excitement_factor := excitement_factor r;
     show_leaderboard := show_leaderboard r;
     average_rating := average_rating r;
     crashed_heatmap_parser := crashed_heatmap_parser r;
     processed := processed r |}.

Definition set_crashed_heatmap_parser (r : Replay) (v : bool) : Replay :=
  {| pk := pk r; user := user r; season := season r; title := title r;
     playlist := playlist r; file := file r;
     heatmap_json_file := heatmap_json_file r;
     location_json_file := location_json_file r;
     replay_id := replay_id r;
     player_name := player_name r; player_team := player_team r;
     map := map r; server_name := server_name r; timestamp := timestamp r;
     date_created := date_created r; team_sizes := team_sizes r;
     team_0_score := team_0_score r; team_1_score := team_1_score r;
     match_type := match_type r; privacy := privacy r;
     keyframe_delay := keyframe_delay r; max_channels := max_channels r;
     max_replay_size_mb := max_replay_size_mb r; num_frames := num_frames r;
     record_fps := record_fps r; shot_data := shot_data r;
     excitement_factor := excitement_factor r;
     show_leaderboard := show_leaderboard r;
     average_rating := average_rating r;
     crashed_heatmap_parser := v;
     processed := processed r |}.

Definition set_server_name (r : Replay) (v : option string) : Replay :=
  {| pk := pk r; user := user r; season := season r; title := title r;
     playlist := playlist r; file := file r;
     heatmap_json_file := heatmap_json_file r;
     location_json_file := location_json_file r;
     replay_id := replay_id r;
     player_name := player_name r; player_team := player_team r;
     map := map r; server_name := v; timestamp := timestamp r;
     date_created := date_created r; team_sizes := team_sizes r;
     team_0_score := team_0_score r; team_1_score := team_1_score r;
     match_type := match_type r; privacy := privacy r;
     keyframe_delay := keyframe_delay r; max_channels := max_channels r;
     max_replay_size_mb := max_replay_size_mb r; num_frames := num_frames r;
     record_fps := record_fps r; shot_data := shot_data r;
     excitement_factor := excitement_factor r;
     show_leaderboard := show_leaderboard r;
     average_rating := average_rating r;
     crashed_heatmap_parser := crashed_heatmap_parser r;
     processed := processed r |}.

Definition set_user (r : Replay) (v : option Z) : Replay :=
  {| pk := pk r; user := v; season := season r; title := title r;
     playlist := playlist r; file := file r;
     heatmap_json_file := heatmap_json_file r;
     location_json_file := location_json_file r;
     replay_id := replay_id r;
     player_name := player_name r; player_team := player_team r;
     map := map r; server_name := server_name r; timestamp := timestamp r;
     date_created := date_created r; team_sizes := team_sizes r;
     team_0_score := team_0_score r; team_1_score := team_1_score r;
     match_type := match_type r; privacy := privacy r;
     keyframe_delay := keyframe_delay r; max_channels := max_channels r;
     max_replay_size_mb := max_replay_size_mb r; num_frames := num_frames r;
     record_fps := record_fps r; shot_data := shot_data r;
     excitement_factor := excitement_factor r;
     show_leaderboard := show_leaderboard r;
     average_rating := average_rating r;
     crashed_heatmap_parser := crashed_heatmap_parser r;
     processed := processed r |}.

(** The assignment to a player's [replay]. *)
Definition set_player_replay (p : Player) (v : Z) : Player :=
  {| player_pk := player_pk p; player_replay := v;
     p_player_name := p_player_name p; team := team p; score := score p;
     goals := goals p; shots := shots p; assists := assists p; saves := saves p;
     platform := platform p; online_id := online_id p; bot := bot p;
     spectator := spectator p; user_entered := user_entered p;
     actor_id := actor_id p; unique_id := unique_id p; heatmap := heatmap p;
     party_leader := party_leader p; camera_settings := camera_settings p;
     vehicle_loadout := vehicle_loadout p; total_xp := total_xp p;
     boost_data := boost_data p |}.

(** [itertools.zip_longest] of two lists, with the fill value [None]. *)
Fixpoint zip_longest {A B : Type} (l1 : list A) (l2 : list B)
  : list (option A * option B) :=
  match l1, l2 with
  | [], [] => []
  | a :: l1', [] => (Some a, None) :: zip_longest l1' []
  | [], b :: l2' => (None, Some b) :: List.map (fun b => (None, Some b)) l2'
  | a :: l1', b :: l2' => (Some a, Some b) :: zip_longest l1' l2'
  end.

(** [self.player_set] and [self.goal_set]: the rows whose foreign key is
    this replay. *)
Definition player_set (db : DB) (self : Replay) : list Player :=
  match pk self with
  | Some k => List.filter (fun p => player_replay p =? k) (player_table db)
  | None => []
  end.

Definition goal_set (db : DB) (self : Replay) : list Goal :=
  match pk self with
  | Some k => List.filter (fun g => goal_replay g =? k) (goal_table db)
  | None => []
  end.

(** [self.boostdata_set] of a replay. *)
Definition boostdata_set (db : DB) (self : Replay) : list BoostData :=
  match pk self with
  | Some k => List.filter (fun b => boost_replay b =? k) (boostdata_table db)
  | None => []
  end.

(** [player.goal_set]: the goals whose scorer is this player. *)
Definition player_goal_set (db : DB) (player : Player) : list Goal :=
  List.filter (fun g => goal_player g =? player_pk player) (goal_table db).

Definition set_season_table (db : DB) (rows : list Season) : DB :=
  {| season_table := rows; map_table := map_table db;
     replay_table := replay_table db; player_table := player_table db;
     goal_table := goal_table db; boostdata_table := boostdata_table db |}.

(** A new row of [Season] takes its place in the order of the model,
    [-start_date]. *)
Fixpoint insert_season (s : Season) (rows : list Season) : list Season :=
  match rows with
  | [] => [s]
  | r :: rows' =>
      if start_date r <? start_date s then s :: rows
      else r :: insert_season s rows'
  end.

(** [get_default_season]: the answer and the tables afterwards.  [now]
    is the value of [now()]; [release_date] is the datetime the field
    reads from ['2015-07-07'] and [new_pk] the key the database gives a
    created row. *)
Definition get_default_season (now release_date new_pk : Z) (db : DB)
  : result Z * DB :=
  if (length (season_table db) =? 0)%nat then
    let season := {| season_pk := new_pk; season_title := "Season 1";
                     start_date := release_date |} in
    (Ok (season_pk season),
     set_season_table db (insert_season season (season_table db)))
  else
    (match List.filter (fun s => start_date s <=? now) (season_table db) with
     | s :: _ => Ok (season_pk s)
     | [] => Raise IndexError
     end, db).

Module Replay.
Section Methods.
Context `{Environment}.

(** [Replay.region]. *)
Definition region (self : Replay) : result (option string) :=
  if negb (truthy_str (server_name self)) then Ok (Some "N/A"%string)
  else
    match search_SERVER_REGEX (default ""%string (server_name self)) with
    | None => Raise AttributeError
    | Some groups =>
        match nth_error groups 1 with
        | Some g => Ok g
        | None => Raise IndexError
        end
    end.

(** ['{}'.format(v)] for a group of a match. *)
Definition format_group (g : option string) : string := default "None"%string g.

(** [Replay.lag_report_url]. *)
Definition lag_report_url (self : Replay) : result string :=
  let base_url :=
    "https://psyonixhr.wufoo.com/forms/game-server-performance-report"%string in
  if negb (truthy_str (server_name self)) then Ok base_url
  else
    match Re.search_server (default ""%string (server_name self)) with
    | None => Raise AttributeError
    | Some groups =>
        let arg i := format_group (default None (nth_error groups i)) in
        Ok (base_url ++ "/def/field1=" ++ arg 0%nat ++ "&field2=" ++ arg 1%nat
            ++ "&field13=" ++ arg 2%nat)%string
    end.

(** [Replay.match_length]. *)
Definition match_length (self : Replay) : result string :=
  if negb (truthy_int (num_frames self)) || negb (truthy_float (record_fps self))
  then Ok "N/A"%string
  else
    match num_frames self, record_fps self with
    | Some n, Some fps =>
        x ← PyFloat.of_int n;
        calculation ← PyFloat.truediv x fps;
        '(minutes, seconds) ← PyFloat.divmod calculation 60;
        m ← PyFloat.to_int minutes;
        s ← PyFloat.to_int seconds;
        Ok (format_clock m s)
    | _, _ => Raise TypeError
    end.

(** The [features] dictionary of [eligible_for_feature]. *)
Definition features : gmap string Z :=
  {[ "playback"%string := 300; "boost_analysis"%string := 1000 ]}.

Definition is_steam (p : Player) : bool :=
  match platform p with
  | Some s => String.eqb s "OnlinePlatform_Steam" || String.eqb s "1"
  | None => false
  end.

(** [Replay.eligible_for_feature]. *)
Definition eligible_for_feature (db : DB) (self : Replay) (feature : string)
  : result bool :=
  match features !! feature with
  | None => Raise (KeyError feature)
  | Some patreon_amount =>
      let uploader :=
        match user self with
        | Some u => patreon_amount <=? patreon_pledge_amount (Some u) None
        | None => false
        end in
      if uploader then Ok true
      else
        Ok (existsb
              (fun player =>
                 patreon_amount <=? patreon_pledge_amount None (online_id player))
              (List.filter is_steam (player_set db self)))
  end.

(** [Replay.eligible_for_playback]. *)
Definition eligible_for_playback (db : DB) (self : Replay) : result bool :=
  eligible_for_feature db self "playback".

(** [Replay.queue_priority]. *)
Definition queue_priority (db : DB) (self : Replay) : result string :=
  eligible ← eligible_for_playback db self;
  if eligible : bool then Ok "priority"%string else Ok "general"%string.

(** [Replay.get_absolute_url]. *)
Definition get_absolute_url (self : Replay) : result string :=
  match replay_id self with
  | None => Raise TypeError
  | Some rid =>
      Ok (reverse "replay:detail" [("replay_id"%string, lower (Re.sub_uuid rid))])
  end.

(** [Replay.objects.filter(replay_id=...)]. *)
Definition filter_replay_id (db : DB) (rid : string) : list Replay :=
  List.filter
    (fun r => match replay_id r with Some x => String.eqb x rid | None => false end)
    (replay_table db).

Definition invalid_file_message : string :=
  "The file you selected does not seem to be a valid replay file.".

Definition duplicate_message (url : string) : string :=
  ("This replay has already been uploaded, <a target='_blank' href='" ++ url
   ++ "'>you can view it here</a>.")%string.

(** [Replay.clean]: the instance after validation, or the exception raised. *)
Definition clean (db : DB) (self : Replay) : result Replay :=
  if truthy_int (pk self) then Ok self
  else if FieldFile_bool (file self) then
    replay ← match Pyrope (file_data (file self)) with
             | Raise ReadError => Raise (ValidationError [invalid_file_message])
             | other => other
             end;
    rid ← match Id replay with
          | Some rid => Ok rid
          | None => Raise (KeyError "Id")
          end;
    match filter_replay_id db rid with
    | existing :: _ =>
        url ← get_absolute_url existing;
        Raise (ValidationError [duplicate_message url])
    | [] => Ok (set_replay_id self (Some rid))
    end
  else Ok self.

(** [Replay.uuid]. *)
Definition uuid (self : Replay) : result string :=
  match replay_id self with
  | None => Raise TypeError
  | Some rid => Ok (lower (Re.sub_uuid rid))
  end.

(** [Replay.team_x_player_list]: the players of a team by name, each
    followed by the number of goals in brackets when there are any. *)
Definition team_x_player_list (db : DB) (self : Replay) (t : Z) : list string :=
  List.map
    (fun player =>
       let count := Z.of_nat (length (player_goal_set db player)) in
       let suffix :=
         if 0 <? count then (" (" ++ format_d count ++ ")")%string
         else ""%string in
       (p_player_name player ++ suffix)%string)
    (List.filter (fun player => team player =? t) (player_set db self)).

Definition team_x_players (db : DB) (self : Replay) (t : Z) : string :=
  String.concat ", " (team_x_player_list db self t).

Definition team_0_players (db : DB) (self : Replay) : string := team_x_players db self 0.
Definition team_1_players (db : DB) (self : Replay) : string := team_x_players db self 1.

Definition team_0_player_list (db : DB) (self : Replay) : list string :=
  team_x_player_list db self 0.
Definition team_1_player_list (db : DB) (self : Replay) : list string :=
  team_x_player_list db self 1.

(** [Replay.player_pairs]. *)
Definition player_pairs (db : DB) (self : Replay)
  : list (option string * option string) :=
  zip_longest (team_0_player_list db self) (team_1_player_list db self).

(** [Replay.show_playback]. *)
Definition show_playback (db : DB) (self : Replay) : result bool :=
  if negb (truthy_str (location_json_file self)) then Ok false
  else eligible_for_feature db self "playback".

(** [Replay.eligible_for_boost_analysis]. *)
Definition eligible_for_boost_analysis (db : DB) (self : Replay) : result bool :=
  eligible_for_feature db self "boost_analysis".

(** [Replay.show_boost_analysis]. *)
Definition show_boost_analysis (db : DB) (self : Replay) : result bool :=
  if (length (boostdata_set db self) =? 0)%nat then Ok false
  else eligible_for_feature db self "boost_analysis".

End Methods.
End Replay.

Module Goal.
Section Methods.
Context `{Environment}.

(** [Goal.goal_time]; [replay] is the row [self.replay] points at. *)
Definition goal_time (replay : Replay) (self : Goal) : result string :=
  if negb (truthy_int (frame self)) || negb (truthy_float (record_fps replay))
  then Ok "N/A"%string
  else
    match frame self, record_fps replay with
    | Some n, Some fps =>
        x ← PyFloat.of_int n;
        calculation ← PyFloat.truediv x fps;
        '(minutes, seconds) ← PyFloat.divmod calculation 60;
        m ← PyFloat.to_int minutes;
        s ← PyFloat.to_int seconds;
        Ok (format_clock m s)
    | _, _ => Raise TypeError
    end.

Definition number_field : integer_field :=
  {| field_type := PositiveIntegerField; blank := false; null := false;
     validators := [] |}.

Definition frame_field : integer_field :=
  {| field_type := IntegerField; blank := true; null := true;
     validators := [] |}.

(** [ForeignKey.validate]: the row the key points at has to exist. *)
Definition relation_errors (model : string) (found : bool) (key : Z) : list string :=
  if found then []
  else [(model ++ " instance with id " ++ format_d key ++ " does not exist.")%string].

Definition replay_exists (db : DB) (key : Z) : bool :=
  existsb (fun r => match pk r with Some k => k =? key | None => false end)
    (replay_table db).

Definition player_exists (db : DB) (key : Z) : bool :=
  existsb (fun p => player_pk p =? key) (player_table db).

(** [Goal.full_clean] of a row of the table: [clean_fields] validates the
    fields in the order of the model ([replay], [number], [player],
    [frame]); the model defines no [clean], and declares no unique field
    besides the key the database gives the row, so that [validate_unique]
    finds nothing to check. *)
Definition full_clean (db : DB) (self : Goal) : result Goal :=
  raise_if_errors
    (relation_errors "replay" (replay_exists db (goal_replay self)) (goal_replay self)
     ++ field_errors number_field (Some (number self))
     ++ relation_errors "player" (player_exists db (goal_player self)) (goal_player self)
     ++ field_errors frame_field (frame self))
    self.

End Methods.
End Goal.

Module ReplayPack.

(** The rows of [self.replays]. *)
Definition replays (db : DB) (self : ReplayPack) : list Replay :=
  List.filter
    (fun r => match pk r with
              | Some k => existsb (Z.eqb k) (pack_replays self)
              | None => false
              end)
    (replay_table db).

(** SQL [team_0_score + team_1_score]: [NULL] when either is. *)
Definition score_sum (r : Replay) : option Z :=
  match team_0_score r, team_1_score r with
  | Some a, Some b => Some (a + b)
  | _, _ => None
  end.

(** SQL [SUM]: [NULL] rows are skipped, and the sum of none is [NULL]. *)
Definition sql_sum (values : list (option Z)) : option Z :=
  match omap id values with
  | [] => None
  | vs => Some (fold_right Z.add 0 vs)
  end.

(** [ReplayPack.goals]. *)
Definition goals (db : DB) (self : ReplayPack) : option Z :=
  if (length (replays db self) =? 0)%nat then Some 0
  else sql_sum (List.map score_sum (replays db self)).

(** ['{} {}m {}s'.format(hours, minutes, seconds)]. *)
Definition format_duration (hours : string) (minutes seconds : Z) : string :=
  (hours ++ " " ++ format_d minutes ++ "m " ++ format_d seconds ++ "s")%string.

(** [ReplayPack.total_duration]. *)
Definition total_duration (db : DB) (self : ReplayPack) : result string :=
  calculation ←
    (if negb (length (replays db self) =? 0)%nat then
       match sql_sum (List.map num_frames (replays db self)) with
       | Some total => NFloat <$> PyFloat.int_truediv total 30
       | None => Raise TypeError
       end
     else Ok (NInt 0));
  '(minutes, seconds) ← pynum_divmod_60 calculation;
  '(hours, minutes) ← pynum_divmod_60 minutes;
  h ← (if pynum_positive hours
       then z ← pynum_to_int hours; Ok (format_d z ++ "h")%string
       else Ok ""%string);
  m ← pynum_to_int minutes;
  s ← pynum_to_int seconds;
  Ok (format_duration h m s).

End ReplayPack.

Module BoostData.
Section Methods.
Context `{Environment}.

Definition frame_field : integer_field :=
  {| field_type := PositiveIntegerField; blank := false; null := false;
     validators := [] |}.

Definition value_field : integer_field :=
  {| field_type := PositiveIntegerField; blank := false; null := false;
     validators := [MinValueValidator 0; MaxValueValidator 255] |}.

(** [BoostData.full_clean]: validation of the integer fields of a sample. *)
Definition full_clean (self : BoostData) : result BoostData :=
  raise_if_errors
    (field_errors frame_field (Some (boost_frame self))
     ++ field_errors value_field (Some (value self)))
    self.

End Methods.
End BoostData.

(** ** The REST serializers

    A serializer renders an instance as an ordered dictionary, one entry
    per field name.  Scalars are rendered by their stored value and a
    relation of a hyperlinked serializer by the URL of its target. *)

#[warnings="-register-all"]
Inductive pyval : Type :=
| VNone
| VBool (b : bool)
| VInt (z : Z)
| VFloat (x : float)
| VStr (s : string)
| VList (items : list pyval)
| VDict (entries : list (string * pyval)).

Definition of_option {A : Type} (f : A -> pyval) (v : option A) : pyval :=
  match v with Some a => f a | None => VNone end.

Module Serializers.
Section Serializers.
Context `{Environment}.

(** [list.remove(x)]: the first occurrence is removed. *)
Fixpoint remove_first (x : string) (l : list string) : list string :=
  match l with
  | [] => []
  | y :: l' => if String.eqb x y then l' else y :: remove_first x l'
  end.

(** The keys of an ordered dictionary filled in the order of [l]: a name
    met again keeps its first place. *)
Fixpoint ordered_keys (seen l : list string) : list string :=
  match l with
  | [] => []
  | x :: l' =>
      if existsb (String.eqb x) seen then ordered_keys seen l'
      else x :: ordered_keys (x :: seen) l'
  end.

(** The field names of a [HyperlinkedModelSerializer] whose [Meta] gives
    [exclude]: the URL field, the declared fields, the model's own
    fields and its forward relations, without the excluded names; a
    name listed twice keeps its first place. *)
Definition field_names (declared model_fields forward_relations exclude : list string)
  : list string :=
  ordered_keys []
    (fold_left (fun names x => remove_first x names) exclude
       ("url"%string :: declared ++ model_fields ++ forward_relations)).

(** [to_representation]: each field name with the value of its attribute. *)
Definition to_representation {A : Type} (getattr : A -> string -> result pyval)
    (names : list string) (instance : A) : result pyval :=
  entries ← mapM (fun name => v ← getattr instance name; Ok (name, v)) names;
  Ok (VDict entries).

Definition hyperlink (view_name : string) (k : Z) : pyval :=
  VStr (reverse view_name [("pk"%string, format_d k)]).

(** *** [MapSerializer] and [SeasonSerializer] *)

Definition Map_getattr (m : Map) (name : string) : result pyval :=
  if String.eqb name "url" then Ok (hyperlink "map-detail" (map_pk m))
  else if String.eqb name "title" then Ok (of_option VStr (map_title m))
  else if String.eqb name "slug" then Ok (VStr (slug m))
  else if String.eqb name "image" then Ok (of_option VStr (image m))
  else Raise AttributeError.

Definition MapSerializer (m : Map) : result pyval :=
  to_representation Map_getattr
    (field_names [] ["title"; "slug"; "image"]%string [] []) m.

Definition Season_getattr (s : Season) (name : string) : result pyval :=
  if String.eqb name "url" then Ok (hyperlink "season-detail" (season_pk s))
  else if String.eqb name "title" then Ok (VStr (season_title s))
  else if String.eqb name "start_date" then Ok (VInt (start_date s))
  else Raise AttributeError.

Definition SeasonSerializer (s : Season) : result pyval :=
  to_representation Season_getattr
    (field_names [] ["title"; "start_date"]%string [] []) s.

(** *** [GoalSerializer] *)

Definition Goal_getattr (replay : Replay) (g : Goal) (name : string) : result pyval :=
  if String.eqb name "url" then Ok (hyperlink "goal-detail" (goal_pk g))
  else if String.eqb name "goal_time" then VStr <$> Goal.goal_time replay g
  else if String.eqb name "player_id" then Ok (VInt (goal_player g))
  else if String.eqb name "number" then Ok (VInt (number g))
  else if String.eqb name "frame" then Ok (of_option VInt (frame g))
  else if String.eqb name "replay" then Ok (hyperlink "replay-detail" (goal_replay g))
  else if String.eqb name "player" then Ok (hyperlink "player-detail" (goal_player g))
  else Raise AttributeError.

Definition GoalSerializer (replay : Replay) (g : Goal) : result pyval :=
  to_representation (Goal_getattr replay)
    (field_names ["goal_time"; "player_id"]%string ["number"; "frame"]%string
       ["replay"; "player"]%string [])
    g.

(** *** [PlayerSerializer] *)

Definition Player_getattr (p : Player) (name : string) : result pyval :=
  if String.eqb name "url" then Ok (hyperlink "player-detail" (player_pk p))
  else if String.eqb name "id" then Ok (VInt (player_pk p))
  else if String.eqb name "replay" then Ok (hyperlink "replay-detail" (player_replay p))
  else if String.eqb name "player_name" then Ok (VStr (p_player_name p))
  else if String.eqb name "team" then Ok (VInt (team p))
  else if String.eqb name "score" then Ok (VInt (score p))
  else if String.eqb name "goals" then Ok (VInt (goals p))
  else if String.eqb name "shots" then Ok (VInt (shots p))
  else if String.eqb name "assists" then Ok (VInt (assists p))
  else if String.eqb name "saves" then Ok (VInt (saves p))
  else if String.eqb name "platform" then Ok (of_option VStr (platform p))
  else if String.eqb name "online_id" then Ok (of_option VStr (online_id p))
  else if String.eqb name "bot" then Ok (VBool (bot p))
  else if String.eqb name "spectator" then Ok (VBool (spectator p))
  else if String.eqb name "heatmap" then Ok (of_option VStr (heatmap p))
  else if String.eqb name "user_entered" then Ok (VBool (user_entered p))
  else if String.eqb name "actor_id" then Ok (of_option VInt (actor_id p))
  else if String.eqb name "unique_id" then Ok (of_option VStr (unique_id p))
  else if String.eqb name "party_leader"
  then Ok (of_option (hyperlink "player-detail") (party_leader p))
  else if String.eqb name "camera_settings" then Ok (of_option VStr (camera_settings p))
  else if String.eqb name "vehicle_loadout" then Ok (of_option VStr (vehicle_loadout p))
  else if String.eqb name "total_xp" then Ok (of_option VInt (total_xp p))
  else if String.eqb name "boost_data" then Ok (of_option VStr (boost_data p))
  else Raise AttributeError.

Definition Player_fields : list string :=
  ["player_name"; "team"; "score"; "goals"; "shots"; "assists"; "saves";
   "platform"; "online_id"; "bot"; "spectator"; "heatmap"; "user_entered";
   "actor_id"; "unique_id"; "camera_settings"; "vehicle_loadout"; "total_xp";
   "boost_data"]%string.

Definition PlayerSerializer (p : Player) : result pyval :=
  to_representation Player_getattr
    (field_names ["id"]%string Player_fields ["replay"; "party_leader"]%string
       ["replay"]%string)
    p.

(** *** [ReplaySerializer] *)

(** The related row of a nullable foreign key, rendered by [render]. *)
Definition related {A : Type} (rows : list A) (key : A -> Z)
    (render : A -> result pyval) (fk : option Z) : result pyval :=
  match fk with
  | None => Ok VNone
  | Some k =>
      match List.find (fun row => key row =? k) rows with
      | Some row => render row
      | None => Ok VNone
      end
  end.

Definition Replay_getattr (db : DB) (r : Replay) (name : string) : result pyval :=
  if String.eqb name "url" then Ok (of_option (hyperlink "replay-detail") (pk r))
  else if String.eqb name "id" then Ok (of_option VInt (pk r))
  else if String.eqb name "goal_set"
  then VList <$> mapM (GoalSerializer r) (goal_set db r)
  else if String.eqb name "player_set"
  then VList <$> mapM PlayerSerializer (player_set db r)
  else if String.eqb name "map"
  then related (map_table db) map_pk MapSerializer (map r)
  else if String.eqb name "season"
  then related (season_table db) season_pk SeasonSerializer (Some (season r))
  else if String.eqb name "user" then Ok (of_option (hyperlink "user-detail") (user r))
  else if String.eqb name "title" then Ok (of_option VStr (title r))
  else if String.eqb name "playlist" then Ok (of_option VInt (playlist r))
  else if String.eqb name "file" then Ok (of_option VStr (file_name (file r)))
  else if String.eqb name "heatmap_json_file" then Ok (of_option VStr (heatmap_json_file r))
  else if String.eqb name "location_json_file" then Ok (of_option VStr (location_json_file r))
  else if String.eqb name "replay_id" then Ok (of_option VStr (replay_id r))
  else if String.eqb name "player_name" then Ok (of_option VStr (player_name r))
  else if String.eqb name "player_team" then Ok (of_option VInt (player_team r))
  else if String.eqb name "server_name" then Ok (of_option VStr (server_name r))
  else if String.eqb name "timestamp" then Ok (of_option VInt (timestamp r))
  else if String.eqb name "date_created" then Ok (VInt (date_created r))
  else if String.eqb name "team_sizes" then Ok (of_option VInt (team_sizes r))
  else if String.eqb name "team_0_score" then Ok (of_option VInt (team_0_score r))
  else if String.eqb name "team_1_score" then Ok (of_option VInt (team_1_score r))
  else if String.eqb name "match_type" then Ok (of_option VStr (match_type r))
  else if String.eqb name "privacy" then Ok (VInt (privacy r))
  else if String.eqb name "keyframe_delay" then Ok (of_option VFloat (keyframe_delay r))
  else if String.eqb name "max_channels" then Ok (of_option VInt (max_channels r))
  else if String.eqb name "max_replay_size_mb" then Ok (of_option VInt (max_replay_size_mb r))
  else if String.eqb name "num_frames" then Ok (of_option VInt (num_frames r))
  else if String.eqb name "record_fps" then Ok (of_option VFloat (record_fps r))
  else if String.eqb name "shot_data" then Ok (of_option VStr (shot_data r))
  else if String.eqb name "excitement_factor" then Ok (VFloat (excitement_factor r))
  else if String.eqb name "show_leaderboard" then Ok (VBool (show_leaderboard r))
  else if String.eqb name "average_rating" then Ok (of_option VInt (average_rating r))
  else if String.eqb name "crashed_heatmap_parser"
  then Ok (VBool (crashed_heatmap_parser r))
  else if String.eqb name "processed" then Ok (VBool (processed r))
  else Raise AttributeError.

Definition Replay_fields : list string :=
  ["title"; "playlist"; "file"; "heatmap_json_file"; "location_json_file";
   "replay_id"; "player_name"; "player_team"; "server_name"; "timestamp";
   "date_created"; "team_sizes"; "team_0_score"; "team_1_score"; "match_type";
   "privacy"; "keyframe_delay"; "max_channels"; "max_replay_size_mb";
   "num_frames"; "record_fps"; "shot_data"; "excitement_factor";
   "show_leaderboard"; "average_rating"; "crashed_heatmap_parser";
   "processed"]%string.

Definition ReplaySerializer_field_names : list string :=
  field_names ["id"; "goal_set"; "player_set"; "map"; "season"]%string
    Replay_fields ["user"; "season"; "map"]%string
    ["user"; "crashed_heatmap_parser"]%string.

Definition ReplaySerializer (db : DB) (r : Replay) : result pyval :=
  to_representation (Replay_getattr db) ReplaySerializer_field_names r.

End Serializers.
End Serializers.

(** ** The parser's effects on the tables

    [models.py] imports [parse_replay_header] and [parse_replay_netstream]
    from the application's [parser] module, and [Replay.save] calls them. *)

Module Parser.
Section Parser.
Context `{Environment}.

Definition set_replay_table (db : DB) (rows : list Replay) : DB :=
  {| season_table := season_table db; map_table := map_table db;
     replay_table := rows; player_table := player_table db;
     goal_table := goal_table db; boostdata_table := boostdata_table db |}.

Definition set_boostdata_table (db : DB) (rows : list BoostData) : DB :=
  {| season_table := season_table db; map_table := map_table db;
     replay_table := replay_table db; player_table := player_table db;
     goal_table := goal_table db; boostdata_table := rows |}.

Definition has_pk (k : Z) (r : Replay) : bool :=
  match pk r with Some k' => k' =? k | None => false end.

(** Modelled from the spec: the failure path of [parse_replay_netstream],
    whose module [parser.py] is not among the sources.  The spec has a
    failed netstream decode set a standalone failure flag on the replay
    and publish no partial netstream artifacts, while the facts of the
    header parse remain valid and queryable. *)
Definition netstream_failed (db : DB) (replay_pk : Z) : DB :=
  set_replay_table db
    (List.map
       (fun r => if has_pk replay_pk r then set_crashed_heatmap_parser r true else r)
       (replay_table db)).

(** Modelled from the spec: the step of the telemetry aggregator that
    stores one decoded resource-gauge sample ([parser.py] is not among
    the sources).  The spec has a sample whose value is out of range
    skipped and decoding continued; the range check is the validation
    [BoostData] declares. *)
Definition store_boost_sample (db : DB) (sample : BoostData) : DB :=
  match BoostData.full_clean sample with
  | Ok b => set_boostdata_table db (boostdata_table db ++ [b])
  | Raise _ => db
  end.

Definition store_boost_samples (db : DB) (samples : list BoostData) : DB :=
  fold_left store_boost_sample samples db.

End Parser.
End Parser.

(** ** Notions the properties are stated with *)

(** The computation [match_length] and [goal_time] both perform once their
    guard has passed: [frames / fps] seconds as minutes and seconds. *)
Definition clock_of_frames (frames : Z) (fps : float) : result string :=
  x ← PyFloat.of_int frames;
  calculation ← PyFloat.truediv x fps;
  '(minutes, seconds) ← PyFloat.divmod calculation 60;
  m ← PyFloat.to_int minutes;
  s ← PyFloat.to_int seconds;
  Ok (format_clock m s).

(** The float of the dyadic number [N * 2 ^ E], for [N] that fits in the
    mantissa at the exponent the format gives the number. *)
Definition dyadic_exponent (N E : Z) : Z := fexp prec emax (Zdigits2 N + E).

Definition dyadic (N E : Z) : spec_float :=
  if N =? 0 then S754_zero false
  else S754_finite false (Z.to_pos (N * 2 ^ (E - dyadic_exponent N E)))
         (dyadic_exponent N E).

(** The string without its dashes. *)
Fixpoint without_dashes (s : string) : string :=
  match s with
  | EmptyString => EmptyString
  | String c s' => if Ascii.eqb c "-" then without_dashes s' else String c (without_dashes s')
  end.

(** [s[n:]]. *)
Fixpoint string_drop (n : nat) (s : string) : string :=
  match n, s with
  | O, _ => s
  | S n', String _ s' => string_drop n' s'
  | S _, EmptyString => EmptyString
  end.

(** The float [x] is the integer [z], which is not negative. *)
Definition whole (x : float) (z : Z) : Prop :=
  (z = 0 /\ exists s, Prim2SF x = S754_zero s)
  \/ (0 < z /\ Prim2SF x = dyadic z 0).

(** The table of seasons is in the order of the model. *)
Fixpoint latest_first (rows : list Season) : Prop :=
  match rows with
  | [] => True
  | r :: rows' => (forall r', In r' rows' -> start_date r' <= start_date r)
                  /\ latest_first rows'
  end.

(** [z] lies in the range the database backend gives a field type. *)
Definition in_backend_range `{Environment} (t : internal_type) (z : Z) : bool :=
  let '(min_value, max_value) := integer_field_range t in
  match min_value with Some lo => lo <=? z | None => true end
  && match max_value with Some hi => z <=? hi | None => true end.

(** A sample passes [BoostData] validation. *)
Definition passes `{Environment} (b : BoostData) : bool :=
  negb (raises (BoostData.full_clean b)).

(** ** What the header of a file says about its goals *)



(** ** The header tier

    [Replay.save] calls [parse_replay_header] of the application's
    [parser] module. *)




(** The facts of a replay that the header parse commits. *)
Definition header_facts (r : Replay) :=
  (replay_id r, title r, playlist r, player_name r, player_team r, map r,
   server_name r, timestamp r, team_sizes r, team_0_score r, team_1_score r,
   match_type r, keyframe_delay r, max_channels r, max_replay_size_mb r,
   num_frames r, record_fps r).

(** What a failed decode leaves of a row [r] in the row [r'] that replaces it. *)
Definition same_but_flag `{Environment} (db db' : DB) (k : Z) (r r' : Replay) : Prop :=
  pk r' = pk r
  /\ header_facts r' = header_facts r
  /\ player_set db' r' = player_set db r
  /\ goal_set db' r' = goal_set db r
  /\ set_crashed_heatmap_parser r' (crashed_heatmap_parser r) = r
  /\ (Parser.has_pk k r = true -> crashed_heatmap_parser r' = true)
  /\ (Parser.has_pk k r = false -> r' = r)
  /\ Serializers.ReplaySerializer db' r' = Serializers.ReplaySerializer db r.

(** ** A concrete environment and sample rows *)

Module Example.

Definition header (rid : string) : Header :=
  {| Id := Some rid; TeamSize := Some 3; Team0Score := Some 2;
     Team1Score := Some 1; NumFrames := Some 5400; RecordFPS := Some 30%float;
     Goals := Some [ {| PlayerName := "a"; PlayerTeam := 0; goal_frame := 100 |};
                     {| PlayerName := "b"; PlayerTeam := 1; goal_frame := 2000 |};
                     {| PlayerName := "a"; PlayerTeam := 0; goal_frame := 5000 |} ] |}.

(** A file whose header announces no goal in its scores and lists three. *)
Definition lopsided_header : Header :=
  {| Id := Some "0123456789ABCDEF0123456789ABCDEF"%string; TeamSize := Some 3;
     Team0Score := Some 0; Team1Score := Some 0; NumFrames := Some 5400;
     RecordFPS := Some 30%float; Goals := Goals (header "") |}.

(** A decoder on toy files: an empty file ends before its header does,
    a file starting with byte 1 carries [lopsided_header], any other
    file the header of one fixed match. *)
Definition decode (data : list Byte.byte) : result Header :=
  match data with
  | [] => Raise ReadError
  | Byte.x01 :: _ => Ok lopsided_header
  | _ :: _ => Ok (header "ABCDEF0141234567ABCDEF0123456789")
  end.

#[local] Instance env : Environment := {|
  Pyrope := decode;
  reverse := fun view kwargs =>
    ("/" ++ view ++ "/" ++ String.concat "/" (List.map snd kwargs))%string;
  search_SERVER_REGEX := Re.search_server;
  patreon_pledge_amount := fun u steam_id =>
    match u, steam_id with
    | Some 1, _ => 500
    | _, Some "76561198000000001"%string => 300
    | _, _ => 0
    end;
  integer_field_range := fun t =>
    match t with
    | IntegerField => (Some (-2147483648), Some 2147483647)
    | PositiveIntegerField => (Some 0, Some 2147483647)
    end
|}.

Definition upload (data : list Byte.byte) : Replay :=
  {| pk := None; user := None; season := 1; title := None; playlist := Some 0;
     file := {| file_name := Some "uploads/replay_files/a.replay"%string;
                file_data := data |};
     heatmap_json_file := None; location_json_file := None;
     replay_id := None; player_name := None; player_team := Some 0;
     map := None; server_name := None; timestamp := None; date_created := 0;
     team_sizes := None; team_0_score := Some 0; team_1_score := Some 0;
     match_type := None; privacy := 3; keyframe_delay := None;
     max_channels := Some 1023; max_replay_size_mb := Some 10;
     num_frames := None; record_fps := Some 30%float; shot_data := None;
     excitement_factor := 0%float; show_leaderboard := false;
     average_rating := Some 0; crashed_heatmap_parser := false;
     processed := false |}.

(** The stored replay of the concrete scenario: 3v3, 2-1, 5400 frames
    recorded at 30 frames a second. *)
Definition stored : Replay :=
  {| pk := Some 1; user := Some 1; season := 1; title := None; playlist := Some 0;
     file := {| file_name := Some "uploads/replay_files/a.replay"%string;
                file_data := [Byte.x00] |};
     heatmap_json_file := None; location_json_file := None;
     replay_id := Some "ABCDEF0141234567ABCDEF0123456789"%string;
     player_name := Some "a"%string; player_team := Some 0;
     map := None; server_name := Some "EU12-Dice"%string;
     timestamp := Some 1450000000; date_created := 1450000100;
     team_sizes := Some 3; team_0_score := Some 2; team_1_score := Some 1;
     match_type := Some "Online"%string; privacy := 3; keyframe_delay := None;
     max_channels := Some 1023; max_replay_size_mb := Some 10;
     num_frames := Some 5400; record_fps := Some 30%float; shot_data := None;
     excitement_factor := 0%float; show_leaderboard := false;
     average_rating := Some 0; crashed_heatmap_parser := false;
     processed := true |}.

(** A stored replay with the given frame count and frame rate. *)
Definition recording (frames : option Z) (fps : option float) : Replay :=
  {| pk := Some 2; user := None; season := 1; title := None; playlist := Some 0;
     file := {| file_name := Some "uploads/replay_files/b.replay"%string;
                file_data := [Byte.x00] |};
     heatmap_json_file := None; location_json_file := None;
     replay_id := Some "0123456789AB4DEF0123456789ABCDEF"%string;
     player_name := None; player_team := Some 0;
     map := None; server_name := None; timestamp := None; date_created := 0;
     team_sizes := None; team_0_score := Some 0; team_1_score := Some 0;
     match_type := None; privacy := 3; keyframe_delay := None;
     max_channels := Some 1023; max_replay_size_mb := Some 10;
     num_frames := frames; record_fps := fps; shot_data := None;
     excitement_factor := 0%float; show_leaderboard := false;
     average_rating := Some 0; crashed_heatmap_parser := false;
     processed := true |}.

Definition player (k : Z) (name : string) (t : Z) (steam_id : string) : Player :=
  {| player_pk := k; player_replay := 1; p_player_name := name; team := t;
     score := 0; goals := 0; shots := 0; assists := 0; saves := 0;
     platform := Some "OnlinePlatform_Steam"%string; online_id := Some steam_id;
     bot := false; spectator := false; heatmap := None; user_entered := false;
     actor_id := Some 0; unique_id := None; party_leader := None;
     camera_settings := None; vehicle_loadout := None; total_xp := Some 0;
     boost_data := None |}.

Definition goal (k : Z) (scorer : Z) (f : option Z) : Goal :=
  {| goal_pk := k; goal_replay := 1; number := k; goal_player := scorer; frame := f |}.

Definition empty_db : DB :=
  {| season_table := []; map_table := []; replay_table := [];
     player_table := []; goal_table := []; boostdata_table := [] |}.

Definition db : DB :=
  {| season_table := [ {| season_pk := 1; season_title := "Season 1";
                          start_date := 1436227200 |} ];
     map_table := [];
     replay_table := [stored];
     player_table := [player 1 "a" 0 "76561198000000002";
                      player 2 "b" 1 "76561198000000003"];
     goal_table := [goal 1 1 (Some 100); goal 2 2 (Some 2000); goal 3 1 (Some 5000)];
     boostdata_table := [] |}.

(** The environment above with an uploader, user 1, who pledges 1000. *)
Definition generous_env : Environment := {|
  Pyrope := decode;
  reverse := fun view kwargs =>
    ("/" ++ view ++ "/" ++ String.concat "/" (List.map snd kwargs))%string;
  search_SERVER_REGEX := Re.search_server;
  patreon_pledge_amount := fun u steam_id =>
    match u with
    | Some 1 => 1000
    | _ => 0
    end;
  integer_field_range := fun t =>
    match t with
    | IntegerField => (Some (-2147483648), Some 2147483647)
    | PositiveIntegerField => (Some 0, Some 2147483647)
    end
|}.

(** The stored replay once its location file was written. *)
Definition located : Replay :=
  {| pk := Some 1; user := Some 1; season := 1; title := None; playlist := Some 0;
     file := {| file_name := Some "uploads/replay_files/a.replay"%string;
                file_data := [Byte.x00] |};
     heatmap_json_file := None;
     location_json_file := Some "uploads/replay_location_json_files/a.json"%string;
     replay_id := Some "ABCDEF0141234567ABCDEF0123456789"%string;
     player_name := Some "a"%string; player_team := Some 0;
     map := None; server_name := Some "EU12-Dice"%string;
     timestamp := Some 1450000000; date_created := 1450000100;
     team_sizes := Some 3; team_0_score := Some 2; team_1_score := Some 1;
     match_type := Some "Online"%string; privacy := 3; keyframe_delay := None;
     max_channels := Some 1023; max_replay_size_mb := Some 10;
     num_frames := Some 5400; record_fps := Some 30%float; shot_data := None;
     excitement_factor := 0%float; show_leaderboard := false;
     average_rating := Some 0; crashed_heatmap_parser := false;
     processed := true |}.



(** The player a goal of the header refers to, by name. *)
Definition scorer (hg : HeaderGoal) : Z :=
  if String.eqb (PlayerName hg) "a" then 1 else 2.

(** A replay nobody pledged for: no uploader, no players. *)
Definition anonymous : Replay := upload [Byte.x00].

Definition sample (v : Z) : BoostData :=
  {| boost_replay := 1; boost_player := 1; boost_frame := 10; value := v |}.

(** A pack of the stored replay and of a long one, and their table. *)
Definition pack : ReplayPack :=
  {| pack_title := "Finals"; pack_user := 1; pack_replays := [1; 2] |}.

Definition pack_db : DB :=
  {| season_table := season_table db; map_table := map_table db;
     replay_table := [stored; recording (Some 216000) (Some 30%float)];
     player_table := player_table db; goal_table := goal_table db;
     boostdata_table := [] |}.

(** The database once two samples of the stored replay were kept. *)
Definition sampled_db : DB :=
  {| season_table := season_table db; map_table := map_table db;
     replay_table := replay_table db; player_table := player_table db;
     goal_table := goal_table db; boostdata_table := [sample 0; sample 255] |}.

End Example.

(** * Properties *)

(** Closed examples are computed in the concrete environment. *)
#[local] Existing Instance Example.env.

(** ** Upload validation: [Replay.clean] *)

Section CleanFacts.
Context `{Environment}.

Lemma filter_replay_id_In (db : DB) (rid : string) (r : Replay) :
  In r (Replay.filter_replay_id db rid) <->
  In r (replay_table db) /\ replay_id r = Some rid.
Proof.
  unfold Replay.filter_replay_id. rewrite filter_In.
  destruct (replay_id r) as [x|]; [|intuition discriminate].
  destruct (String.eqb_spec x rid) as [->|Hne]; [tauto|].
  split; intros [Hin Heq]; [discriminate|]. injection Heq as ->. contradiction.
Qed.

Lemma filter_replay_id_nil (db : DB) (rid : string) :
  Replay.filter_replay_id db rid = [] <->
  forall r, In r (replay_table db) -> replay_id r <> Some rid.
Proof.
  split.
  - intros Hnil r Hin Heq.
    assert (Hr : In r (Replay.filter_replay_id db rid))
      by (apply filter_replay_id_In; auto).
    rewrite Hnil in Hr. destruct Hr.
  - intros Hfresh. destruct (Replay.filter_replay_id db rid) as [|r l] eqn:E; [reflexivity|].
    assert (Hr : In r (Replay.filter_replay_id db rid)) by (rewrite E; left; reflexivity).
    apply filter_replay_id_In in Hr as [Hin Heq]. destruct (Hfresh r Hin Heq).
Qed.

(** The URL [clean] links to is that of the identifier itself, whichever
    of the matching rows comes first. *)
Lemma get_absolute_url_of_id (r : Replay) (rid : string) :
  replay_id r = Some rid ->
  Replay.get_absolute_url r
  = Ok (reverse "replay:detail" [("replay_id"%string, lower (Re.sub_uuid rid))]).
Proof. intros Heq. unfold Replay.get_absolute_url. rewrite Heq. reflexivity. Qed.

(** [clean] on a new instance with a file, once the decoder's answer is known. *)
Lemma clean_new_upload (db : DB) (self : Replay) :
  truthy_int (pk self) = false ->
  FieldFile_bool (file self) = true ->
  Replay.clean db self =
  match Pyrope (file_data (file self)) with
  | Raise ReadError => Raise (ValidationError [Replay.invalid_file_message])
  | Raise e => Raise e
  | Ok h =>
      match Id h with
      | None => Raise (KeyError "Id")
      | Some rid =>
          match Replay.filter_replay_id db rid with
          | existing :: _ =>
              url ← Replay.get_absolute_url existing;
              Raise (ValidationError [Replay.duplicate_message url])
          | [] => Ok (set_replay_id self (Some rid))
          end
      end
  end.
Proof.
  intros Hpk Hfile. unfold Replay.clean. rewrite Hpk, Hfile.
  destruct (Pyrope (file_data (file self))) as [h|e]; [|destruct e; reflexivity].
  cbn. destruct (Id h); reflexivity.
Qed.

End CleanFacts.

(** C2: an upload whose header carries the identifier of an existing replay
    is rejected by [Replay.clean]: it raises a validation error whose
    message names the address of the existing replay, and returns no
    instance, so that nothing of the upload is kept.  An upload with a
    fresh identifier passes this check and has its [replay_id] set from
    the header.  The address is stated for identifiers of ASCII
    characters, as those of the format are. *)
Theorem clean_duplicate_detection `{Environment}
    (db : DB) (self : Replay) (h : Header) (rid : string) :
  truthy_int (pk self) = false ->
  FieldFile_bool (file self) = true ->
  Pyrope (file_data (file self)) = Ok h ->
  Id h = Some rid ->
  ((exists existing, In existing (replay_table db) /\ replay_id existing = Some rid) ->
   is_ascii rid = true ->
   let url := reverse "replay:detail" [("replay_id"%string, lower (Re.sub_uuid rid))] in
   Replay.clean db self
   = Raise (ValidationError
              [("This replay has already been uploaded, <a target='_blank' href='"
                ++ url ++ "'>you can view it here</a>.")%string])
   /\ forall accepted, Replay.clean db self <> Ok accepted)
  /\ ((forall existing, In existing (replay_table db) -> replay_id existing <> Some rid) ->
      Replay.clean db self = Ok (set_replay_id self (Some rid))
      /\ replay_id (set_replay_id self (Some rid)) = Id h).
Proof.
  intros Hpk Hfile Hparse Hid.
  pose proof (clean_new_upload db self Hpk Hfile) as Hclean.
  rewrite Hparse, Hid in Hclean.
  split.
  - intros [existing [Hin Heq]] _ url.
    destruct (Replay.filter_replay_id db rid) as [|first rest] eqn:E.
    + destruct (proj1 (filter_replay_id_nil db rid) E existing Hin Heq).
    + assert (Hfirst : In first (Replay.filter_replay_id db rid))
        by (rewrite E; left; reflexivity).
      apply filter_replay_id_In in Hfirst as [_ Hfirst].
      rewrite (get_absolute_url_of_id first rid Hfirst) in Hclean.
      rewrite Hclean. split; [reflexivity|].
      intros accepted Habs. discriminate Habs.
  - intros Hfresh. apply (proj2 (filter_replay_id_nil db rid)) in Hfresh.
    rewrite Hfresh in Hclean. split; [exact Hclean|].
    rewrite Hid. reflexivity.
Qed.

Lemma clean_duplicate_detection_witness :
  Replay.clean Example.db (Example.upload [Byte.x00])
  = Raise (ValidationError
             ["This replay has already been uploaded, <a target='_blank' href='/replay:detail/abcdef01-4123-4567-abcd-ef0123456789'>you can view it here</a>."%string])
  /\ Replay.clean Example.empty_db (Example.upload [Byte.x00])
     = Ok (set_replay_id (Example.upload [Byte.x00])
             (Some "ABCDEF0141234567ABCDEF0123456789"%string)).
Proof.
  pose (rid := "ABCDEF0141234567ABCDEF0123456789"%string).
  split.
  - apply (proj1 (@clean_duplicate_detection Example.env Example.db (Example.upload [Byte.x00])
                    (Example.header rid) rid eq_refl eq_refl eq_refl eq_refl)).
    + exists Example.stored. split; [left|]; reflexivity.
    + reflexivity.
  - apply (proj2 (@clean_duplicate_detection Example.env Example.empty_db (Example.upload [Byte.x00])
                    (Example.header rid) rid eq_refl eq_refl eq_refl eq_refl)).
    intros existing [].
Defined.

(** C3: when decoding the uploaded bytes reads past their end, [Replay.clean]
    raises the validation error saying the file is not a valid replay, and
    it returns no instance: the file is never accepted. *)
Theorem clean_truncated_file_rejected `{Environment} (db : DB) (self : Replay) :
  truthy_int (pk self) = false ->
  FieldFile_bool (file self) = true ->
  Pyrope (file_data (file self)) = Raise ReadError ->
  Replay.clean db self
  = Raise (ValidationError
             ["The file you selected does not seem to be a valid replay file."%string])
  /\ (forall accepted, Replay.clean db self <> Ok accepted).
Proof.
  intros Hpk Hfile Hparse.
  pose proof (clean_new_upload db self Hpk Hfile) as Hclean.
  rewrite Hparse in Hclean. rewrite Hclean.
  split; [reflexivity|]. intros accepted Habs. discriminate Habs.
Qed.

Lemma clean_truncated_file_rejected_witness :
  Replay.clean Example.db (Example.upload [])
  = Raise (ValidationError
             ["The file you selected does not seem to be a valid replay file."%string]).
Proof.
  apply (@clean_truncated_file_rejected Example.env Example.db (Example.upload [])); reflexivity.
Defined.

(** ** Goals and scores *)







(** ** Queue priority *)

Section PriorityFacts.
Context `{Environment}.

Lemma eligible_for_playback_total (db : DB) (self : Replay) :
  exists b, Replay.eligible_for_playback db self = Ok b.
Proof.
  unfold Replay.eligible_for_playback, Replay.eligible_for_feature.
  change (Replay.features !! "playback"%string) with (Some 300).
  cbv iota beta.
  match goal with |- context [if ?c then _ else _] => destruct c end; eauto.
Qed.

Lemma queue_priority_cases (db : DB) (self : Replay) :
  (Replay.eligible_for_playback db self = Ok true
   /\ Replay.queue_priority db self = Ok "priority"%string)
  \/ (Replay.eligible_for_playback db self = Ok false
      /\ Replay.queue_priority db self = Ok "general"%string).
Proof.
  unfold Replay.queue_priority.
  destruct (eligible_for_playback_total db self) as [[|] Hb]; rewrite Hb;
    [left|right]; split; reflexivity.
Qed.

End PriorityFacts.

(** The claim that each of the three classes is reachable fails: no
    environment, database and replay make [queue_priority] answer
    ['tournament']. *)
Lemma queue_priority_never_tournament :
  ~ (exists (env : Environment) (db : DB) (self : Replay),
        Replay.queue_priority db self = Ok "tournament"%string).
Proof.
  intros [env [db [self Habs]]].
  destruct (queue_priority_cases db self) as [[_ Hq]|[_ Hq]];
    rewrite Hq in Habs; discriminate Habs.
Qed.

(** C6 (amended): [queue_priority] answers one of two classes, ['priority']
    exactly when the replay is eligible for playback and ['general']
    otherwise; both are reached, and ['tournament'], which the code's
    comment names as the highest class, is never answered. *)
Theorem queue_priority_two_classes :
  (forall (env : Environment) (db : DB) (self : Replay),
      (Replay.queue_priority db self = Ok "priority"%string
       <-> Replay.eligible_for_playback db self = Ok true)
      /\ (Replay.queue_priority db self = Ok "general"%string
          <-> Replay.eligible_for_playback db self = Ok false)
      /\ Replay.queue_priority db self <> Ok "tournament"%string)
  /\ Replay.queue_priority Example.db Example.stored = Ok "priority"%string
  /\ Replay.queue_priority Example.db Example.anonymous = Ok "general"%string.
Proof.
  split; [|split; reflexivity].
  intros env db self.
  destruct (queue_priority_cases db self) as [[He Hq]|[He Hq]];
    rewrite He, Hq; repeat split; intros Habs; discriminate Habs.
Qed.

(** ** Validation of goals *)

Section FieldFacts.
Context `{Environment}.

(** A field that declares no validator of its own checks the backend's
    range and nothing else. *)
Lemma run_validators_undeclared (f : integer_field) (z : Z) :
  validators f = [] ->
  (run_validators f z = [] <-> in_backend_range (field_type f) z = true).
Proof.
  intros Hnone. unfold run_validators, field_validators, in_backend_range.
  rewrite Hnone.
  destruct (integer_field_range (field_type f)) as [[lo|] [hi|]]; cbn;
    repeat match goal with
      | |- context [?a <? ?b] => destruct (Z.ltb_spec a b)
      | |- context [?a <=? ?b] => destruct (Z.leb_spec a b)
      end;
    cbn; split; intros E; try discriminate E; try reflexivity; lia.
Qed.

Lemma raise_if_errors_ok {A : Type} (errors : list string) (a b : A) :
  raise_if_errors errors a = Ok b <-> errors = [] /\ b = a.
Proof.
  unfold raise_if_errors. destruct errors; split.
  - intros E. injection E as <-. auto.
  - intros [_ ->]. reflexivity.
  - intros E. discriminate E.
  - intros [E _]. discriminate E.
Qed.

End FieldFacts.

(** The claim that a goal whose frame lies outside [[0, num_frames)] fails
    validation does not hold: a goal of the stored replay of 5400 frames,
    scored by one of its players at frame -1, passes [full_clean]. *)
Lemma goal_frame_out_of_range_accepted :
  ~ (forall (env : Environment) (db : DB) (replay : Replay) (g : Goal) (n f : Z),
        In replay (replay_table db) ->
        pk replay = Some (goal_replay g) ->
        num_frames replay = Some n ->
        frame g = Some f ->
        f < 0 \/ n <= f ->
        raises (Goal.full_clean db g) = true).
Proof.
  intros Hclaim.
  specialize (Hclaim Example.env Example.db Example.stored
                (Example.goal 1 1 (Some (-1))) 5400 (-1)
                ltac:(left; reflexivity) eq_refl eq_refl eq_refl).
  assert (Hout : -1 < 0 \/ 5400 <= -1) by (left; lia).
  specialize (Hclaim Hout). vm_compute in Hclaim. discriminate Hclaim.
Qed.

Section GoalFacts.
Context `{Environment}.

Lemma relation_errors_nil (model : string) (found : bool) (key : Z) :
  Goal.relation_errors model found key = [] <-> found = true.
Proof. unfold Goal.relation_errors. destruct found; split; intros E; try reflexivity; discriminate E. Qed.

End GoalFacts.

(** C8 (amended): [Goal.frame] is a nullable integer field that declares no
    validator.  Validation of a goal never consults the replay's
    [num_frames]: it accepts the goal, unchanged, exactly when its replay
    and its player exist, and its number and its frame, if it has one,
    lie in the ranges the database backend gives their field types.
    Negative frames and frames at or beyond [num_frames] are accepted. *)
Theorem goal_frame_validation `{Environment} (db : DB) (g : Goal) :
  (Goal.full_clean db g = Ok g
   <-> Goal.replay_exists db (goal_replay g) = true
       /\ Goal.player_exists db (goal_player g) = true
       /\ in_backend_range PositiveIntegerField (number g) = true
       /\ match frame g with
          | Some f => in_backend_range IntegerField f = true
          | None => True
          end)
  /\ (forall g', Goal.full_clean db g = Ok g' -> g' = g).
Proof.
  unfold Goal.full_clean. split.
  - rewrite raise_if_errors_ok.
    assert (Hnum : field_errors Goal.number_field (Some (number g)) = []
                   <-> in_backend_range PositiveIntegerField (number g) = true)
      by (apply (run_validators_undeclared Goal.number_field); reflexivity).
    assert (Hframe : field_errors Goal.frame_field (frame g) = []
                     <-> match frame g with
                         | Some f => in_backend_range IntegerField f = true
                         | None => True
                         end).
    { destruct (frame g) as [f|].
      - apply (run_validators_undeclared Goal.frame_field). reflexivity.
      - cbn. tauto. }
    rewrite <- Hnum, <- Hframe.
    rewrite <- (relation_errors_nil "replay" _ (goal_replay g)).
    rewrite <- (relation_errors_nil "player" _ (goal_player g)).
    split.
    + intros [Happ _]. apply app_eq_nil in Happ as [Hreplay Happ].
      apply app_eq_nil in Happ as [Hnumber Happ].
      apply app_eq_nil in Happ as [Hplayer Hfr]. auto.
    + intros [-> [-> [-> ->]]]. split; reflexivity.
  - intros g' Hok. apply raise_if_errors_ok in Hok. apply Hok.
Qed.

Lemma goal_frame_validation_witness :
  Goal.full_clean Example.db (Example.goal 1 1 (Some (-1)))
  = Ok (Example.goal 1 1 (Some (-1)))
  /\ Goal.full_clean Example.db (Example.goal 2 1 (Some 5400))
     = Ok (Example.goal 2 1 (Some 5400)).
Proof.
  split.
  - apply (proj1 (@goal_frame_validation Example.env Example.db
                    (Example.goal 1 1 (Some (-1))))).
    repeat split; reflexivity.
  - apply (proj1 (@goal_frame_validation Example.env Example.db
                    (Example.goal 2 1 (Some 5400)))).
    repeat split; reflexivity.
Defined.

(** ** Match length and goal time *)

Lemma match_length_unfold (r : Replay) :
  Replay.match_length r =
  match num_frames r, record_fps r with
  | Some n, Some fps =>
      if negb (n =? 0) && PyFloat.truthy fps then clock_of_frames n fps
      else Ok "N/A"%string
  | _, _ => Ok "N/A"%string
  end.
Proof.
  unfold Replay.match_length, clock_of_frames.
  destruct (num_frames r) as [n|], (record_fps r) as [fps|]; cbn;
    try reflexivity.
  - destruct (negb (n =? 0)), (PyFloat.truthy fps); reflexivity.
  - destruct (negb (n =? 0)); reflexivity.
Qed.

Lemma goal_time_unfold (replay : Replay) (g : Goal) :
  Goal.goal_time replay g =
  match frame g, record_fps replay with
  | Some n, Some fps =>
      if negb (n =? 0) && PyFloat.truthy fps then clock_of_frames n fps
      else Ok "N/A"%string
  | _, _ => Ok "N/A"%string
  end.
Proof.
  unfold Goal.goal_time, clock_of_frames.
  destruct (frame g) as [n|], (record_fps replay) as [fps|]; cbn;
    try reflexivity.
  - destruct (negb (n =? 0)), (PyFloat.truthy fps); reflexivity.
  - destruct (negb (n =? 0)); reflexivity.
Qed.

Lemma mbind_no_raise {A B : Type} (m : result A) (k : A -> result B) (e : exn) :
  m <> Raise e -> (forall a, k a <> Raise e) -> m ≫= k <> Raise e.
Proof.
  intros Hm Hk. destruct m as [a|e']; [apply Hk|].
  intros E. apply Hm. injection E as ->. reflexivity.
Qed.

Lemma of_int_no_zero_division (n : Z) : PyFloat.of_int n <> Raise ZeroDivisionError.
Proof.
  unfold PyFloat.of_int. destruct (is_infinity _); intros E; discriminate E.
Qed.

Lemma to_int_no_zero_division (x : float) : PyFloat.to_int x <> Raise ZeroDivisionError.
Proof.
  unfold PyFloat.to_int. destruct (Prim2SF x); intros E; discriminate E.
Qed.

Lemma truediv_defined (x y : float) :
  PyFloat.truthy y = true -> PyFloat.truediv x y = Ok (x / y)%float.
Proof.
  unfold PyFloat.truthy, PyFloat.truediv. destruct (y =? 0)%float; [discriminate|reflexivity].
Qed.

Lemma divmod_defined (x y : float) :
  PyFloat.truthy y = true -> exists qr, PyFloat.divmod x y = Ok qr.
Proof.
  unfold PyFloat.truthy at 1, PyFloat.divmod.
  destruct (y =? 0)%float; [discriminate|]. intros _.
  match goal with
  | |- context [let '(md, dv) := ?p in _] => destruct p as [md dv]
  end.
  eexists. reflexivity.
Qed.

(** With a divisor that is not zero the shared computation raises no
    [ZeroDivisionError]: the division is defined, [divmod] divides by 60,
    and the conversions fail in other ways only. *)
Lemma clock_of_frames_no_zero_division (n : Z) (fps : float) :
  PyFloat.truthy fps = true ->
  clock_of_frames n fps <> Raise ZeroDivisionError.
Proof.
  intros Htruthy. unfold clock_of_frames.
  apply mbind_no_raise; [apply of_int_no_zero_division|]. intros x.
  rewrite (truediv_defined x fps Htruthy).
  apply mbind_no_raise; [intros E; discriminate E|]. intros calculation.
  destruct (divmod_defined calculation 60 eq_refl) as [[minutes seconds] ->].
  apply mbind_no_raise; [intros E; discriminate E|]. intros [minutes' seconds'].
  apply mbind_no_raise; [apply to_int_no_zero_division|]. intros m.
  apply mbind_no_raise; [apply to_int_no_zero_division|]. intros sec E.
  discriminate E.
Qed.

(** C9: [goal_time] answers ['N/A'] for a goal at frame 0 (or without a
    frame) and for a replay without a recording rate, [match_length]
    answers ['N/A'] when the frame count or the recording rate is missing
    or zero, and neither ever raises [ZeroDivisionError]. *)
Theorem no_division_by_zero :
  (forall replay g,
      frame g = Some 0 \/ frame g = None \/ record_fps replay = None
      \/ (exists x, record_fps replay = Some x /\ (x =? 0)%float = true) ->
      Goal.goal_time replay g = Ok "N/A"%string)
  /\ (forall r,
         num_frames r = None \/ num_frames r = Some 0 \/ record_fps r = None
         \/ (exists x, record_fps r = Some x /\ (x =? 0)%float = true) ->
         Replay.match_length r = Ok "N/A"%string)
  /\ (forall replay g, Goal.goal_time replay g <> Raise ZeroDivisionError)
  /\ (forall r, Replay.match_length r <> Raise ZeroDivisionError).
Proof.
  split; [|split; [|split]].
  - intros replay g Hcase. rewrite goal_time_unfold.
    destruct (frame g) as [n|]; [|reflexivity].
    destruct (record_fps replay) as [fps|]; [|reflexivity].
    destruct Hcase as [E|[E|[E|[x [E Hx]]]]]; try discriminate E.
    + injection E as ->. reflexivity.
    + injection E as ->. unfold PyFloat.truthy.
      rewrite Hx, andb_false_r. reflexivity.
  - intros r Hcase. rewrite match_length_unfold.
    destruct (num_frames r) as [n|]; [|reflexivity].
    destruct (record_fps r) as [fps|]; [|reflexivity].
    destruct Hcase as [E|[E|[E|[x [E Hx]]]]]; try discriminate E.
    + injection E as ->. reflexivity.
    + injection E as ->. unfold PyFloat.truthy.
      rewrite Hx, andb_false_r. reflexivity.
  - intros replay g. rewrite goal_time_unfold.
    destruct (frame g) as [n|], (record_fps replay) as [fps|]; try discriminate.
    destruct (negb (n =? 0)); cbn; [|discriminate].
    destruct (PyFloat.truthy fps) eqn:Ht; [|discriminate].
    apply clock_of_frames_no_zero_division, Ht.
  - intros r. rewrite match_length_unfold.
    destruct (num_frames r) as [n|], (record_fps r) as [fps|]; try discriminate.
    destruct (negb (n =? 0)); cbn; [|discriminate].
    destruct (PyFloat.truthy fps) eqn:Ht; [|discriminate].
    apply clock_of_frames_no_zero_division, Ht.
Qed.

Lemma no_division_by_zero_witness :
  Goal.goal_time Example.stored (Example.goal 1 1 (Some 0)) = Ok "N/A"%string
  /\ Replay.match_length (Example.upload []) = Ok "N/A"%string.
Proof.
  destruct no_division_by_zero as [Hgoal [Hmatch _]]. split.
  - apply Hgoal. left. reflexivity.
  - apply Hmatch. left. reflexivity.
Defined.


(** ** Region of a replay *)

(** C10: [region] answers ['N/A'] for a replay whose server name is null or
    empty; for a server name that is not empty and that the configured
    pattern does not match, it raises ([re.search] gives [None], whose
    [groups] attribute is then looked up) and answers no fallback value.
    [lag_report_url] behaves the same way on its own pattern, which is
    stated for server names of ASCII characters. *)
Theorem region_of_unmatched_server_name `{Environment} (self : Replay) :
  (server_name self = None \/ server_name self = Some ""%string ->
   Replay.region self = Ok (Some "N/A"%string))
  /\ (forall name,
         server_name self = Some name ->
         name <> ""%string ->
         search_SERVER_REGEX name = None ->
         Replay.region self = Raise AttributeError
         /\ forall answer, Replay.region self <> Ok answer)
  /\ (forall name,
         server_name self = Some name ->
         name <> ""%string ->
         is_ascii name = true ->
         Re.search_server name = None ->
         Replay.lag_report_url self = Raise AttributeError).
Proof.
  unfold Replay.region, Replay.lag_report_url. split; [|split].
  - intros [-> | ->]; reflexivity.
  - intros name -> Hne Hsearch. cbn.
    destruct (String.eqb_spec name "") as [->|_]; [destruct Hne; reflexivity|].
    cbn. rewrite Hsearch. split; [reflexivity|].
    intros answer E. discriminate E.
  - intros name -> Hne _ Hsearch. cbn.
    destruct (String.eqb_spec name "") as [->|_]; [destruct Hne; reflexivity|].
    cbn. rewrite Hsearch. reflexivity.
Qed.

Lemma region_of_unmatched_server_name_witness :
  Replay.region (Example.upload []) = Ok (Some "N/A"%string)
  /\ Replay.region (set_server_name (Example.upload []) (Some "Lobby"%string))
     = Raise AttributeError
  /\ Replay.lag_report_url (set_server_name (Example.upload []) (Some "Lobby"%string))
     = Raise AttributeError.
Proof.
  split; [|split].
  - apply (@region_of_unmatched_server_name Example.env (Example.upload [])).
    left. reflexivity.
  - apply (proj1 (proj2 (@region_of_unmatched_server_name Example.env
                           (set_server_name (Example.upload [])
                              (Some "Lobby"%string))))
             "Lobby"%string eq_refl).
    + intros E. discriminate E.
    + reflexivity.
  - apply (proj2 (proj2 (@region_of_unmatched_server_name Example.env
                           (set_server_name (Example.upload [])
                              (Some "Lobby"%string))))
             "Lobby"%string eq_refl).
    + intros E. discriminate E.
    + reflexivity.
    + reflexivity.
Defined.

(** ** Resource-gauge samples *)

Section BoostFacts.
Context `{Environment}.

(** A sample that passes validation is returned as it came, and its value
    is within the declared bounds. *)
Lemma boost_full_clean_ok (b b' : BoostData) :
  BoostData.full_clean b = Ok b' -> b' = b /\ 0 <= value b <= 255.
Proof.
  unfold BoostData.full_clean. intros Hok.
  apply raise_if_errors_ok in Hok as [Herrors ->]. split; [reflexivity|].
  apply app_eq_nil in Herrors as [_ Hvalue].
  unfold field_errors, run_validators, field_validators in Hvalue.
  destruct (integer_field_range (field_type BoostData.value_field)) as [lo hi].
  cbn in Hvalue.
  destruct (Z.ltb_spec (value b) 0); [discriminate Hvalue|].
  destruct (Z.ltb_spec 255 (value b)); [discriminate Hvalue|].
  lia.
Qed.

Lemma boost_out_of_range_raises (b : BoostData) :
  value b < 0 \/ 255 < value b -> raises (BoostData.full_clean b) = true.
Proof.
  intros Hout. destruct (BoostData.full_clean b) as [b'|e] eqn:E; [|reflexivity].
  apply boost_full_clean_ok in E. lia.
Qed.

(** Storing decoded samples appends those that pass validation, in order. *)
Lemma store_boost_samples_table (samples : list BoostData) (db : DB) :
  boostdata_table (Parser.store_boost_samples db samples)
  = boostdata_table db ++ List.filter passes samples
  /\ replay_table (Parser.store_boost_samples db samples) = replay_table db
  /\ player_table (Parser.store_boost_samples db samples) = player_table db
  /\ goal_table (Parser.store_boost_samples db samples) = goal_table db.
Proof.
  unfold Parser.store_boost_samples.
  revert db. induction samples as [|s samples IH]; intros db; cbn [fold_left List.filter].
  - rewrite app_nil_r. repeat split.
  - destruct (IH (Parser.store_boost_sample db s)) as [Hb [Hr [Hp Hg]]].
    rewrite Hb, Hr, Hp, Hg. unfold Parser.store_boost_sample, passes.
    destruct (BoostData.full_clean s) as [s'|e] eqn:E; cbn.
    + apply boost_full_clean_ok in E as [-> _].
      rewrite <- app_assoc. repeat split.
    + repeat split.
Qed.

End BoostFacts.

(** C5: every sample the aggregator stores has a value in [[0, 255]], and
    it is stored as it was decoded: a stored row is a row that was there
    before or one of the decoded samples, unchanged.  A decoded sample
    whose value is outside the range fails [BoostData] validation and is
    not added. *)
Theorem boost_samples_in_range `{Environment} (db : DB) (samples : list BoostData) :
  (forall b, In b (boostdata_table (Parser.store_boost_samples db samples)) ->
             In b (boostdata_table db) \/ (In b samples /\ 0 <= value b <= 255))
  /\ (forall b, value b < 0 \/ 255 < value b ->
                raises (BoostData.full_clean b) = true
                /\ (In b (boostdata_table (Parser.store_boost_samples db samples)) ->
                    In b (boostdata_table db)))
  /\ (forall b b', BoostData.full_clean b = Ok b' -> b' = b /\ 0 <= value b <= 255).
Proof.
  destruct (store_boost_samples_table samples db) as [Htable _].
  assert (Hstored : forall b,
             In b (boostdata_table (Parser.store_boost_samples db samples)) ->
             In b (boostdata_table db) \/ (In b samples /\ 0 <= value b <= 255)).
  { intros b Hin. rewrite Htable in Hin. apply in_app_or in Hin as [Hold|Hnew].
    - left. exact Hold.
    - right. apply filter_In in Hnew as [Hin Hpass]. split; [exact Hin|].
      unfold passes in Hpass.
      destruct (BoostData.full_clean b) as [b'|e] eqn:E; [|discriminate Hpass].
      apply boost_full_clean_ok in E. apply E. }
  split; [exact Hstored|]. split.
  - intros b Hout. split; [apply boost_out_of_range_raises, Hout|].
    intros Hin. destruct (Hstored b Hin) as [Hold|[_ Hrange]]; [exact Hold|lia].
  - intros b b'. apply boost_full_clean_ok.
Qed.

Lemma boost_samples_in_range_witness :
  boostdata_table
    (Parser.store_boost_samples Example.empty_db
       [Example.sample 100; Example.sample 300; Example.sample (-1); Example.sample 255])
  = [Example.sample 100; Example.sample 255]
  /\ raises (BoostData.full_clean (Example.sample 300)) = true.
Proof.
  split; [reflexivity|].
  apply (proj1 (proj2 (@boost_samples_in_range Example.env Example.empty_db []))
           (Example.sample 300)).
  right. reflexivity.
Defined.

(** ** A failed netstream decode *)

Section FailureFacts.
Context `{Environment}.

Lemma mapM_ext_in {A B : Type} (f g : A -> result B) (l : list A) :
  (forall a, In a l -> f a = g a) -> mapM f l = mapM g l.
Proof.
  induction l as [|a l IH]; intros Hext; [reflexivity|].
  cbn. rewrite (Hext a) by (left; reflexivity).
  rewrite IH; [reflexivity|]. intros b Hb. apply Hext. right. exact Hb.
Qed.

Lemma GoalSerializer_ignores_flag (r : Replay) (v : bool) (g : Goal) :
  Serializers.GoalSerializer (set_crashed_heatmap_parser r v) g
  = Serializers.GoalSerializer r g.
Proof. reflexivity. Qed.

(** Every attribute but the flag itself reads the same on a replay whose
    flag was assigned. *)
Lemma Replay_getattr_ignores_flag (db : DB) (r : Replay) (v : bool) (name : string) :
  name <> "crashed_heatmap_parser"%string ->
  Serializers.Replay_getattr db (set_crashed_heatmap_parser r v) name
  = Serializers.Replay_getattr db r name.
Proof.
  intros Hname. unfold Serializers.Replay_getattr.
  repeat match goal with
  | |- (if String.eqb name ?s then _ else _) = _ =>
      destruct (String.eqb_spec name s) as [->|_];
      [first [ reflexivity
             | destruct Hname; reflexivity
             | cbn; f_equal; apply mapM_ext_in; intros g _;
               apply GoalSerializer_ignores_flag ] |]
  end.
  reflexivity.
Qed.

Lemma flag_not_serialized :
  ~ In "crashed_heatmap_parser"%string Serializers.ReplaySerializer_field_names.
Proof.
  vm_compute. intros Hin.
  repeat (destruct Hin as [Hin|Hin]; [discriminate Hin|]). destruct Hin.
Qed.

Lemma to_representation_ext {A : Type} (ga gb : A -> string -> result pyval)
    (names : list string) (a b : A) :
  (forall name, In name names -> ga a name = gb b name) ->
  Serializers.to_representation ga names a = Serializers.to_representation gb names b.
Proof.
  intros Hext. unfold Serializers.to_representation.
  rewrite (mapM_ext_in (fun name => v ← ga a name; Ok (name, v))
             (fun name => v ← gb b name; Ok (name, v)) names); [reflexivity|].
  intros name Hname. cbv beta. rewrite (Hext name Hname). reflexivity.
Qed.

Lemma Replay_getattr_ignores_replay_table (db : DB) (rows : list Replay) (r : Replay)
    (name : string) :
  Serializers.Replay_getattr (Parser.set_replay_table db rows) r name
  = Serializers.Replay_getattr db r name.
Proof. reflexivity. Qed.

(** The serializer reads neither the replay table nor the failure flag. *)
Lemma ReplaySerializer_ignores_flag (db : DB) (rows : list Replay) (r : Replay) (v : bool) :
  Serializers.ReplaySerializer (Parser.set_replay_table db rows)
    (set_crashed_heatmap_parser r v)
  = Serializers.ReplaySerializer db r.
Proof.
  unfold Serializers.ReplaySerializer. apply to_representation_ext.
  intros name Hname. rewrite Replay_getattr_ignores_replay_table.
  apply Replay_getattr_ignores_flag.
  intros ->. exact (flag_not_serialized Hname).
Qed.

Lemma ReplaySerializer_ignores_replay_table (db : DB) (rows : list Replay) (r : Replay) :
  Serializers.ReplaySerializer (Parser.set_replay_table db rows) r
  = Serializers.ReplaySerializer db r.
Proof. reflexivity. Qed.

Lemma set_crashed_heatmap_parser_same (r : Replay) :
  set_crashed_heatmap_parser r (crashed_heatmap_parser r) = r.
Proof. destruct r. reflexivity. Qed.

Lemma netstream_failed_row (db : DB) (rows : list Replay) (k : Z) (r : Replay) :
  same_but_flag db (Parser.set_replay_table db rows) k r
    (if Parser.has_pk k r then set_crashed_heatmap_parser r true else r).
Proof.
  unfold same_but_flag. destruct (Parser.has_pk k r) eqn:Hk.
  - split; [reflexivity|]. split; [reflexivity|]. split; [reflexivity|].
    split; [reflexivity|]. split; [destruct r; reflexivity|].
    split; [reflexivity|]. split; [intros Habs; discriminate Habs|].
    apply ReplaySerializer_ignores_flag.
  - split; [reflexivity|]. split; [reflexivity|]. split; [reflexivity|].
    split; [reflexivity|]. split; [apply set_crashed_heatmap_parser_same|].
    split; [intros Habs; discriminate Habs|]. split; [reflexivity|].
    apply ReplaySerializer_ignores_replay_table.
Qed.

End FailureFacts.

(** C1: on the failure path as the spec has it, a failed netstream decode
    is recorded in the [crashed_heatmap_parser] flag of the replay alone.
    The player, goal and sample tables are unchanged, and every replay row
    keeps its key, its header facts, its roster and its goal list; a row
    differs from what it was at most in the flag, which is set on the row
    of the replay whose decode failed.  The failure hides nothing of the
    header facts: [ReplaySerializer], which leaves the flag itself out,
    shows scores, team sizes, map, timestamp, frame count, roster and
    goal list, and renders every replay as it did before the failure. *)
Theorem netstream_failure_frame `{Environment} (db : DB) (k : Z) :
  player_table (Parser.netstream_failed db k) = player_table db
  /\ goal_table (Parser.netstream_failed db k) = goal_table db
  /\ boostdata_table (Parser.netstream_failed db k) = boostdata_table db
  /\ Forall2 (same_but_flag db (Parser.netstream_failed db k) k)
       (replay_table db) (replay_table (Parser.netstream_failed db k))
  /\ ~ In "crashed_heatmap_parser"%string Serializers.ReplaySerializer_field_names
  /\ incl ["replay_id"; "map"; "timestamp"; "team_sizes"; "team_0_score";
           "team_1_score"; "num_frames"; "record_fps"; "player_set";
           "goal_set"]%string
       Serializers.ReplaySerializer_field_names.
Proof.
  split; [reflexivity|]. split; [reflexivity|]. split; [reflexivity|]. split.
  - unfold Parser.netstream_failed at 2. cbn [replay_table Parser.set_replay_table].
    unfold Parser.netstream_failed.
    generalize (List.map
                  (fun r => if Parser.has_pk k r
                            then set_crashed_heatmap_parser r true else r)
                  (replay_table db)) at 1 as rows.
    intros rows. induction (replay_table db) as [|r l IH]; cbn [List.map].
    + constructor.
    + constructor; [apply netstream_failed_row|exact IH].
  - split; [exact flag_not_serialized|].
    + intros name Hname. vm_compute in Hname. vm_compute.
      repeat (destruct Hname as [<-|Hname]; [tauto|]). destruct Hname.
Qed.

(** ** Exact binary64 arithmetic

    The operations [divmod] performs on a quotient below [2 ^ 53] are all
    exact.  The lemmas below establish this on the specification of the
    primitive floats: a mantissa that needs no rounding is normalized
    without loss. *)

Section Binary64.

Lemma fexp_eq (x : Z) : fexp prec emax x = Z.max (x - 53) (-1074).
Proof. reflexivity. Qed.

(** The number of binary digits of a positive integer. *)
Lemma digits2_pos_log2 (p : positive) :
  Zpos (digits2_pos p) = Z.log2 (Zpos p) + 1.
Proof.
  induction p as [p IH|p IH|]; cbn [digits2_pos]; [| |reflexivity].
  - rewrite Pos2Z.inj_succ, IH.
    change (Zpos p~1) with (2 * Zpos p + 1).
    rewrite Z.log2_succ_double by lia. reflexivity.
  - rewrite Pos2Z.inj_succ, IH.
    change (Zpos p~0) with (2 * Zpos p).
    rewrite Z.log2_double by lia. reflexivity.
Qed.

Lemma Zdigits2_log2 (z : Z) : 0 < z -> Zdigits2 z = Z.log2 z + 1.
Proof. destruct z as [|p|p]; try lia. intros _. apply digits2_pos_log2. Qed.

Lemma Zdigits2_shift (z k : Z) :
  0 < z -> 0 <= k -> Zdigits2 (z * 2 ^ k) = Zdigits2 z + k.
Proof.
  intros Hz Hk. rewrite !Zdigits2_log2 by (try apply Z.mul_pos_pos; lia).
  rewrite Z.log2_mul_pow2 by lia. lia.
Qed.

Lemma Zdigits2_bounds (z : Z) : 0 < z -> 2 ^ (Zdigits2 z - 1) <= z < 2 ^ Zdigits2 z.
Proof.
  intros Hz. rewrite Zdigits2_log2 by lia.
  replace (Z.log2 z + 1 - 1) with (Z.log2 z) by lia.
  replace (Z.log2 z + 1) with (Z.succ (Z.log2 z)) by lia.
  apply Z.log2_spec, Hz.
Qed.

Lemma Zdigits2_le (a b : Z) : 0 < a -> a <= b -> Zdigits2 a <= Zdigits2 b.
Proof.
  intros Ha Hab. rewrite !Zdigits2_log2 by lia.
  pose proof (Z.log2_le_mono a b Hab). lia.
Qed.

Lemma Zdigits2_lt_pow2 (z n : Z) : 0 < z -> 0 <= n -> z < 2 ^ n -> Zdigits2 z <= n.
Proof.
  intros Hz Hn Hlt. rewrite Zdigits2_log2 by lia.
  pose proof (proj1 (Z.log2_lt_pow2 z n Hz) Hlt). lia.
Qed.

(** Shifting a mantissa left. *)
Lemma iter_xO (m d : positive) : Zpos (Pos.iter xO m d) = Zpos m * 2 ^ Zpos d.
Proof.
  induction d as [|d IH] using Pos.peano_ind.
  - cbn. lia.
  - rewrite Pos.iter_succ, Pos2Z.inj_xO, IH, Pos2Z.inj_succ, Z.pow_succ_r by lia. lia.
Qed.

Lemma shl_align_spec (m : positive) (e e' : Z) :
  e' <= e ->
  exists m', shl_align m e e' = (m', e') /\ Zpos m' = Zpos m * 2 ^ (e - e').
Proof.
  intros Hle. unfold shl_align.
  destruct (e' - e) as [|d|d] eqn:E; try lia.
  - assert (e' = e) as -> by lia. exists m. rewrite Z.sub_diag. split; [reflexivity|lia].
  - exists (Pos.iter xO m d). split; [reflexivity|].
    rewrite iter_xO. f_equal. f_equal. lia.
Qed.

(** Shifting right a mantissa whose low bits are zero loses nothing. *)
Lemma iter_pos_nat {A : Type} (f : A -> A) (p : positive) (x : A) :
  SpecFloat.iter_pos f p x = Nat.iter (Pos.to_nat p) f x.
Proof.
  revert x. induction p as [p IH|p IH|]; intros x; cbn [SpecFloat.iter_pos].
  - rewrite !IH, Pos2Nat.inj_xI. cbn [Nat.mul].
    rewrite Nat.add_0_r, Nat.iter_succ_r, Nat.iter_add. reflexivity.
  - rewrite !IH, Pos2Nat.inj_xO. cbn [Nat.mul].
    rewrite Nat.add_0_r, Nat.iter_add. reflexivity.
  - reflexivity.
Qed.

Lemma shr_1_double (z : Z) :
  0 <= z ->
  shr_1 {| shr_m := 2 * z; shr_r := false; shr_s := false |}
  = {| shr_m := z; shr_r := false; shr_s := false |}.
Proof. destruct z as [|p|p]; [reflexivity|reflexivity|lia]. Qed.

Lemma iter_shr_1_exact (n : nat) (z : Z) :
  0 <= z ->
  Nat.iter n shr_1 {| shr_m := z * 2 ^ Z.of_nat n; shr_r := false; shr_s := false |}
  = {| shr_m := z; shr_r := false; shr_s := false |}.
Proof.
  intros Hz. induction n as [|n IH].
  - cbn. f_equal. lia.
  - rewrite Nat.iter_succ_r, Nat2Z.inj_succ, Z.pow_succ_r by lia.
    replace (z * (2 * 2 ^ Z.of_nat n)) with (2 * (z * 2 ^ Z.of_nat n)) by lia.
    rewrite shr_1_double by (apply Z.mul_nonneg_nonneg; lia). exact IH.
Qed.

Lemma shr_exact (z e k : Z) :
  0 <= z -> 0 <= k ->
  shr {| shr_m := z * 2 ^ k; shr_r := false; shr_s := false |} e k
  = ({| shr_m := z; shr_r := false; shr_s := false |}, e + k).
Proof.
  intros Hz Hk. unfold shr. destruct k as [|p|p]; try lia.
  - rewrite Z.mul_1_r, Z.add_0_r. reflexivity.
  - rewrite iter_pos_nat. rewrite <- (positive_nat_Z p) at 1.
    rewrite iter_shr_1_exact by lia. reflexivity.
Qed.

(** Rounding a mantissa with [k] zero low bits to its canonical exponent
    [e + k] is exact. *)
Lemma binary_round_aux_exact (s : bool) (z e k : Z) :
  0 < z -> 0 <= k ->
  fexp prec emax (Zdigits2 z + (e + k)) = e + k ->
  e + k <= emax - prec ->
  binary_round_aux prec emax s (z * 2 ^ k) e loc_Exact
  = S754_finite s (Z.to_pos z) (e + k).
Proof.
  intros Hz Hk Hcanon Hmax. unfold binary_round_aux, shr_fexp.
  rewrite Zdigits2_shift by lia.
  replace (Zdigits2 z + k + e) with (Zdigits2 z + (e + k)) by lia.
  rewrite Hcanon. replace (e + k - e) with k by lia.
  cbn [shr_record_of_loc]. rewrite shr_exact by lia.
  cbn [shr_m loc_of_shr_record round_nearest_even].
  rewrite Hcanon, Z.sub_diag. cbn [shr shr_record_of_loc shr_m].
  destruct z as [|p|p]; try lia.
  rewrite (proj2 (Z.leb_le _ _) Hmax). reflexivity.
Qed.

(** [binary_round] of a mantissa that needs no rounding: its digits fit
    after a shift to the left, or the bits a shift to the right drops are
    zero. *)
Lemma binary_round_shl (s : bool) (m : positive) (e : Z) :
  let ec := fexp prec emax (Zdigits2 (Zpos m) + e) in
  ec <= e -> ec <= emax - prec ->
  binary_round prec emax s m e = S754_finite s (Z.to_pos (Zpos m * 2 ^ (e - ec))) ec.
Proof.
  intros ec Hle Hmax. unfold binary_round.
  change (Zpos (digits2_pos m)) with (Zdigits2 (Zpos m)). fold ec.
  destruct (shl_align_spec m e ec Hle) as [m' [-> Hm']].
  pose proof (binary_round_aux_exact s (Zpos m') ec 0) as Hexact.
  rewrite Z.add_0_r, Z.mul_1_r, Hm' in Hexact. rewrite Hm'. apply Hexact; try lia.
  rewrite Zdigits2_shift by lia. unfold ec.
  replace (Zdigits2 (Zpos m) + (e - fexp prec emax (Zdigits2 (Zpos m) + e))
           + fexp prec emax (Zdigits2 (Zpos m) + e))
    with (Zdigits2 (Zpos m) + e) by lia.
  reflexivity.
Qed.

Lemma binary_round_shr (s : bool) (m : positive) (e z : Z) :
  let ec := fexp prec emax (Zdigits2 (Zpos m) + e) in
  e < ec -> ec <= emax - prec ->
  0 < z -> Zpos m = z * 2 ^ (ec - e) ->
  binary_round prec emax s m e = S754_finite s (Z.to_pos z) ec.
Proof.
  intros ec Hlt Hmax Hz Hm. unfold binary_round.
  change (Zpos (digits2_pos m)) with (Zdigits2 (Zpos m)). fold ec.
  unfold shl_align. destruct (ec - e) as [|d|d] eqn:E; try lia.
  rewrite Hm, <- E.
  pose proof (binary_round_aux_exact s z e (ec - e) Hz) as Hexact.
  replace (e + (ec - e)) with ec in Hexact by lia.
  apply Hexact; try lia.
  unfold ec at 2. rewrite Hm, Zdigits2_shift by lia. fold ec. f_equal. lia.
Qed.

(** The float of an integer below [2 ^ 53], and of the same value written
    with a negative exponent. *)
Lemma binary_normalize_int (z : Z) (sz : bool) :
  0 < z < 2 ^ 53 ->
  binary_normalize prec emax z 0 sz
  = S754_finite false (Z.to_pos (z * 2 ^ (53 - Zdigits2 z))) (Zdigits2 z - 53).
Proof.
  intros Hz. destruct z as [|m|m]; try lia. cbn [binary_normalize].
  pose proof (Zdigits2_lt_pow2 (Zpos m) 53 ltac:(lia) ltac:(lia) ltac:(lia)) as Hd.
  pose proof (Zdigits2_bounds (Zpos m) ltac:(lia)) as Hb.
  assert (0 < Zdigits2 (Zpos m)) by (cbn; lia).
  assert (Hec : fexp prec emax (Zdigits2 (Zpos m) + 0) = Zdigits2 (Zpos m) - 53)
    by (rewrite fexp_eq; lia).
  rewrite binary_round_shl; rewrite Hec; unfold prec, emax; try lia.
  replace (0 - (Zdigits2 (Zpos m) - 53)) with (53 - Zdigits2 (Zpos m)) by lia.
  reflexivity.
Qed.

Lemma binary_normalize_int_rescale (z e : Z) (sz : bool) :
  0 <= z < 2 ^ 53 -> e <= 0 ->
  binary_normalize prec emax (z * 2 ^ (- e)) e sz = binary_normalize prec emax z 0 sz.
Proof.
  intros Hz He. destruct (Z.eq_dec z 0) as [->|Hne]; [reflexivity|].
  rewrite (binary_normalize_int z) by lia.
  assert (Hpos : 0 < z * 2 ^ (- e)) by (apply Z.mul_pos_pos; [lia|apply Z.pow_pos_nonneg; lia]).
  destruct (z * 2 ^ (- e)) as [|m|m] eqn:E; try lia. cbn [binary_normalize].
  pose proof (Zdigits2_lt_pow2 z 53 ltac:(lia) ltac:(lia) ltac:(lia)) as Hd.
  assert (0 < Zdigits2 z) by (destruct z; cbn; lia).
  assert (Hdig : Zdigits2 (Zpos m) + e = Zdigits2 z)
    by (rewrite <- E, Zdigits2_shift by lia; lia).
  assert (Hec : fexp prec emax (Zdigits2 (Zpos m) + e) = Zdigits2 z - 53)
    by (rewrite Hdig, fexp_eq; lia).
  destruct (Z_le_gt_dec (Zdigits2 z - 53) e) as [Hle|Hgt].
  - rewrite binary_round_shl; rewrite Hec; unfold prec, emax; try lia.
    do 2 f_equal. rewrite <- E, <- Z.mul_assoc, <- Z.pow_add_r by lia.
    do 2 f_equal. lia.
  - rewrite (binary_round_shr false m e (z * 2 ^ (53 - Zdigits2 z)));
      rewrite ?Hec; unfold prec, emax; try lia.
    + reflexivity.
    + rewrite <- E, <- Z.mul_assoc, <- Z.pow_add_r by lia. do 2 f_equal. lia.
Qed.

End Binary64.

(** * Minutes and seconds

    [divmod(c, 60)] on a float [c] that is not negative and below
    [2 ^ 53] is exact: the remainder [fmod] gives, the difference and its
    quotient by 60 are all floats, so that the clock [match_length] and
    [goal_time] print is that of the integer part of [c]. *)

Section Clock.

Lemma bounded_facts (m : positive) (e : Z) :
  bounded prec emax m e = true ->
  fexp prec emax (Zdigits2 (Zpos m) + e) = e
  /\ Zdigits2 (Zpos m) <= 53 /\ -1074 <= e <= 971.
Proof.
  unfold bounded, canonical_mantissa. intros Hb.
  apply andb_prop in Hb as [Hc He].
  change (Zpos (digits2_pos m)) with (Zdigits2 (Zpos m)) in Hc.
  apply Z.eqb_eq in Hc. apply Z.leb_le in He. unfold emax, prec in He.
  split; [exact Hc|]. rewrite fexp_eq in Hc.
  assert (0 < Zdigits2 (Zpos m)) by (cbn; lia). lia.
Qed.

Lemma finite_valid (s : bool) (z ec : Z) :
  0 < z -> fexp prec emax (Zdigits2 z + ec) = ec -> ec <= 971 ->
  valid_binary (S754_finite s (Z.to_pos z) ec) = true.
Proof.
  intros Hz Hc He. destruct z as [|p|p]; try lia.
  cbn [valid_binary Z.to_pos]. unfold bounded, canonical_mantissa.
  change (Zpos (digits2_pos p)) with (Zdigits2 (Zpos p)).
  rewrite Hc. apply andb_true_intro. split; [apply Z.eqb_refl|].
  apply Z.leb_le. unfold emax, prec. lia.
Qed.

Lemma fmod_60_arith (v e : Z) :
  e <= 0 ->
  (v * 2 ^ (e - Z.min e (-47))) mod (8444249301319680 * 2 ^ (-47 - Z.min e (-47)))
  = (v mod (60 * 2 ^ (- e))) * 2 ^ (e - Z.min e (-47)).
Proof.
  intros He. change 8444249301319680 with (60 * 2 ^ 47).
  destruct (Z.min_spec e (-47)) as [[Hlt ->]|[Hge ->]].
  - rewrite Z.sub_diag, !Z.mul_1_r, <- Z.mul_assoc, <- Z.pow_add_r by lia.
    do 3 f_equal. lia.
  - replace (-47 - -47) with 0 by lia. rewrite Z.mul_1_r.
    replace (60 * 2 ^ 47) with (60 * 2 ^ (- e) * 2 ^ (e - -47)).
    + assert (0 < 2 ^ (- e)) by (apply Z.pow_pos_nonneg; lia).
      assert (0 < 2 ^ (e - -47)) by (apply Z.pow_pos_nonneg; lia).
      apply Z.mul_mod_distr_r; lia.
    + rewrite <- Z.mul_assoc, <- Z.pow_add_r by lia. do 2 f_equal. lia.
Qed.

Lemma dyadic_exponent_shift (N E k : Z) :
  0 < N -> 0 <= k -> dyadic_exponent (N * 2 ^ k) (E - k) = dyadic_exponent N E.
Proof.
  intros HN Hk. unfold dyadic_exponent. rewrite Zdigits2_shift by lia.
  f_equal. lia.
Qed.

Lemma dyadic_rescale (N E k : Z) :
  0 <= N -> 0 <= k -> dyadic_exponent N E <= E - k ->
  dyadic (N * 2 ^ k) (E - k) = dyadic N E.
Proof.
  intros HN Hk Hfit. unfold dyadic.
  destruct (Z.eqb_spec N 0) as [->|Hne]; [reflexivity|].
  assert (0 < 2 ^ k) by (apply Z.pow_pos_nonneg; lia).
  destruct (Z.eqb_spec (N * 2 ^ k) 0) as [Hz|_]; [nia|].
  rewrite dyadic_exponent_shift by lia.
  rewrite <- Z.mul_assoc, <- Z.pow_add_r by lia.
  do 4 f_equal. lia.
Qed.

Lemma dyadic_valid (N E : Z) :
  0 <= N -> dyadic_exponent N E <= E -> E <= 971 -> valid_binary (dyadic N E) = true.
Proof.
  intros HN Hfit HE. unfold dyadic.
  destruct (Z.eqb_spec N 0) as [->|Hne]; [reflexivity|].
  assert (0 < 2 ^ (E - dyadic_exponent N E)) by (apply Z.pow_pos_nonneg; lia).
  apply finite_valid; [nia| |lia].
  rewrite Zdigits2_shift by lia.
  replace (Zdigits2 N + (E - dyadic_exponent N E) + dyadic_exponent N E)
    with (Zdigits2 N + E) by lia.
  reflexivity.
Qed.

Lemma binary_normalize_dyadic (N E : Z) :
  0 <= N -> dyadic_exponent N E <= E -> E <= 971 ->
  binary_normalize prec emax N E false = dyadic N E.
Proof.
  intros HN Hfit HE. unfold dyadic. destruct N as [|p|p]; try lia; [reflexivity|].
  cbn [binary_normalize Z.eqb]. apply binary_round_shl; [exact Hfit|].
  unfold dyadic_exponent in Hfit. change (emax - prec) with 971. lia.
Qed.

Lemma dyadic_int (z E : Z) :
  0 <= z < 2 ^ 53 -> E <= 0 ->
  binary_normalize prec emax (z * 2 ^ (- E)) E false = dyadic z 0.
Proof.
  intros Hz HE. rewrite binary_normalize_int_rescale by lia.
  apply binary_normalize_dyadic; try lia.
  unfold dyadic_exponent. rewrite fexp_eq.
  destruct (Z.eq_dec z 0) as [->|Hne]; [cbn; lia|].
  pose proof (Zdigits2_lt_pow2 z 53 ltac:(lia) ltac:(lia) ltac:(lia)). lia.
Qed.

(** A valid finite float is the dyadic number of its mantissa and exponent. *)
Lemma finite_dyadic (m : positive) (e : Z) :
  bounded prec emax m e = true -> S754_finite false m e = dyadic (Zpos m) e.
Proof.
  intros Hb. apply bounded_facts in Hb as [Hc _]. unfold dyadic, dyadic_exponent.
  rewrite Hc, Z.sub_diag, Z.mul_1_r. reflexivity.
Qed.

(** The remainder of a quotient below [2 ^ 53] by 60 fits in a mantissa,
    at the exponent of the quotient and at that of 60. *)
Lemma remainder_fits (v e r : Z) :
  0 < v < 2 ^ 53 -> -1074 <= e <= 0 ->
  0 <= r <= v -> r < 60 * 2 ^ (- e) ->
  dyadic_exponent r e <= Z.min e (-47).
Proof.
  intros Hv He Hr Hlt. unfold dyadic_exponent. rewrite fexp_eq.
  destruct (Z.eq_dec r 0) as [->|Hne]; [cbn [Zdigits2]; lia|].
  pose proof (Zdigits2_lt_pow2 r 53 ltac:(lia) ltac:(lia) ltac:(lia)) as H53.
  assert (Hpow : r < 2 ^ (6 - e)).
  { replace (6 - e) with (6 + - e) by lia. rewrite Z.pow_add_r by lia.
    assert (0 < 2 ^ (- e)) by (apply Z.pow_pos_nonneg; lia).
    change (2 ^ 6) with 64. lia. }
  pose proof (Zdigits2_lt_pow2 r (6 - e) ltac:(lia) ltac:(lia) Hpow). lia.
Qed.

Lemma fmod_60_spec (c : float) (m : positive) (e : Z) :
  Prim2SF c = S754_finite false m e -> e <= 0 ->
  Prim2SF (PyFloat.fmod c 60) = dyadic (Zpos m mod (60 * 2 ^ (- e))) e.
Proof.
  intros Hc He. pose proof (Prim2SF_valid c) as Hvalid. rewrite Hc in Hvalid.
  apply bounded_facts in Hvalid as [_ [Hd Hrange]].
  assert (Hv : 0 < Zpos m < 2 ^ 53).
  { split; [lia|]. pose proof (Zdigits2_bounds (Zpos m) ltac:(lia)) as [_ Hlt].
    eapply Z.lt_le_trans; [exact Hlt|]. apply Z.pow_le_mono_r; lia. }
  assert (Hpos : 0 < 60 * 2 ^ (- e)) by (apply Z.mul_pos_pos; [lia|apply Z.pow_pos_nonneg; lia]).
  pose proof (Z.mod_pos_bound (Zpos m) _ Hpos) as Hr.
  pose proof (Z.mod_le (Zpos m) _ ltac:(lia) Hpos) as Hle.
  pose proof (remainder_fits (Zpos m) e (Zpos m mod (60 * 2 ^ (- e))) Hv
                ltac:(lia) ltac:(lia) (proj2 Hr)) as Hfit.
  unfold PyFloat.fmod. rewrite Hc.
  change (Prim2SF 60) with (S754_finite false 8444249301319680 (-47)).
  cbv beta iota zeta. rewrite fmod_60_arith by lia. cbn [cond_Zopp].
  assert (Hmin : Z.min e (-47) <= e /\ -1074 <= Z.min e (-47)) by lia.
  set (r := Zpos m mod (60 * 2 ^ (- e))) in *.
  set (e0 := Z.min e (-47)) in *.
  pose proof (dyadic_rescale r e (e - e0) ltac:(lia) ltac:(lia) ltac:(lia)) as Hrescale.
  replace (e - (e - e0)) with e0 in Hrescale by lia.
  assert (0 < 2 ^ (e - e0)) by (apply Z.pow_pos_nonneg; lia).
  rewrite binary_normalize_dyadic, Hrescale; try lia.
  - apply Prim2SF_SF2Prim, dyadic_valid; lia.
  - destruct (Z.eq_dec r 0) as [Hz|Hnz].
    + rewrite Hz, Z.mul_0_l. unfold dyadic_exponent. rewrite fexp_eq. cbn [Zdigits2]. lia.
    + replace e0 with (e - (e - e0)) at 2 by lia.
      rewrite dyadic_exponent_shift by lia. lia.
Qed.

(** Subtraction of positive floats, the larger exponent first. *)
Lemma SFsub_aligned (m1 m2 : positive) (e1 e2 : Z) :
  e2 <= e1 ->
  SFsub prec emax (S754_finite false m1 e1) (S754_finite false m2 e2)
  = binary_normalize prec emax (Zpos m1 * 2 ^ (e1 - e2) - Zpos m2) e2 false.
Proof.
  intros Hle. cbn [SFsub cond_Zopp].
  change (IntDef.Z.min e1 e2) with (Z.min e1 e2). rewrite Z.min_r by lia.
  destruct (shl_align_spec m1 e1 e2 Hle) as [m1' [-> H1]].
  destruct (shl_align_spec m2 e2 e2 (Z.le_refl e2)) as [m2' [-> H2]].
  cbn [fst]. rewrite H1, H2, Z.sub_diag, Z.mul_1_r. reflexivity.
Qed.

(** Quotient and remainder of the mantissa by [60 * 2 ^ K]. *)
Lemma quotient_by_60_bounds (v K : Z) :
  0 < v < 2 ^ 53 -> 0 <= K ->
  v = 60 * (v / (60 * 2 ^ K)) * 2 ^ K + v mod (60 * 2 ^ K)
  /\ 0 <= v mod (60 * 2 ^ K) <= v
  /\ v mod (60 * 2 ^ K) < 60 * 2 ^ K
  /\ 0 <= 60 * (v / (60 * 2 ^ K)) < 2 ^ 53.
Proof.
  intros Hv HK.
  assert (Hp : 0 < 2 ^ K) by (apply Z.pow_pos_nonneg; lia).
  assert (Hpos : 0 < 60 * 2 ^ K) by lia.
  pose proof (Z.div_mod v (60 * 2 ^ K) ltac:(lia)) as Hdm.
  pose proof (Z.mod_pos_bound v _ Hpos) as Hr.
  pose proof (Z.div_pos v _ ltac:(lia) Hpos) as Hq.
  repeat split; try lia; nia.
Qed.

Lemma sub_fmod_60_spec (c mod0 : float) (m : positive) (e : Z) :
  Prim2SF c = S754_finite false m e -> e <= 0 ->
  Prim2SF mod0 = dyadic (Zpos m mod (60 * 2 ^ (- e))) e ->
  Prim2SF (c - mod0) = dyadic (60 * (Zpos m / (60 * 2 ^ (- e)))) 0.
Proof.
  intros Hc He Hmod. pose proof (Prim2SF_valid c) as Hvalid. rewrite Hc in Hvalid.
  pose proof (bounded_facts m e Hvalid) as [Hcanon [Hd Hrange]].
  assert (Hv : 0 < Zpos m < 2 ^ 53).
  { split; [lia|]. pose proof (Zdigits2_bounds (Zpos m) ltac:(lia)) as [_ Hlt].
    eapply Z.lt_le_trans; [exact Hlt|]. apply Z.pow_le_mono_r; lia. }
  destruct (quotient_by_60_bounds (Zpos m) (- e) Hv ltac:(lia)) as [Hdm [Hr [Hrlt Hq]]].
  pose proof (remainder_fits (Zpos m) e (Zpos m mod (60 * 2 ^ (- e))) Hv
                ltac:(lia) Hr Hrlt) as Hfit.
  set (r := Zpos m mod (60 * 2 ^ (- e))) in *.
  set (q := Zpos m / (60 * 2 ^ (- e))) in *.
  rewrite sub_spec, Hc, Hmod. unfold SF64sub, dyadic at 1.
  destruct (Z.eqb_spec r 0) as [Hz|Hnz].
  - cbn [SFsub]. rewrite (finite_dyadic m e Hvalid).
    rewrite Hdm, Hz, Z.add_0_r.
    pose proof (dyadic_rescale (60 * q) 0 (- e) ltac:(lia) ltac:(lia)) as Hrescale.
    replace (0 - - e) with e in Hrescale by lia. apply Hrescale.
    assert (Hshift : dyadic_exponent (60 * q * 2 ^ (- e)) (0 - - e)
                     = dyadic_exponent (60 * q) 0).
    { apply dyadic_exponent_shift; [|lia].
      assert (0 < 2 ^ (- e)) by (apply Z.pow_pos_nonneg; lia). nia. }
    replace (0 - - e) with e in Hshift by lia.
    rewrite <- Hshift. unfold dyadic_exponent.
    replace (60 * q * 2 ^ (- e)) with (Zpos m) by lia. lia.
  - assert (Her : dyadic_exponent r e <= e) by lia.
    assert (0 < 2 ^ (e - dyadic_exponent r e)) by (apply Z.pow_pos_nonneg; lia).
    rewrite SFsub_aligned by lia.
    rewrite Z2Pos.id by nia.
    rewrite <- Z.mul_sub_distr_r.
    replace (Zpos m - r) with (60 * q * 2 ^ (- e)) by lia.
    rewrite <- Z.mul_assoc, <- Z.pow_add_r by lia.
    replace (- e + (e - dyadic_exponent r e)) with (- dyadic_exponent r e) by lia.
    apply dyadic_int; lia.
Qed.

Lemma div_eucl_exact (b Q : Z) : 0 < b -> Z.div_eucl (b * Q) b = (Q, 0).
Proof.
  intros Hb. pose proof (Z.div_mul Q b ltac:(lia)) as Hdiv.
  pose proof (Z.mod_mul Q b ltac:(lia)) as Hmod.
  rewrite (Z.mul_comm Q b) in Hdiv, Hmod. unfold Z.div in Hdiv. unfold Z.modulo in Hmod.
  destruct (Z.div_eucl (b * Q) b) as [x y]. cbn in Hdiv, Hmod. subst. reflexivity.
Qed.

(** Dividing a normal float of value [60 * q] by 60 gives the float of [q]. *)
Lemma SFdiv_by_60 (m1 : positive) (e1 q : Z) :
  0 < q -> q < 2 ^ 53 -> -52 <= e1 <= 0 ->
  Zdigits2 (Zpos m1) = 53 ->
  Zpos m1 = 60 * q * 2 ^ (- e1) ->
  SFdiv prec emax (S754_finite false m1 e1) (S754_finite false 8444249301319680 (-47))
  = dyadic q 0.
Proof.
  intros Hq Hq53 He1 Hd Hm. cbn [SFdiv xorb]. unfold SFdiv_core_binary.
  rewrite Hd. change (Zdigits2 (Zpos 8444249301319680)) with 53.
  assert (He' : IntDef.Z.min (fexp prec emax (53 + e1 - (53 + -47))) (e1 - -47) = e1 - 6).
  { change (IntDef.Z.min ?a ?b) with (Z.min a b). rewrite fexp_eq. lia. }
  rewrite He'. replace (e1 - -47 - (e1 - 6)) with 53 by lia. cbv beta iota zeta.
  change (IntDef.Z.shiftl (Zpos m1) 53) with (Z.shiftl (Zpos m1) 53).
  rewrite Z.shiftl_mul_pow2 by lia.
  assert (HQ : Zpos m1 * 2 ^ 53 = 8444249301319680 * (q * 2 ^ (6 - e1))).
  { rewrite Hm. change 8444249301319680 with (60 * 2 ^ 47).
    replace (6 - e1) with (- e1 + 6) by lia. rewrite Z.pow_add_r by lia.
    change (2 ^ 53) with (2 ^ 47 * 2 ^ 6). ring. }
  change (IntDef.Z.div_eucl ?a ?b) with (Z.div_eucl a b).
  rewrite HQ, div_eucl_exact by lia.
  change (new_location (Zpos 8444249301319680) 0) with loc_Exact.
  assert (Hdq : 0 < Zdigits2 q <= 53).
  { split; [destruct q; cbn; lia|]. apply Zdigits2_lt_pow2; lia. }
  assert (Hd60 : Zdigits2 (60 * q) - e1 = 53).
  { rewrite <- Hd, Hm. rewrite Zdigits2_shift by lia. lia. }
  assert (Hle : Zdigits2 (60 * q) <= Zdigits2 q + 6).
  { rewrite <- (Zdigits2_shift q 6) by lia. apply Zdigits2_le; [lia|].
    change (2 ^ 6) with 64. lia. }
  pose proof (binary_round_aux_exact false (q * 2 ^ (53 - Zdigits2 q)) (e1 - 6)
                (Zdigits2 q - 47 - e1)) as Hexact.
  replace (e1 - 6 + (Zdigits2 q - 47 - e1)) with (Zdigits2 q - 53) in Hexact by lia.
  rewrite <- Z.mul_assoc, <- Z.pow_add_r in Hexact by lia.
  replace (53 - Zdigits2 q + (Zdigits2 q - 47 - e1)) with (6 - e1) in Hexact by lia.
  assert (0 < 2 ^ (53 - Zdigits2 q)) by (apply Z.pow_pos_nonneg; lia).
  rewrite Hexact.
  - unfold dyadic, dyadic_exponent. rewrite fexp_eq.
    destruct (Z.eqb_spec q 0) as [Hz|_]; [lia|].
    replace (Z.max (Zdigits2 q + 0 - 53) (-1074)) with (Zdigits2 q - 53) by lia.
    replace (0 - (Zdigits2 q - 53)) with (53 - Zdigits2 q) by lia. reflexivity.
  - nia.
  - lia.
  - rewrite Zdigits2_shift by lia. rewrite fexp_eq. lia.
  - change (emax - prec) with 971. lia.
Qed.

Lemma div_60_spec (x : float) (q : Z) :
  0 <= q -> 60 * q < 2 ^ 53 ->
  Prim2SF x = dyadic (60 * q) 0 ->
  Prim2SF (x / 60) = dyadic q 0.
Proof.
  intros Hq Hlt Hx. rewrite div_spec, Hx. unfold SF64div.
  change (Prim2SF 60) with (S754_finite false 8444249301319680 (-47)).
  destruct (Z.eq_dec q 0) as [->|Hne]; [reflexivity|].
  assert (Hd : 0 < Zdigits2 (60 * q) <= 53).
  { split; [|apply Zdigits2_lt_pow2; lia].
    rewrite Zdigits2_log2 by lia. pose proof (Z.log2_nonneg (60 * q)). lia. }
  unfold dyadic at 1, dyadic_exponent. rewrite fexp_eq.
  destruct (Z.eqb_spec (60 * q) 0) as [Hz|_]; [lia|].
  replace (Z.max (Zdigits2 (60 * q) + 0 - 53) (-1074)) with (Zdigits2 (60 * q) - 53) by lia.
  assert (0 < 2 ^ (0 - (Zdigits2 (60 * q) - 53))) by (apply Z.pow_pos_nonneg; lia).
  apply SFdiv_by_60; try lia.
  - rewrite Z2Pos.id by nia. rewrite Zdigits2_shift by lia. lia.
  - rewrite Z2Pos.id by nia. do 2 f_equal; lia.
Qed.

Lemma to_int_dyadic (x : float) (N E : Z) :
  0 <= N -> E <= 0 -> dyadic_exponent N E <= E ->
  Prim2SF x = dyadic N E ->
  PyFloat.to_int x = Ok (N / 2 ^ (- E)).
Proof.
  intros HN HE Hfit Hx. unfold PyFloat.to_int. rewrite Hx. unfold dyadic.
  assert (Hp : 0 < 2 ^ (- E)) by (apply Z.pow_pos_nonneg; lia).
  destruct (Z.eqb_spec N 0) as [->|Hne].
  - rewrite Z.div_0_l by lia. reflexivity.
  - set (ec := dyadic_exponent N E) in *. cbn [cond_Zopp].
    assert (Hs : 0 < 2 ^ (E - ec)) by (apply Z.pow_pos_nonneg; lia).
    rewrite Z2Pos.id by nia. f_equal.
    destruct (Z.leb_spec 0 ec) as [Hpos|Hneg].
    + assert (ec = 0) by lia. assert (E = 0) by lia. subst E. replace ec with 0 by lia.
      cbn. rewrite Z.div_1_r. lia.
    + replace (2 ^ (- ec)) with (2 ^ (- E) * 2 ^ (E - ec)).
      * apply Z.div_mul_cancel_r; lia.
      * rewrite <- Z.pow_add_r by lia. f_equal. lia.
Qed.

Lemma floor_dyadic_int (x : float) (q : Z) :
  0 <= q < 2 ^ 53 -> Prim2SF x = dyadic q 0 -> PyFloat.floor x = x.
Proof.
  intros Hq Hx. unfold PyFloat.floor. rewrite Hx. unfold dyadic.
  destruct (Z.eqb_spec q 0) as [->|Hne]; [reflexivity|].
  set (ec := dyadic_exponent q 0).
  assert (Hec : ec <= 0).
  { unfold ec, dyadic_exponent. rewrite fexp_eq.
    pose proof (Zdigits2_lt_pow2 q 53 ltac:(lia) ltac:(lia) ltac:(lia)). lia. }
  destruct (0 <=? ec); [reflexivity|]. cbn [cond_Zopp].
  assert (Hs : 0 < 2 ^ (0 - ec)) by (apply Z.pow_pos_nonneg; lia).
  rewrite Z2Pos.id by nia. replace (0 - ec) with (- ec) by lia.
  rewrite Z.mod_mul by lia. reflexivity.
Qed.

Lemma sub_self_dyadic (x : float) (N E : Z) :
  Prim2SF x = dyadic N E -> Prim2SF (x - x) = S754_zero false.
Proof.
  intros Hx. rewrite sub_spec, Hx. unfold SF64sub, dyadic.
  destruct (N =? 0); [reflexivity|].
  rewrite SFsub_aligned by lia. rewrite Z.sub_diag, Z.mul_1_r, Z.sub_diag. reflexivity.
Qed.

Lemma truthy_dyadic (x : float) (N E : Z) :
  Prim2SF x = dyadic N E -> PyFloat.truthy x = negb (N =? 0).
Proof.
  intros Hx. unfold PyFloat.truthy. rewrite FloatAxioms.eqb_spec, Hx. unfold dyadic.
  destruct (N =? 0); reflexivity.
Qed.

Lemma ltb_0_dyadic (x : float) (N E : Z) :
  Prim2SF x = dyadic N E -> (x <? 0)%float = false.
Proof.
  intros Hx. rewrite FloatAxioms.ltb_spec, Hx. unfold dyadic.
  destruct (N =? 0); reflexivity.
Qed.

Lemma to_int_copysign_zero (y : float) : PyFloat.to_int (PyFloat.copysign_zero y) = Ok 0.
Proof. unfold PyFloat.copysign_zero. destruct (get_sign y); reflexivity. Qed.

Lemma copysign_zero_zero (y : float) : exists s, Prim2SF (PyFloat.copysign_zero y) = S754_zero s.
Proof. unfold PyFloat.copysign_zero. destruct (get_sign y); eexists; reflexivity. Qed.

Lemma whole_dyadic_exponent (z : Z) : 0 < z < 2 ^ 53 -> dyadic_exponent z 0 = Zdigits2 z - 53.
Proof.
  intros Hz. unfold dyadic_exponent. rewrite fexp_eq.
  pose proof (Zdigits2_lt_pow2 z 53 ltac:(lia) ltac:(lia) ltac:(lia)).
  assert (0 < Zdigits2 z).
  { rewrite Zdigits2_log2 by lia. pose proof (Z.log2_nonneg z). lia. }
  lia.
Qed.

Lemma whole_to_int (x : float) (z : Z) :
  whole x z -> z < 2 ^ 53 -> PyFloat.to_int x = Ok z.
Proof.
  intros [[-> [s Hx]]|[Hz Hx]] Hlt.
  - unfold PyFloat.to_int. rewrite Hx. reflexivity.
  - assert (Hfit : dyadic_exponent z 0 <= 0).
    { rewrite whole_dyadic_exponent by lia.
      pose proof (Zdigits2_lt_pow2 z 53 ltac:(lia) ltac:(lia) ltac:(lia)). lia. }
    rewrite (to_int_dyadic x z 0 ltac:(lia) ltac:(lia) Hfit Hx).
    cbn. rewrite Z.div_1_r. reflexivity.
Qed.

(** [divmod(c, 60)] for a positive [c] below [2 ^ 53]: the quotient is the
    float of an integer, that of the integer part of [c] by 60, and the
    remainder has the remainder of the integer part as its integer part. *)
Lemma divmod_60_shape (c : float) (m : positive) (e : Z) :
  Prim2SF c = S754_finite false m e -> e <= 0 ->
  exists fd md,
    PyFloat.divmod c 60 = Ok (fd, md)
    /\ whole fd (Zpos m / 2 ^ (- e) / 60)
    /\ PyFloat.to_int md = Ok ((Zpos m / 2 ^ (- e)) mod 60).
Proof.
  intros Hc He. pose proof (Prim2SF_valid c) as Hvalid. rewrite Hc in Hvalid.
  pose proof (bounded_facts m e Hvalid) as [Hcanon [Hd Hrange]].
  assert (Hv : 0 < Zpos m < 2 ^ 53).
  { split; [lia|]. pose proof (Zdigits2_bounds (Zpos m) ltac:(lia)) as [_ Hlt].
    eapply Z.lt_le_trans; [exact Hlt|]. apply Z.pow_le_mono_r; lia. }
  destruct (quotient_by_60_bounds (Zpos m) (- e) Hv ltac:(lia)) as [Hdm [Hr [Hrlt Hq]]].
  pose proof (remainder_fits (Zpos m) e (Zpos m mod (60 * 2 ^ (- e))) Hv
                ltac:(lia) Hr Hrlt) as Hfit.
  pose proof (fmod_60_spec c m e Hc He) as Hmod.
  pose proof (sub_fmod_60_spec c _ m e Hc He Hmod) as Hsub.
  pose proof (div_60_spec _ (Zpos m / (60 * 2 ^ (- e))) ltac:(lia) ltac:(lia) Hsub) as Hdiv.
  assert (Hp : 0 < 2 ^ (- e)) by (apply Z.pow_pos_nonneg; lia).
  assert (Hminutes : Zpos m / (60 * 2 ^ (- e)) = Zpos m / 2 ^ (- e) / 60).
  { rewrite Z.div_div by lia. f_equal. lia. }
  assert (Hseconds : Zpos m mod (60 * 2 ^ (- e)) / 2 ^ (- e) = (Zpos m / 2 ^ (- e)) mod 60).
  { rewrite (Z.mul_comm 60), Z.rem_mul_r by lia.
    rewrite (Z.mul_comm (2 ^ (- e))), Z.div_add by lia.
    rewrite Z.div_small by (apply Z.mod_pos_bound; lia). lia. }
  set (r := Zpos m mod (60 * 2 ^ (- e))) in *.
  set (q := Zpos m / (60 * 2 ^ (- e))) in *.
  set (mod0 := PyFloat.fmod c 60) in *.
  set (div0 := ((c - mod0) / 60)%float) in *.
  assert (Hto_div : PyFloat.to_int div0 = Ok (Zpos m / 2 ^ (- e) / 60)).
  { rewrite (to_int_dyadic div0 q 0), <- Hminutes; try lia.
    - cbn. rewrite Z.div_1_r. reflexivity.
    - unfold dyadic_exponent. rewrite fexp_eq.
      destruct (Z.eq_dec q 0) as [->|Hne]; [cbn; lia|].
      pose proof (Zdigits2_lt_pow2 q 53 ltac:(lia) ltac:(lia) ltac:(lia)). lia.
    - exact Hdiv. }
  assert (Hto_mod : PyFloat.to_int mod0 = Ok ((Zpos m / 2 ^ (- e)) mod 60)).
  { rewrite <- Hseconds. apply to_int_dyadic; [lia|lia|lia|exact Hmod]. }
  unfold PyFloat.divmod. change (60 =? 0)%float with false. cbv beta iota zeta.
  fold mod0. fold div0.
  change (60 <? 0)%float with false.
  rewrite (ltb_0_dyadic mod0 _ _ Hmod). cbn [Bool.eqb negb].
  assert (Hhalf : (0.5 <? div0 - div0)%float = false).
  { rewrite FloatAxioms.ltb_spec, (sub_self_dyadic div0 _ _ Hdiv). reflexivity. }
  rewrite (truthy_dyadic mod0 _ _ Hmod).
  destruct (Z.eqb_spec r 0) as [Hr0|Hr0]; cbn [negb]; cbv beta iota zeta;
    rewrite (truthy_dyadic div0 _ _ Hdiv);
    destruct (Z.eqb_spec q 0) as [Hq0|Hq0]; cbn [negb];
    rewrite ?(floor_dyadic_int div0 q ltac:(lia) Hdiv), ?Hhalf;
    eexists; eexists; (split; [reflexivity|]).
  - split; [rewrite <- Hminutes, Hq0; left; split; [reflexivity|apply copysign_zero_zero]|].
    change (PyFloat.copysign_zero 60) with zero. rewrite <- Hseconds, Hr0. reflexivity.
  - split; [rewrite <- Hminutes; right; split; [lia|exact Hdiv]|].
    change (PyFloat.copysign_zero 60) with zero. rewrite <- Hseconds, Hr0. reflexivity.
  - split; [|exact Hto_mod].
    rewrite <- Hminutes, Hq0. left. split; [reflexivity|apply copysign_zero_zero].
  - split; [|exact Hto_mod]. rewrite <- Hminutes. right. split; [lia|exact Hdiv].
Qed.

(** [divmod(c, 60)] for a positive [c] below [2 ^ 53]: both components are
    exact, the quotient and the remainder of the integer part by 60. *)
Lemma divmod_60_finite (c : float) (m : positive) (e : Z) :
  Prim2SF c = S754_finite false m e -> e <= 0 ->
  exists fd md,
    PyFloat.divmod c 60 = Ok (fd, md)
    /\ PyFloat.to_int fd = Ok (Zpos m / 2 ^ (- e) / 60)
    /\ PyFloat.to_int md = Ok ((Zpos m / 2 ^ (- e)) mod 60).
Proof.
  intros Hc He. pose proof (Prim2SF_valid c) as Hvalid. rewrite Hc in Hvalid.
  pose proof (bounded_facts m e Hvalid) as [_ [Hd _]].
  assert (Hv : Zpos m < 2 ^ 53).
  { pose proof (Zdigits2_bounds (Zpos m) ltac:(lia)) as [_ Hlt].
    eapply Z.lt_le_trans; [exact Hlt|]. apply Z.pow_le_mono_r; lia. }
  assert (Hp : 0 < 2 ^ (- e)) by (apply Z.pow_pos_nonneg; lia).
  destruct (divmod_60_shape c m e Hc He) as [fd [md [Hdivmod [Hfd Hmd]]]].
  exists fd, md. split; [exact Hdivmod|]. split; [|exact Hmd].
  apply (whole_to_int fd _ Hfd).
  apply Z.div_lt_upper_bound; [lia|]. 
  assert (Zpos m / 2 ^ (- e) <= Zpos m) by (apply Z.div_le_upper_bound; nia).
  lia.
Qed.

(** A float that is not negative and whose integer part is below [2 ^ 53]
    is a zero or a positive float with an exponent that is not positive. *)
Lemma nonneg_float_cases (c : float) (F : Z) :
  (0 <=? c)%float = true -> PyFloat.to_int c = Ok F -> F < 2 ^ 53 ->
  (exists s, Prim2SF c = S754_zero s /\ F = 0)
  \/ (exists m e, Prim2SF c = S754_finite false m e /\ e <= 0 /\ F = Zpos m / 2 ^ (- e)).
Proof.
  rewrite FloatAxioms.leb_spec. change (Prim2SF 0) with (S754_zero false).
  unfold PyFloat.to_int. pose proof (Prim2SF_valid c) as Hvalid.
  destruct (Prim2SF c) as [s| | |s m e]; intros Hle Hto HF; try discriminate.
  - left. exists s. split; [reflexivity|]. injection Hto as <-. reflexivity.
  - right. destruct s; [discriminate|]. exists m, e. cbn [cond_Zopp] in Hto.
    pose proof (bounded_facts m e Hvalid) as [Hcanon [Hd Hrange]].
    rewrite fexp_eq in Hcanon.
    pose proof (Zdigits2_bounds (Zpos m) ltac:(lia)) as [Hlow _].
    destruct (Z.leb_spec 0 e) as [Hpos|Hneg]; injection Hto as <-.
    + destruct (Z.eq_dec e 0) as [->|Hne].
      * split; [reflexivity|]. split; [lia|]. cbn. rewrite Z.div_1_r. lia.
      * exfalso. assert (Hd53 : Zdigits2 (Zpos m) = 53) by lia.
        rewrite Hd53 in Hlow. change (2 ^ (53 - 1)) with 4503599627370496 in Hlow.
        assert (2 <= 2 ^ e).
        { change 2 with (2 ^ 1) at 1. apply Z.pow_le_mono_r; lia. }
        change (2 ^ 53) with 9007199254740992 in HF. nia.
    + split; [reflexivity|]. split; [lia|reflexivity].
Qed.

(** The clock of a quotient that is not negative and below [2 ^ 53]:
    minutes and seconds are the quotient and remainder by 60 of its
    integer part. *)
Lemma clock_of_frames_exact (n F : Z) (fps x : float) :
  PyFloat.truthy fps = true ->
  PyFloat.of_int n = Ok x ->
  (0 <=? x / fps)%float = true ->
  PyFloat.to_int (x / fps) = Ok F -> F < 2 ^ 53 ->
  clock_of_frames n fps = Ok (format_clock (F / 60) (F mod 60)).
Proof.
  intros Hfps Hx Hle Hto HF. unfold clock_of_frames.
  rewrite Hx. cbn [mbind result_bind]. rewrite (truediv_defined x fps Hfps).
  cbn [mbind result_bind].
  destruct (nonneg_float_cases _ F Hle Hto HF) as [[s [Hc ->]]|[m [e [Hc [He ->]]]]].
  - rewrite <- (SF2Prim_Prim2SF (x / fps)), Hc. destruct s; reflexivity.
  - destruct (divmod_60_finite _ m e Hc He) as [fd [md [-> [Hfd Hmd]]]].
    cbn [mbind result_bind]. rewrite Hfd. cbn [mbind result_bind]. rewrite Hmd. reflexivity.
Qed.

End Clock.

(** ** The length of a match *)

Section PositiveQuotient.

(** Rounding keeps the sign it is given. *)
Lemma binary_round_aux_positive (mz ez : Z) (lz : location) :
  match binary_round_aux prec emax false mz ez lz with
  | S754_zero s | S754_finite s _ _ | S754_infinity s => s = false
  | S754_nan => True
  end.
Proof.
  unfold binary_round_aux.
  destruct (shr_fexp prec emax mz ez lz) as [mrs' e'].
  destruct (shr_fexp prec emax _ e' loc_Exact) as [mrs'' e''].
  destruct (shr_m mrs''); [reflexivity| |exact I].
  destruct (e'' <=? emax - prec); reflexivity.
Qed.

(** The float of a positive integer below [2 ^ 53]. *)
Lemma of_int_positive (n : Z) (x : float) :
  0 < n < 2 ^ 53 -> PyFloat.of_int n = Ok x ->
  exists m e, Prim2SF x = S754_finite false m e.
Proof.
  intros Hn Hx. unfold PyFloat.of_int in Hx.
  destruct (is_infinity _); [discriminate Hx|]. injection Hx as <-.
  assert (Hfit : dyadic_exponent n 0 <= 0).
  { rewrite whole_dyadic_exponent by lia.
    pose proof (Zdigits2_lt_pow2 n 53 ltac:(lia) ltac:(lia) ltac:(lia)). lia. }
  rewrite binary_normalize_dyadic by lia.
  rewrite Prim2SF_SF2Prim by (apply dyadic_valid; lia).
  unfold dyadic. destruct (Z.eqb_spec n 0) as [Habs|_]; [lia|]. eauto.
Qed.

(** The quotient of a positive integer below [2 ^ 53] by a positive float
    is not negative, when it has an integer part. *)
Lemma quotient_not_negative (n F : Z) (fps x : float) :
  0 < n < 2 ^ 53 -> PyFloat.of_int n = Ok x ->
  (0 <? fps)%float = true ->
  PyFloat.to_int (x / fps) = Ok F ->
  (0 <=? x / fps)%float = true.
Proof.
  intros Hn Hx Hfps Hto. destruct (of_int_positive n x Hn Hx) as [mx [ex Hmx]].
  rewrite FloatAxioms.ltb_spec in Hfps. change (Prim2SF 0) with (S754_zero false) in Hfps.
  unfold PyFloat.to_int in Hto. rewrite FloatAxioms.leb_spec.
  change (Prim2SF 0) with (S754_zero false).
  rewrite div_spec in Hto |- *. unfold SF64div in Hto |- *. rewrite Hmx in Hto |- *.
  destruct (Prim2SF fps) as [s|s| |s my ey]; try discriminate Hfps.
  - destruct s; [discriminate Hfps|]. reflexivity.
  - destruct s; [discriminate Hfps|]. cbn [SFdiv xorb] in Hto |- *.
    destruct (SFdiv_core_binary prec emax (Zpos mx) ex (Zpos my) ey) as [[mz ez] lz].
    pose proof (binary_round_aux_positive mz ez lz) as Hsign.
    destruct (binary_round_aux prec emax false mz ez lz) as [s|s| |s m e];
      try discriminate Hto; subst s; reflexivity.
Qed.

End PositiveQuotient.

(** The claim that [match_length] formats the quotient of every positive
    frame count and positive frame rate does not hold: one frame at the
    smallest positive rate has an infinite quotient, and [match_length]
    raises [ValueError]. *)
Lemma match_length_raises_on_tiny_rate :
  ~ (forall (r : Replay) (n : Z) (fps : float),
        num_frames r = Some n -> 0 < n ->
        record_fps r = Some fps -> (0 <? fps)%float = true ->
        exists minutes seconds,
          Replay.match_length r = Ok (format_clock minutes seconds)).
Proof.
  intros Hclaim.
  destruct (Hclaim (Example.recording (Some 1) (Some 0x1p-1074%float)) 1 0x1p-1074%float
              eq_refl ltac:(lia) eq_refl eq_refl) as [minutes [seconds Habs]].
  vm_compute in Habs. discriminate Habs.
Qed.

(** C7 (amended): a replay of 5400 frames recorded at 30.0 frames a second
    has [match_length] ["3:00"].  In general, for a positive frame count
    and a positive frame rate whose quotient [num_frames / record_fps] has
    an integer part [F] below [2 ^ 53], [match_length] is [F] seconds as
    minutes and seconds padded to two digits, the seconds below 60. *)
Theorem match_length_of_positive_frames :
  (forall r, num_frames r = Some 5400 -> record_fps r = Some 30%float ->
             Replay.match_length r = Ok "3:00"%string)
  /\ (forall r n F fps x,
         num_frames r = Some n -> 0 < n < 2 ^ 53 ->
         record_fps r = Some fps -> (0 <? fps)%float = true ->
         PyFloat.of_int n = Ok x ->
         PyFloat.to_int (x / fps) = Ok F -> F < 2 ^ 53 ->
         Replay.match_length r = Ok (format_clock (F / 60) (F mod 60))
         /\ 0 <= F mod 60 < 60).
Proof.
  assert (Hgeneral : forall r n F fps x,
         num_frames r = Some n -> 0 < n < 2 ^ 53 ->
         record_fps r = Some fps -> (0 <? fps)%float = true ->
         PyFloat.of_int n = Ok x ->
         PyFloat.to_int (x / fps) = Ok F -> F < 2 ^ 53 ->
         Replay.match_length r = Ok (format_clock (F / 60) (F mod 60))
         /\ 0 <= F mod 60 < 60).
  { intros r n F fps x Hn Hpos Hfps Hrate Hx Hto HF.
    split; [|apply Z.mod_pos_bound; lia].
    assert (Htruthy : PyFloat.truthy fps = true).
    { unfold PyFloat.truthy. rewrite FloatAxioms.eqb_spec.
      rewrite FloatAxioms.ltb_spec in Hrate.
      change (Prim2SF 0) with (S754_zero false) in Hrate |- *.
      destruct (Prim2SF fps) as [s|s| |s m e]; try discriminate Hrate;
        destruct s; first [discriminate Hrate|reflexivity]. }
    rewrite match_length_unfold, Hn, Hfps, Htruthy.
    destruct (Z.eqb_spec n 0) as [Hz|_]; [lia|]. cbn [negb andb].
    apply (clock_of_frames_exact n F fps x Htruthy Hx); [|exact Hto|exact HF].
    exact (quotient_not_negative n F fps x Hpos Hx Hrate Hto). }
  split; [|exact Hgeneral].
  intros r Hn Hfps.
  exact (proj1 (Hgeneral r 5400 180 30%float 5400%float Hn ltac:(lia) Hfps
                  eq_refl eq_refl eq_refl eq_refl)).
Qed.

Lemma match_length_of_positive_frames_witness :
  Replay.match_length Example.stored = Ok "3:00"%string
  /\ Replay.match_length (Example.recording (Some 2000) (Some 30%float))
     = Ok "1:06"%string.
Proof.
  destruct match_length_of_positive_frames as [Hscenario Hgeneral]. split.
  - exact (Hscenario Example.stored eq_refl eq_refl).
  - exact (proj1 (Hgeneral (Example.recording (Some 2000) (Some 30%float))
                    2000 66 30%float 2000%float
                    eq_refl ltac:(lia) eq_refl eq_refl eq_refl eq_refl eq_refl)).
Defined.

(** * Further properties of the models *)

(** ** The clock of a replay and of a goal *)

(** X1: [match_length] of a replay with a frame count and a frame rate that
    are not zero, whose quotient [num_frames / record_fps] is a float that
    is not negative with an integer part [F] below [2 ^ 53]: the answer is
    ['%d:%02d'] of the quotient and the remainder of [F] by 60. *)
Theorem match_length_minutes_seconds (r : Replay) (n F : Z) (fps x : float) :
  num_frames r = Some n -> n <> 0 ->
  record_fps r = Some fps -> PyFloat.truthy fps = true ->
  PyFloat.of_int n = Ok x ->
  (0 <=? x / fps)%float = true ->
  PyFloat.to_int (x / fps) = Ok F -> F < 2 ^ 53 ->
  Replay.match_length r = Ok (format_clock (F / 60) (F mod 60)).
Proof.
  intros Hn Hn0 Hfps Htruthy Hx Hle Hto HF.
  rewrite match_length_unfold, Hn, Hfps, Htruthy.
  destruct (Z.eqb_spec n 0) as [Hz|_]; [contradiction|]. cbn [negb andb].
  exact (clock_of_frames_exact n F fps x Htruthy Hx Hle Hto HF).
Qed.

Lemma match_length_minutes_seconds_witness :
  Replay.match_length Example.stored = Ok "3:00"%string.
Proof.
  exact (match_length_minutes_seconds Example.stored 5400 180 30 5400
           eq_refl ltac:(discriminate) eq_refl eq_refl eq_refl eq_refl eq_refl eq_refl).
Defined.

(** X2: [goal_time] of a goal with a frame that is not zero, in a replay with
    a frame rate that is not zero, whose quotient [frame / record_fps] is
    not negative with an integer part [F] below [2 ^ 53]: the answer is
    ['%d:%02d'] of the quotient and the remainder of [F] by 60. *)
Theorem goal_time_minutes_seconds (replay : Replay) (g : Goal) (n F : Z) (fps x : float) :
  frame g = Some n -> n <> 0 ->
  record_fps replay = Some fps -> PyFloat.truthy fps = true ->
  PyFloat.of_int n = Ok x ->
  (0 <=? x / fps)%float = true ->
  PyFloat.to_int (x / fps) = Ok F -> F < 2 ^ 53 ->
  Goal.goal_time replay g = Ok (format_clock (F / 60) (F mod 60)).
Proof.
  intros Hn Hn0 Hfps Htruthy Hx Hle Hto HF.
  rewrite goal_time_unfold, Hn, Hfps, Htruthy.
  destruct (Z.eqb_spec n 0) as [Hz|_]; [contradiction|]. cbn [negb andb].
  exact (clock_of_frames_exact n F fps x Htruthy Hx Hle Hto HF).
Qed.

Lemma goal_time_minutes_seconds_witness :
  Goal.goal_time Example.stored (Example.goal 2 1 (Some 2000)) = Ok "1:06"%string.
Proof.
  exact (goal_time_minutes_seconds Example.stored (Example.goal 2 1 (Some 2000))
           2000 66 30 2000
           eq_refl ltac:(discriminate) eq_refl eq_refl eq_refl eq_refl eq_refl eq_refl).
Defined.

(** The clock of a quotient that is infinite or not a number: [divmod]
    answers a pair of NaNs, and [int] of a NaN raises [ValueError]. *)
Lemma clock_of_frames_not_finite (n : Z) (fps x : float) (e : exn) :
  PyFloat.truthy fps = true ->
  PyFloat.of_int n = Ok x ->
  PyFloat.to_int (x / fps) = Raise e ->
  clock_of_frames n fps = Raise ValueError.
Proof.
  intros Hfps Hx Hto. unfold clock_of_frames.
  rewrite Hx. cbn [mbind result_bind]. rewrite (truediv_defined x fps Hfps).
  cbn [mbind result_bind]. unfold PyFloat.to_int in Hto.
  rewrite <- (SF2Prim_Prim2SF (x / fps)).
  destruct (Prim2SF (x / fps)) as [s|s| |s m ex]; try discriminate Hto.
  - destruct s; reflexivity.
  - reflexivity.
Qed.

(** X3: [match_length] of a replay whose quotient [num_frames / record_fps]
    has no integer part, being infinite or not a number (a frame rate
    that is tiny or a NaN): [ValueError] is raised, also where [int] of
    the quotient itself would raise [OverflowError]. *)
Theorem match_length_not_finite (r : Replay) (n : Z) (fps x : float) (e : exn) :
  num_frames r = Some n -> n <> 0 ->
  record_fps r = Some fps -> PyFloat.truthy fps = true ->
  PyFloat.of_int n = Ok x ->
  PyFloat.to_int (x / fps) = Raise e ->
  Replay.match_length r = Raise ValueError.
Proof.
  intros Hn Hn0 Hfps Htruthy Hx Hto.
  rewrite match_length_unfold, Hn, Hfps, Htruthy.
  destruct (Z.eqb_spec n 0) as [Hz|_]; [contradiction|]. cbn [negb andb].
  exact (clock_of_frames_not_finite n fps x e Htruthy Hx Hto).
Qed.

Lemma match_length_not_finite_witness :
  PyFloat.to_int (1 / 0x1p-1074)%float = Raise OverflowError
  /\ Replay.match_length (Example.recording (Some 1) (Some 0x1p-1074%float))
     = Raise ValueError.
Proof.
  split; [reflexivity|].
  exact (match_length_not_finite (Example.recording (Some 1) (Some 0x1p-1074%float))
           1 0x1p-1074 1 OverflowError
           eq_refl ltac:(discriminate) eq_refl eq_refl eq_refl eq_refl).
Defined.

(** ** Features and their patrons *)

Section FeatureFacts.
Context `{Environment}.

Lemma features_lookup (feature : string) :
  Replay.features !! feature
  = if String.eqb feature "playback" then Some 300
    else if String.eqb feature "boost_analysis" then Some 1000
    else None.
Proof.
  unfold Replay.features.
  destruct (String.eqb_spec feature "playback") as [->|Hplayback].
  - apply lookup_insert_eq.
  - rewrite lookup_insert_ne by congruence.
    destruct (String.eqb_spec feature "boost_analysis") as [->|Hboost].
    + apply lookup_singleton_eq.
    + apply lookup_singleton_ne. congruence.
Qed.

(** X4: [eligible_for_feature] answers a boolean for the two features of its
    dictionary and raises [KeyError] with the name asked for any other
    feature, whatever the replay. *)
Theorem eligible_for_feature_known (db : DB) (self : Replay) (feature : string) :
  (feature = "playback"%string \/ feature = "boost_analysis"%string ->
   exists b, Replay.eligible_for_feature db self feature = Ok b)
  /\ (feature <> "playback"%string -> feature <> "boost_analysis"%string ->
      Replay.eligible_for_feature db self feature = Raise (KeyError feature)).
Proof.
  unfold Replay.eligible_for_feature. rewrite features_lookup. split.
  - intros [->| ->]; cbn [String.eqb Ascii.eqb Bool.eqb];
      match goal with |- context [if ?c then Ok true else _] => destruct c end; eauto.
  - intros Hplayback Hboost.
    destruct (String.eqb_spec feature "playback"); [contradiction|].
    destruct (String.eqb_spec feature "boost_analysis"); [contradiction|].
    reflexivity.
Qed.

Lemma eligible_for_feature_amount (db : DB) (self : Replay) (feature : string) (amount : Z) :
  Replay.features !! feature = Some amount ->
  (Replay.eligible_for_feature db self feature = Ok true
   <-> (exists u, user self = Some u /\ amount <= patreon_pledge_amount (Some u) None)
       \/ (exists player, In player (player_set db self)
                          /\ Replay.is_steam player = true
                          /\ amount <= patreon_pledge_amount None (online_id player))).
Proof.
  intros Hfeature. unfold Replay.eligible_for_feature. rewrite Hfeature. split.
  - destruct (user self) as [u|].
    + destruct (Z.leb_spec amount (patreon_pledge_amount (Some u) None)) as [Hle|Hlt].
      * intros _. left. exists u. split; [reflexivity|exact Hle].
      * intros Hplayers. injection Hplayers as Hplayers.
        apply existsb_exists in Hplayers as [player [Hin Hle]].
        apply filter_In in Hin as [Hin Hsteam]. apply Z.leb_le in Hle.
        right. exists player. auto.
    + intros Hplayers. injection Hplayers as Hplayers.
      apply existsb_exists in Hplayers as [player [Hin Hle]].
      apply filter_In in Hin as [Hin Hsteam]. apply Z.leb_le in Hle.
      right. exists player. auto.
  - intros Hpatron.
    assert (Hplayers :
      (exists player, In player (player_set db self)
                      /\ Replay.is_steam player = true
                      /\ amount <= patreon_pledge_amount None (online_id player)) ->
      existsb (fun player => amount <=? patreon_pledge_amount None (online_id player))
        (List.filter Replay.is_steam (player_set db self)) = true).
    { intros [player [Hin [Hsteam Hle]]]. apply existsb_exists. exists player.
      split; [apply filter_In; auto|apply Z.leb_le, Hle]. }
    destruct (user self) as [u|].
    + destruct (Z.leb_spec amount (patreon_pledge_amount (Some u) None)) as [Hle|Hlt];
        [reflexivity|].
      destruct Hpatron as [[u' [Hu Hle]]|Hpatron].
      * injection Hu as <-. lia.
      * rewrite (Hplayers Hpatron). reflexivity.
    + destruct Hpatron as [[u' [Hu _]]|Hpatron]; [discriminate Hu|].
      rewrite (Hplayers Hpatron). reflexivity.
Qed.

Lemma pledge_for_boost_analysis_reaches_playback (db : DB) (self : Replay) :
  Replay.eligible_for_feature db self "boost_analysis" = Ok true ->
  Replay.eligible_for_feature db self "playback" = Ok true.
Proof.
  rewrite (eligible_for_feature_amount db self "boost_analysis" 1000 eq_refl).
  rewrite (eligible_for_feature_amount db self "playback" 300 eq_refl).
  intros [[u [Hu Hle]]|[player [Hin [Hsteam Hle]]]].
  - left. exists u. split; [exact Hu|lia].
  - right. exists player. split; [exact Hin|]. split; [exact Hsteam|lia].
Qed.

(** X5: A replay that is eligible for boost analysis is eligible for playback:
    a pledge that reaches the amount of the one reaches that of the other. *)
Theorem boost_analysis_implies_playback (db : DB) (self : Replay) :
  Replay.eligible_for_boost_analysis db self = Ok true ->
  Replay.eligible_for_playback db self = Ok true.
Proof.
  unfold Replay.eligible_for_boost_analysis, Replay.eligible_for_playback.
  apply pledge_for_boost_analysis_reaches_playback.
Qed.

(** X6: [show_playback] is true exactly for a replay that has a location file
    and is queued with priority. *)
Theorem show_playback_priority (db : DB) (self : Replay) :
  Replay.show_playback db self = Ok true
  <-> truthy_str (location_json_file self) = true
      /\ Replay.queue_priority db self = Ok "priority"%string.
Proof.
  unfold Replay.show_playback.
  destruct (queue_priority_cases db self) as [[He Hq]|[He Hq]]; rewrite Hq;
    unfold Replay.eligible_for_playback in He; rewrite He;
    destruct (truthy_str (location_json_file self)); cbn [negb];
    split; intros Habs; try discriminate Habs; try (split; reflexivity);
    destruct Habs as [Hfile Hpriority];
    try discriminate Hfile; try discriminate Hpriority; reflexivity.
Qed.

(** X7: A replay that shows its boost analysis has boost samples, and is
    queued with priority. *)
Theorem show_boost_analysis_priority (db : DB) (self : Replay) :
  Replay.show_boost_analysis db self = Ok true ->
  boostdata_set db self <> []
  /\ Replay.queue_priority db self = Ok "priority"%string.
Proof.
  unfold Replay.show_boost_analysis. intros Hshow.
  destruct (boostdata_set db self) as [|sample samples]; [discriminate Hshow|].
  cbn [length Nat.eqb] in Hshow. split; [discriminate|].
  pose proof (pledge_for_boost_analysis_reaches_playback db self Hshow) as Hplayback.
  fold (Replay.eligible_for_playback db self) in Hplayback.
  destruct (queue_priority_cases db self) as [[_ Hq]|[He _]]; [exact Hq|].
  rewrite He in Hplayback. discriminate Hplayback.
Qed.

End FeatureFacts.

Lemma show_playback_priority_witness :
  Replay.show_playback Example.db Example.located = Ok true.
Proof.
  exact (proj2 (@show_playback_priority Example.env Example.db Example.located)
           (conj eq_refl eq_refl)).
Defined.

Lemma boost_analysis_implies_playback_witness :
  @Replay.eligible_for_boost_analysis Example.generous_env Example.db Example.stored
  = Ok true
  /\ @Replay.eligible_for_playback Example.generous_env Example.db Example.stored
     = Ok true.
Proof.
  split; [reflexivity|].
  exact (@boost_analysis_implies_playback Example.generous_env Example.db
           Example.stored eq_refl).
Defined.

Lemma show_boost_analysis_priority_witness :
  boostdata_set Example.sampled_db Example.stored <> []
  /\ @Replay.queue_priority Example.generous_env Example.sampled_db Example.stored
     = Ok "priority"%string.
Proof.
  exact (@show_boost_analysis_priority Example.generous_env Example.sampled_db
           Example.stored eq_refl).
Defined.

(** ** Validating an upload twice *)

(** X8: [clean] can be called again on the instance it accepted (the code
    notes that it sometimes is): the second call accepts it and changes
    nothing, provided the tables did not change in between. *)
Theorem clean_twice `{Environment} (db : DB) (self cleaned : Replay) :
  Replay.clean db self = Ok cleaned ->
  Replay.clean db cleaned = Ok cleaned.
Proof.
  unfold Replay.clean.
  destruct (truthy_int (pk self)) eqn:Hpk.
  { intros Hsame. injection Hsame as <-. rewrite Hpk. reflexivity. }
  destruct (FieldFile_bool (file self)) eqn:Hfile.
  2:{ intros Hsame. injection Hsame as <-. rewrite Hpk, Hfile. reflexivity. }
  destruct (Pyrope (file_data (file self))) as [replay|e] eqn:Hdecode.
  2:{ destruct e; intros Habs; discriminate Habs. }
  cbn [mbind result_bind]. destruct (Id replay) as [rid|] eqn:Hid.
  2:{ intros Habs; discriminate Habs. }
  cbn [mbind result_bind].
  destruct (Replay.filter_replay_id db rid) as [|existing others] eqn:Hfilter.
  2:{ destruct (Replay.get_absolute_url existing); intros Habs; discriminate Habs. }
  intros Hcleaned. injection Hcleaned as <-.
  cbn [set_replay_id pk file]. rewrite Hpk, Hfile, Hdecode.
  cbn [mbind result_bind]. rewrite Hid. cbn [mbind result_bind]. rewrite Hfilter.
  reflexivity.
Qed.

Lemma clean_twice_witness :
  Replay.clean Example.empty_db (Example.upload [Byte.x00])
  = Ok (set_replay_id (Example.upload [Byte.x00])
          (Some "ABCDEF0141234567ABCDEF0123456789"%string))
  /\ Replay.clean Example.empty_db
       (set_replay_id (Example.upload [Byte.x00])
          (Some "ABCDEF0141234567ABCDEF0123456789"%string))
     = Ok (set_replay_id (Example.upload [Byte.x00])
             (Some "ABCDEF0141234567ABCDEF0123456789"%string)).
Proof.
  split; [reflexivity|].
  exact (@clean_twice Example.env Example.empty_db (Example.upload [Byte.x00]) _ eq_refl).
Defined.

(** ** What the serializers leave out *)

Section ExcludedFields.
Context `{Environment}.

Lemma mapM_keys {A : Type} (f : string -> result A) (names : list string)
    (entries : list (string * A)) :
  mapM (fun name => v ← f name; Ok (name, v)) names = Ok entries ->
  List.map fst entries = names.
Proof.
  revert entries. induction names as [|name names IH]; intros entries.
  - intros Hnil. injection Hnil as <-. reflexivity.
  - cbn. destruct (f name) as [v|e]; [|intros Habs; discriminate Habs]. cbn.
    destruct (mapM (fun name => v ← f name; Ok (name, v)) names) as [rest|e];
      [|intros Habs; discriminate Habs].
    cbn. intros Hcons. injection Hcons as <-. cbn. f_equal. apply IH. reflexivity.
Qed.

(** The keys of a representation are the field names, in their order. *)
Lemma to_representation_keys {A : Type} (getattr : A -> string -> result pyval)
    (names : list string) (a : A) (entries : list (string * pyval)) :
  Serializers.to_representation getattr names a = Ok (VDict entries) ->
  List.map fst entries = names.
Proof.
  unfold Serializers.to_representation.
  destruct (mapM (fun name => v ← getattr a name; Ok (name, v)) names)
    as [computed|e] eqn:Hentries; [|intros Habs; discriminate Habs].
  cbn. intros Hdict. injection Hdict as <-. exact (mapM_keys _ _ _ Hentries).
Qed.

Lemma Replay_getattr_ignores_user (db : DB) (r : Replay) (u : option Z) (name : string) :
  name <> "user"%string ->
  Serializers.Replay_getattr db (set_user r u) name
  = Serializers.Replay_getattr db r name.
Proof.
  intros Hname. unfold Serializers.Replay_getattr.
  repeat match goal with
  | |- (if String.eqb name ?s then _ else _) = _ =>
      destruct (String.eqb_spec name s) as [->|_];
      [first [ reflexivity | destruct Hname; reflexivity ] |]
  end.
  reflexivity.
Qed.

Lemma user_not_serialized :
  ~ In "user"%string Serializers.ReplaySerializer_field_names.
Proof.
  vm_compute. intros Hin.
  repeat (destruct Hin as [Hin|Hin]; [discriminate Hin|]). destruct Hin.
Qed.

(** X9: [ReplaySerializer] never shows who uploaded a replay: its
    representation has no [user] key, and it is the same whoever the
    uploader is. *)
Theorem ReplaySerializer_omits_user (db : DB) (r : Replay) (u : option Z) :
  Serializers.ReplaySerializer db (set_user r u) = Serializers.ReplaySerializer db r
  /\ forall entries,
       Serializers.ReplaySerializer db r = Ok (VDict entries) ->
       ~ In "user"%string (List.map fst entries).
Proof.
  split.
  - unfold Serializers.ReplaySerializer. apply to_representation_ext.
    intros name Hname. apply Replay_getattr_ignores_user.
    intros ->. exact (user_not_serialized Hname).
  - intros entries Hentries. unfold Serializers.ReplaySerializer in Hentries.
    rewrite (to_representation_keys _ _ _ _ Hentries).
    exact user_not_serialized.
Qed.

Lemma Player_getattr_ignores_replay (p : Player) (k : Z) (name : string) :
  name <> "replay"%string ->
  Serializers.Player_getattr (set_player_replay p k) name
  = Serializers.Player_getattr p name.
Proof.
  intros Hname. unfold Serializers.Player_getattr.
  repeat match goal with
  | |- (if String.eqb name ?s then _ else _) = _ =>
      destruct (String.eqb_spec name s) as [->|_];
      [first [ reflexivity | destruct Hname; reflexivity ] |]
  end.
  reflexivity.
Qed.

Lemma PlayerSerializer_field_names :
  Serializers.field_names ["id"]%string Serializers.Player_fields
    ["replay"; "party_leader"]%string ["replay"]%string
  = ("url" :: "id" :: Serializers.Player_fields ++ ["party_leader"])%string.
Proof. reflexivity. Qed.

(** X10: [PlayerSerializer] leaves out the replay of a player: its
    representation has no [replay] key and is the same whatever replay the
    player belongs to, while the player's own key [id] and every field of
    the model are shown. *)
Theorem PlayerSerializer_omits_replay (p : Player) (k : Z) :
  Serializers.PlayerSerializer (set_player_replay p k) = Serializers.PlayerSerializer p
  /\ exists entries,
       Serializers.PlayerSerializer p = Ok (VDict entries)
       /\ List.map fst entries
          = ("url" :: "id" :: Serializers.Player_fields ++ ["party_leader"])%string
       /\ ~ In "replay"%string (List.map fst entries).
Proof.
  assert (Hnames : ~ In "replay"%string
                      ("url" :: "id" :: Serializers.Player_fields ++ ["party_leader"])%string).
  { vm_compute. intros Hin.
    repeat (destruct Hin as [Hin|Hin]; [discriminate Hin|]). destruct Hin. }
  split.
  - unfold Serializers.PlayerSerializer. apply to_representation_ext.
    intros name Hname. apply Player_getattr_ignores_replay.
    intros ->. rewrite PlayerSerializer_field_names in Hname. exact (Hnames Hname).
  - unfold Serializers.PlayerSerializer. rewrite PlayerSerializer_field_names.
    eexists. split; [reflexivity|]. split; [reflexivity|]. exact Hnames.
Qed.

End ExcludedFields.

(** ** The two teams side by side *)

Section PairFacts.

Lemma zip_longest_nil_r {A B : Type} (l1 : list A) :
  @zip_longest A B l1 [] = List.map (fun a => (Some a, None)) l1.
Proof. induction l1 as [|a l1 IH]; [reflexivity|]. cbn. rewrite IH. reflexivity. Qed.

Lemma zip_longest_fst {A B : Type} (l1 : list A) (l2 : list B) :
  omap fst (zip_longest l1 l2) = l1.
Proof.
  revert l2. induction l1 as [|a l1 IH]; intros [|b l2]; cbn.
  - reflexivity.
  - induction l2 as [|b' l2 IH2]; [reflexivity|exact IH2].
  - f_equal. apply IH.
  - f_equal. apply IH.
Qed.

Lemma zip_longest_snd {A B : Type} (l1 : list A) (l2 : list B) :
  omap snd (zip_longest l1 l2) = l2.
Proof.
  revert l2. induction l1 as [|a l1 IH]; intros [|b l2]; cbn.
  - reflexivity.
  - f_equal. induction l2 as [|b' l2 IH2]; [reflexivity|]. cbn. f_equal. exact IH2.
  - apply IH.
  - f_equal. apply IH.
Qed.

Lemma zip_longest_length {A B : Type} (l1 : list A) (l2 : list B) :
  length (zip_longest l1 l2) = Nat.max (length l1) (length l2).
Proof.
  revert l2. induction l1 as [|a l1 IH]; intros [|b l2]; cbn.
  - reflexivity.
  - rewrite length_map. reflexivity.
  - rewrite IH. destruct (length l1); reflexivity.
  - rewrite IH. reflexivity.
Qed.

Lemma zip_longest_filled {A B : Type} (l1 : list A) (l2 : list B) :
  ~ In (None, None) (zip_longest l1 l2).
Proof.
  revert l2. induction l1 as [|a l1 IH]; intros [|b l2]; cbn.
  - tauto.
  - intros [Habs|Habs]; [discriminate Habs|].
    apply in_map_iff in Habs as [b' [Habs _]]. discriminate Habs.
  - intros [Habs|Habs]; [discriminate Habs|]. exact (IH [] Habs).
  - intros [Habs|Habs]; [discriminate Habs|]. exact (IH l2 Habs).
Qed.

(** X11: [player_pairs] lists the two teams side by side: its left column is
    the list of team 0 and its right column that of team 1, each in its
    order, the shorter one filled up with [None]; it has as many rows as
    the larger team has players, and no row is empty on both sides. *)
Theorem player_pairs_columns (db : DB) (self : Replay) :
  omap fst (Replay.player_pairs db self) = Replay.team_0_player_list db self
  /\ omap snd (Replay.player_pairs db self) = Replay.team_1_player_list db self
  /\ length (Replay.player_pairs db self)
     = Nat.max (length (Replay.team_0_player_list db self))
         (length (Replay.team_1_player_list db self))
  /\ ~ In (None, None) (Replay.player_pairs db self).
Proof.
  unfold Replay.player_pairs.
  split; [apply zip_longest_fst|]. split; [apply zip_longest_snd|].
  split; [apply zip_longest_length|apply zip_longest_filled].
Qed.

End PairFacts.

(** ** The identifier of a replay as a UUID *)

Section UuidFacts.

Lemma append_cons (c : ascii) (s t : string) :
  (String c s ++ t)%string = String c (s ++ t)%string.
Proof. reflexivity. Qed.

Lemma append_assoc (s t u : string) : ((s ++ t) ++ u = s ++ (t ++ u))%string.
Proof.
  induction s as [|c s IH]; [reflexivity|]. rewrite !append_cons, IH. reflexivity.
Qed.

Lemma length_append (s t : string) :
  String.length (s ++ t) = (String.length s + String.length t)%nat.
Proof.
  induction s as [|c s IH]; [reflexivity|]. rewrite append_cons. cbn [String.length].
  rewrite IH. reflexivity.
Qed.

Lemma without_dashes_app (s t : string) :
  without_dashes (s ++ t) = (without_dashes s ++ without_dashes t)%string.
Proof.
  induction s as [|c s IH]; [reflexivity|]. rewrite append_cons. cbn [without_dashes].
  destruct (Ascii.eqb c "-"); [exact IH|]. rewrite append_cons, IH. reflexivity.
Qed.

Lemma take_n_spec (p : ascii -> bool) (n : nat) (s g rest : string) :
  Re.take_n p n s = Some (g, rest) ->
  s = (g ++ rest)%string /\ String.length g = n
  /\ forallb p (list_ascii_of_string g) = true.
Proof.
  revert s g rest. induction n as [|n IH]; intros s g rest; cbn.
  - intros Hsome. injection Hsome as <- <-. auto.
  - destruct s as [|c s]; [discriminate|].
    destruct (p c) eqn:Hc; [|discriminate].
    destruct (Re.take_n p n s) as [[g' rest']|] eqn:Htake; [|discriminate].
    intros Hsome. injection Hsome as <- <-.
    destruct (IH s g' rest' Htake) as [-> [Hlen Hall]].
    rewrite append_cons. cbn [String.length list_ascii_of_string forallb].
    rewrite Hc, Hall, Hlen. auto.
Qed.

Lemma without_dashes_hex (g : string) :
  forallb Re.is_hex_upper (list_ascii_of_string g) = true -> without_dashes g = g.
Proof.
  induction g as [|c g IH]; [reflexivity|].
  cbn [list_ascii_of_string forallb without_dashes]. intros Hall.
  apply andb_prop in Hall as [Hc Hall]. rewrite (IH Hall).
  destruct (Ascii.eqb_spec c "-") as [->|_]; [discriminate Hc|reflexivity].
Qed.

Lemma string_drop_app (g rest : string) :
  string_drop (String.length g) (g ++ rest) = rest.
Proof. induction g as [|c g IH]; [reflexivity|]. rewrite append_cons. exact IH. Qed.

(** A match of the pattern is 32 characters of the string, none a dash. *)
Lemma match_uuid_spec (s : string) (groups : list string) :
  Re.match_uuid s = Some groups ->
  exists rest,
    s = (String.concat "" groups ++ rest)%string
    /\ String.length (String.concat "" groups) = 32%nat
    /\ without_dashes (String.concat "-" groups) = String.concat "" groups
    /\ without_dashes (String.concat "" groups) = String.concat "" groups.
Proof.
  unfold Re.match_uuid.
  destruct (Re.take_n Re.is_hex_upper 8 s) as [[g1 s0]|] eqn:H1; [|discriminate].
  destruct s0 as [|c s1]; [discriminate|].
  destruct (Ascii.eqb_spec c "4") as [->|Hne].
  2:{ destruct c as [[] [] [] [] [] [] [] []]; try discriminate; contradiction Hne; reflexivity. }
  destruct (Re.take_n Re.is_hex_upper 3 s1) as [[g2 s2]|] eqn:H2; [|discriminate].
  destruct (Re.take_n Re.is_hex_upper 4 s2) as [[g3 s3]|] eqn:H3; [|discriminate].
  destruct (Re.take_n Re.is_hex_upper 4 s3) as [[g4 s4]|] eqn:H4; [|discriminate].
  destruct (Re.take_n Re.is_hex_upper 12 s4) as [[g5 s5]|] eqn:H5; [|discriminate].
  intros Hsome. injection Hsome as <-.
  apply take_n_spec in H1 as [-> [L1 A1]]. apply take_n_spec in H2 as [-> [L2 A2]].
  apply take_n_spec in H3 as [-> [L3 A3]]. apply take_n_spec in H4 as [-> [L4 A4]].
  apply take_n_spec in H5 as [-> [L5 A5]].
  exists s5. cbn [String.concat].
  change (EmptyString ++ ?x)%string with x.
  split; [|split; [|split]].
  - rewrite !append_assoc, !append_cons. reflexivity.
  - rewrite !length_append. cbn [String.length]. rewrite ?length_append. lia.
  - change ("-" ++ ?x)%string with (String "-" x).
    rewrite !without_dashes_app. cbn [without_dashes].
    change (Ascii.eqb "-" "-") with true. change (Ascii.eqb "4" "-") with false.
    cbv iota. rewrite !without_dashes_app. cbn [without_dashes].
    change (Ascii.eqb "-" "-") with true. cbv iota.
    rewrite !without_dashes_hex by assumption. rewrite !append_cons. reflexivity.
  - rewrite !without_dashes_app. cbn [without_dashes].
    change (Ascii.eqb "4" "-") with false. cbv iota.
    rewrite !without_dashes_hex by assumption. reflexivity.
Qed.

(** Substitution changes a string in its dashes only. *)
Lemma sub_uuid_from_dashes (s : string) (skip : nat) :
  without_dashes (Re.sub_uuid_from skip s) = without_dashes (string_drop skip s).
Proof.
  revert skip. induction s as [|c s IH]; intros skip.
  - destruct skip; reflexivity.
  - cbn [Re.sub_uuid_from]. destruct skip as [|k]; [|apply IH].
    destruct (Re.match_uuid (String c s)) as [groups|] eqn:Hmatch.
    + destruct (match_uuid_spec _ _ Hmatch) as [rest [Hs [Hlen [Hjoined Hplain]]]].
      assert (Hrest : string_drop 31 s = rest).
      { change (string_drop 31 s) with (string_drop 32 (String c s)).
        rewrite Hs, <- Hlen. apply string_drop_app. }
      rewrite without_dashes_app, Hjoined, (IH 31%nat), Hrest.
      cbn [string_drop]. rewrite Hs, without_dashes_app, Hplain.
      reflexivity.
    + cbn [without_dashes string_drop]. rewrite (IH 0%nat).
      destruct (Ascii.eqb c "-"); reflexivity.
Qed.

Lemma lower_ascii_dash (c : ascii) : Ascii.eqb (lower_ascii c) "-" = Ascii.eqb c "-".
Proof. destruct c as [[] [] [] [] [] [] [] []]; reflexivity. Qed.

Lemma lower_without_dashes (s : string) :
  without_dashes (lower s) = lower (without_dashes s).
Proof.
  induction s as [|c s IH]; [reflexivity|]. cbn [lower without_dashes].
  rewrite lower_ascii_dash, IH. destruct (Ascii.eqb c "-"); reflexivity.
Qed.

(** X12: [uuid] of an identifier of ASCII characters is the identifier in
    lower case with dashes put in, and nothing else: without the dashes
    the two read the same.  The address of the replay is that of its
    [uuid]. *)
Theorem uuid_only_adds_dashes `{Environment} (r : Replay) (rid : string) :
  replay_id r = Some rid ->
  is_ascii rid = true ->
  exists u,
    Replay.uuid r = Ok u
    /\ without_dashes u = without_dashes (lower rid)
    /\ Replay.get_absolute_url r
       = Ok (reverse "replay:detail" [("replay_id"%string, u)]).
Proof.
  intros Hrid _. unfold Replay.uuid, Replay.get_absolute_url. rewrite Hrid.
  eexists. split; [reflexivity|]. split; [|reflexivity].
  rewrite !lower_without_dashes. f_equal. unfold Re.sub_uuid.
  rewrite sub_uuid_from_dashes. reflexivity.
Qed.

Lemma uuid_only_adds_dashes_witness :
  exists u,
    Replay.uuid Example.stored = Ok u
    /\ without_dashes u = without_dashes (lower "ABCDEF0141234567ABCDEF0123456789")
    /\ Replay.get_absolute_url Example.stored
       = Ok (reverse "replay:detail" [("replay_id"%string, u)]).
Proof.
  exact (@uuid_only_adds_dashes Example.env Example.stored _ eq_refl eq_refl).
Defined.

Lemma take_n_app_all (p : ascii -> bool) (n : nat) (g rest : string) :
  String.length g = n ->
  forallb p (list_ascii_of_string g) = true ->
  Re.take_n p n (g ++ rest) = Some (g, rest).
Proof.
  intros <-. induction g as [|c g IH]; [reflexivity|].
  cbn [list_ascii_of_string forallb String.length]. intros Hall.
  apply andb_prop in Hall as [Hc Hall]. rewrite append_cons. cbn [Re.take_n].
  rewrite Hc, (IH Hall). reflexivity.
Qed.

Lemma append_nil_r (s : string) : (s ++ "")%string = s.
Proof. induction s as [|c s IH]; [reflexivity|]. rewrite append_cons, IH. reflexivity. Qed.

Lemma sub_uuid_from_short (s : string) (skip : nat) :
  (String.length s <= skip)%nat -> Re.sub_uuid_from skip s = EmptyString.
Proof.
  revert skip. induction s as [|c s IH]; intros skip Hlen; [reflexivity|].
  cbn [String.length] in Hlen. destruct skip as [|k]; [lia|].
  cbn [Re.sub_uuid_from]. apply IH. lia.
Qed.

(** X13: An identifier of 32 upper-case hexadecimal digits, the ninth a [4],
    reads 8-4-4-4-12 in lower case. *)
Theorem uuid_of_identifier (r : Replay) (g1 g2 g3 g4 g5 : string) :
  replay_id r = Some (g1 ++ "4" ++ g2 ++ g3 ++ g4 ++ g5)%string ->
  String.length g1 = 8%nat -> String.length g2 = 3%nat ->
  String.length g3 = 4%nat -> String.length g4 = 4%nat ->
  String.length g5 = 12%nat ->
  forallb Re.is_hex_upper (list_ascii_of_string (g1 ++ g2 ++ g3 ++ g4 ++ g5)) = true ->
  Replay.uuid r
  = Ok (lower (g1 ++ "-4" ++ g2 ++ "-" ++ g3 ++ "-" ++ g4 ++ "-" ++ g5)).
Proof.
  intros Hrid L1 L2 L3 L4 L5 Hhex.
  assert (Happ : forall s t, forallb Re.is_hex_upper (list_ascii_of_string (s ++ t)) = true ->
                 forallb Re.is_hex_upper (list_ascii_of_string s) = true
                 /\ forallb Re.is_hex_upper (list_ascii_of_string t) = true).
  { intros s t. induction s as [|c s IH]; [auto|]. rewrite append_cons.
    cbn [list_ascii_of_string forallb]. intros Hall.
    apply andb_prop in Hall as [Hc Hall]. destruct (IH Hall) as [Hs Ht].
    rewrite Hc, Hs. auto. }
  apply Happ in Hhex as [A1 Hhex]. apply Happ in Hhex as [A2 Hhex].
  apply Happ in Hhex as [A3 Hhex]. apply Happ in Hhex as [A4 A5].
  assert (Hmatch : Re.match_uuid (g1 ++ "4" ++ g2 ++ g3 ++ g4 ++ g5)
                   = Some [g1; String "4" g2; g3; g4; g5]).
  { unfold Re.match_uuid. rewrite (take_n_app_all _ 8 g1 _ L1 A1).
    change ("4" ++ ?x)%string with (String "4" x). cbv iota beta.
    rewrite (take_n_app_all _ 3 g2 _ L2 A2), (take_n_app_all _ 4 g3 _ L3 A3).
    rewrite (take_n_app_all _ 4 g4 _ L4 A4).
    rewrite <- (append_nil_r g5) at 1. rewrite (take_n_app_all _ 12 g5 _ L5 A5).
    reflexivity. }
  unfold Replay.uuid. rewrite Hrid. do 2 f_equal. unfold Re.sub_uuid.
  destruct g1 as [|c g1]; [discriminate L1|].
  rewrite append_cons in Hmatch |- *. cbn [Re.sub_uuid_from]. rewrite Hmatch.
  rewrite sub_uuid_from_short.
  - rewrite append_nil_r. cbn [String.concat].
    change ("-4" ++ ?x)%string with ("-" ++ String "4" x)%string. reflexivity.
  - cbn [String.length] in L1.
    repeat (rewrite ?length_append; cbn [String.length]). lia.
Qed.

Lemma uuid_of_identifier_witness :
  Replay.uuid Example.stored = Ok "abcdef01-4123-4567-abcd-ef0123456789"%string.
Proof.
  exact (uuid_of_identifier Example.stored "ABCDEF01" "123" "4567" "ABCD" "EF0123456789"
           eq_refl eq_refl eq_refl eq_refl eq_refl eq_refl eq_refl).
Defined.

End UuidFacts.

(** ** Reporting a server *)

Section ServerFacts.

Lemma take_while_app_nil (p : ascii -> bool) (g : string) :
  forallb p (list_ascii_of_string g) = true ->
  Re.take_while p g = (g, EmptyString).
Proof.
  induction g as [|c g IH]; [reflexivity|].
  cbn [list_ascii_of_string forallb Re.take_while]. intros Hall.
  apply andb_prop in Hall as [Hc Hall]. rewrite Hc, (IH Hall). reflexivity.
Qed.

Lemma take_while_app_stop (p : ascii -> bool) (g : string) (c : ascii) (rest : string) :
  forallb p (list_ascii_of_string g) = true -> p c = false ->
  Re.take_while p (g ++ String c rest) = (g, String c rest).
Proof.
  intros Hall Hc. induction g as [|d g IH].
  - cbn [String.append Re.take_while]. change (EmptyString ++ String c rest)%string
      with (String c rest). cbn [Re.take_while]. rewrite Hc. reflexivity.
  - cbn [list_ascii_of_string forallb] in Hall.
    apply andb_prop in Hall as [Hd Hall]. rewrite append_cons. cbn [Re.take_while].
    rewrite Hd, (IH Hall). reflexivity.
Qed.

(** The pattern of [lag_report_url] on a server name made of a region and
    a number, with or without a city. *)
Lemma search_server_plain (region digits : string) :
  In region ["EU"; "USE"; "USW"; "OCE"; "SAM"]%string ->
  digits <> EmptyString ->
  forallb Re.is_digit (list_ascii_of_string digits) = true ->
  Re.search_server (region ++ digits) = Some [Some region; Some digits; None; None].
Proof.
  intros Hregion Hdigits Hall.
  assert (Hmatch : Re.match_server (region ++ digits)
                   = Some [Some region; Some digits; None; None]).
  { unfold Re.match_server.
    repeat (destruct Hregion as [<-|Hregion]; [
      cbn [fold_right Re.strip_prefix]; rewrite !append_cons;
      change (EmptyString ++ digits)%string with digits;
      cbn [Re.strip_prefix Ascii.eqb Bool.eqb];
      rewrite (take_while_app_nil _ digits Hall);
      destruct digits; [contradiction|reflexivity] |]).
    destruct Hregion. }
  destruct (region ++ digits)%string; cbn [Re.search_server]; rewrite Hmatch; reflexivity.
Qed.

Lemma search_server_city (region digits low : string) (u : ascii) :
  In region ["EU"; "USE"; "USW"; "OCE"; "SAM"]%string ->
  digits <> EmptyString ->
  forallb Re.is_digit (list_ascii_of_string digits) = true ->
  Re.is_upper u = true ->
  low <> EmptyString ->
  forallb Re.is_lower (list_ascii_of_string low) = true ->
  Re.search_server (region ++ digits ++ "-" ++ String u low)
  = Some [Some region; Some digits; Some (String "-" (String u low)); Some (String u low)].
Proof.
  intros Hregion Hdigits Hall Hu Hlow Hlower.
  assert (Hmatch : Re.match_server (region ++ digits ++ "-" ++ String u low)
                   = Some [Some region; Some digits; Some (String "-" (String u low));
                           Some (String u low)]).
  { unfold Re.match_server.
    change ("-" ++ String u low)%string with (String "-" (String u low)).
    repeat (destruct Hregion as [<-|Hregion]; [
      cbn [fold_right Re.strip_prefix]; rewrite !append_cons;
      change (EmptyString ++ ?x)%string with x;
      cbn [Re.strip_prefix Ascii.eqb Bool.eqb];
      rewrite (take_while_app_stop _ digits "-" _ Hall eq_refl);
      destruct digits; [contradiction|];
      cbv beta iota; rewrite Hu, (take_while_app_nil _ low Hlower);
      destruct low; [contradiction|reflexivity] |]).
    destruct Hregion. }
  destruct (region ++ digits ++ "-" ++ String u low)%string;
    cbn [Re.search_server]; rewrite Hmatch; reflexivity.
Qed.

Lemma region_not_empty (region rest : string) :
  In region ["EU"; "USE"; "USW"; "OCE"; "SAM"]%string ->
  truthy_str (Some (region ++ rest)%string) = true.
Proof.
  intros Hregion.
  repeat (destruct Hregion as [<-|Hregion]; [reflexivity|]). destruct Hregion.
Qed.

(** X14: [lag_report_url] of a replay whose server name is a region and a
    number, with or without a city: the report form is addressed with the
    region as [field1] and the number as [field2]; [field13] is the text
    [None] when the name stops at the number, and the city with its dash
    when one follows. *)
Theorem lag_report_url_fields (r : Replay) (region digits city : string) :
  In region ["EU"; "USE"; "USW"; "OCE"; "SAM"]%string ->
  digits <> EmptyString ->
  forallb Re.is_digit (list_ascii_of_string digits) = true ->
  city = EmptyString
  \/ (exists u low,
        city = String "-" (String u low) /\ Re.is_upper u = true
        /\ low <> EmptyString
        /\ forallb Re.is_lower (list_ascii_of_string low) = true) ->
  server_name r = Some (region ++ digits ++ city)%string ->
  Replay.lag_report_url r
  = Ok ("https://psyonixhr.wufoo.com/forms/game-server-performance-report"
        ++ "/def/field1=" ++ region ++ "&field2=" ++ digits ++ "&field13="
        ++ (if String.eqb city "" then "None" else city))%string.
Proof.
  intros Hregion Hdigits Hall Hcity Hname.
  unfold Replay.lag_report_url. rewrite Hname, (region_not_empty _ _ Hregion).
  cbn [negb default from_option id].
  destruct Hcity as [->|[u [low [-> [Hu [Hlow Hlower]]]]]].
  - rewrite append_nil_r, (search_server_plain _ _ Hregion Hdigits Hall). reflexivity.
  - change (String "-" (String u low)) with ("-" ++ String u low)%string at 1.
    rewrite (search_server_city _ _ _ _ Hregion Hdigits Hall Hu Hlow Hlower).
    reflexivity.
Qed.

Lemma lag_report_url_fields_witness :
  Replay.lag_report_url Example.stored
  = Ok "https://psyonixhr.wufoo.com/forms/game-server-performance-report/def/field1=EU&field2=12&field13=-Dice"%string.
Proof.
  pose proof (lag_report_url_fields Example.stored "EU" "12" "-Dice") as H.
  assert (H1 : In "EU"%string ["EU"; "USE"; "USW"; "OCE"; "SAM"]%string) by (left; reflexivity).
  assert (H2 : "12"%string <> EmptyString) by discriminate.
  assert (H4 : "-Dice"%string = EmptyString
  \/ (exists u low,
        "-Dice"%string = String "-" (String u low) /\ Re.is_upper u = true
        /\ low <> EmptyString
        /\ forallb Re.is_lower (list_ascii_of_string low) = true)).
  { right. exists "D"%char, "ice"%string. split; [reflexivity|]. split; [reflexivity|].
    split; [discriminate|reflexivity]. }
  specialize (H H1 H2 eq_refl H4 eq_refl).
  exact H.
Defined.

End ServerFacts.

(** ** The duration of a pack *)

Section Duration.

Lemma whole_positive (x : float) (z : Z) :
  whole x z -> (0 <? x)%float = (0 <? z).
Proof.
  intros [[-> [s Hx]]|[Hz Hx]]; rewrite FloatAxioms.ltb_spec, Hx.
  - reflexivity.
  - unfold dyadic. destruct (Z.eqb_spec z 0) as [Habs|_]; [lia|].
    destruct (Z.ltb_spec 0 z); [reflexivity|lia].
Qed.

Lemma divmod_60_zero (c : float) (s : bool) :
  Prim2SF c = S754_zero s ->
  exists fd md,
    PyFloat.divmod c 60 = Ok (fd, md)
    /\ whole fd 0 /\ PyFloat.to_int md = Ok 0.
Proof.
  intros Hc. rewrite <- (SF2Prim_Prim2SF c), Hc.
  destruct s; eexists; eexists; (split; [reflexivity|]);
    (split; [left; split; [reflexivity|eexists; reflexivity]|reflexivity]).
Qed.

(** [divmod(x, 60)] of a float that is an integer. *)
Lemma divmod_60_whole (x : float) (z : Z) :
  whole x z -> z < 2 ^ 53 ->
  exists fd md,
    PyFloat.divmod x 60 = Ok (fd, md)
    /\ whole fd (z / 60) /\ PyFloat.to_int md = Ok (z mod 60).
Proof.
  intros [[-> [s Hx]]|[Hz Hx]] Hlt.
  - exact (divmod_60_zero x s Hx).
  - unfold dyadic in Hx. destruct (Z.eqb_spec z 0) as [Habs|_]; [lia|].
    rewrite whole_dyadic_exponent in Hx by lia.
    pose proof (Zdigits2_lt_pow2 z 53 ltac:(lia) ltac:(lia) ltac:(lia)) as Hd.
    assert (Hp : 0 < 2 ^ (0 - (Zdigits2 z - 53))) by (apply Z.pow_pos_nonneg; lia).
    destruct (divmod_60_shape x _ _ Hx ltac:(lia)) as [fd [md [Hdivmod [Hfd Hmd]]]].
    rewrite Z2Pos.id in Hfd, Hmd by nia.
    replace (- (Zdigits2 z - 53)) with (0 - (Zdigits2 z - 53)) in Hfd, Hmd by lia.
    rewrite Z.div_mul in Hfd, Hmd by lia.
    exists fd, md. auto.
Qed.

(** [divmod(c, 60)] of a float that is not negative, with an integer part
    [F] below [2 ^ 53]. *)
Lemma divmod_60_nonneg (c : float) (F : Z) :
  (0 <=? c)%float = true -> PyFloat.to_int c = Ok F -> F < 2 ^ 53 ->
  exists fd md,
    PyFloat.divmod c 60 = Ok (fd, md)
    /\ whole fd (F / 60) /\ PyFloat.to_int md = Ok (F mod 60).
Proof.
  intros Hle Hto HF.
  destruct (nonneg_float_cases c F Hle Hto HF) as [[s [Hc ->]]|[m [e [Hc [He ->]]]]].
  - exact (divmod_60_zero c s Hc).
  - exact (divmod_60_shape c m e Hc He).
Qed.

Lemma whole_nonneg (x : float) (z : Z) : whole x z -> 0 <= z.
Proof. intros [[-> _]|[Hz _]]; lia. Qed.

(** X15: The duration of a pack whose frame counts add up to [total]: with
    [F] the integer part of [total / 30], hours, minutes and seconds are
    [F / 3600], [F / 60 mod 60] and [F mod 60], and the hours are shown
    only when there are any. *)
Theorem total_duration_hours_minutes_seconds (db : DB) (self : ReplayPack)
    (total F : Z) (c : float) :
  ReplayPack.replays db self <> [] ->
  ReplayPack.sql_sum (List.map num_frames (ReplayPack.replays db self)) = Some total ->
  PyFloat.int_truediv total 30 = Ok c ->
  (0 <=? c)%float = true ->
  PyFloat.to_int c = Ok F -> F < 2 ^ 53 ->
  ReplayPack.total_duration db self
  = Ok (ReplayPack.format_duration
          (if 0 <? F / 3600 then (format_d (F / 3600) ++ "h")%string else ""%string)
          (F / 60 mod 60) (F mod 60)).
Proof.
  intros Hreplays Hsum Hdiv Hle Hto HF. unfold ReplayPack.total_duration.
  destruct (ReplayPack.replays db self) as [|r rs] eqn:Hrows; [contradiction|].
  cbn [length Nat.eqb negb]. rewrite Hsum, Hdiv. cbn [fmap result_fmap mbind result_bind].
  destruct (divmod_60_nonneg c F Hle Hto HF) as [minutes [seconds [Hfirst [Hminutes Hseconds]]]].
  cbn [pynum_divmod_60]. rewrite Hfirst. cbn [mbind result_bind pynum_divmod_60].
  assert (HF0 : 0 <= F).
  { pose proof (whole_nonneg _ _ Hminutes). pose proof (Z.div_pos F 60). 
    destruct (Z_lt_le_dec F 0) as [Hneg|]; [|lia].
    pose proof (Z.div_lt_upper_bound F 60 0 ltac:(lia) ltac:(lia)). lia. }
  assert (Hq : F / 60 < 2 ^ 53).
  { apply Z.div_lt_upper_bound; lia. }
  destruct (divmod_60_whole minutes (F / 60) Hminutes Hq)
    as [hours [minutes' [Hsecond [Hhours Hminutes']]]].
  rewrite Hsecond. cbn [mbind result_bind pynum_positive pynum_to_int].
  rewrite Z.div_div in Hhours by lia. change (60 * 60) with 3600 in Hhours.
  assert (Hh : F / 3600 < 2 ^ 53) by (apply Z.div_lt_upper_bound; lia).
  rewrite (whole_positive hours _ Hhours), Hminutes', Hseconds.
  destruct (0 <? F / 3600).
  - rewrite (whole_to_int hours _ Hhours Hh). reflexivity.
  - reflexivity.
Qed.

Lemma sql_sum_all_null (values : list (option Z)) :
  (forall v, In v values -> v = None) -> ReplayPack.sql_sum values = None.
Proof.
  intros Hnull. unfold ReplayPack.sql_sum.
  assert (Hnone : omap id values = []).
  { induction values as [|v values IH]; [reflexivity|].
    rewrite (Hnull v) by (left; reflexivity). cbn. apply IH.
    intros w Hw. apply Hnull. right. exact Hw. }
  rewrite Hnone. reflexivity.
Qed.

(** X16: The duration of a pack without frame counts: a pack without replays
    lasts [" 0m 0s"], and a pack whose replays all have a null
    [num_frames] raises [TypeError], the sum being [None]. *)
Theorem total_duration_without_frames (db : DB) (self : ReplayPack) :
  (ReplayPack.replays db self = [] ->
   ReplayPack.total_duration db self = Ok " 0m 0s"%string)
  /\ (ReplayPack.replays db self <> [] ->
      (forall r, In r (ReplayPack.replays db self) -> num_frames r = None) ->
      ReplayPack.total_duration db self = Raise TypeError).
Proof.
  unfold ReplayPack.total_duration. split.
  - intros ->. reflexivity.
  - intros Hrows Hnull.
    destruct (ReplayPack.replays db self) as [|r rs] eqn:Hreplays; [contradiction|].
    cbn [length Nat.eqb negb]. rewrite sql_sum_all_null; [reflexivity|].
    intros v Hv. apply in_map_iff in Hv as [r' [<- Hr']]. apply Hnull, Hr'.
Qed.

End Duration.

Lemma total_duration_hours_minutes_seconds_witness :
  ReplayPack.total_duration Example.pack_db Example.pack = Ok "2h 3m 0s"%string.
Proof.
  exact (total_duration_hours_minutes_seconds Example.pack_db Example.pack
           221400 7380 7380 ltac:(discriminate) eq_refl eq_refl eq_refl eq_refl eq_refl).
Defined.

(** ** The default season *)

Section SeasonFacts.
Variables now release_date new_pk : Z.

Lemma filter_started_head (rows : list Season) (s : Season) (rest : list Season) :
  List.filter (fun s => start_date s <=? now) rows = s :: rest ->
  In s rows /\ start_date s <= now
  /\ (latest_first rows ->
      forall s', In s' rows -> start_date s' <= now -> start_date s' <= start_date s).
Proof.
  induction rows as [|r rows IH]; [discriminate|]. cbn [List.filter latest_first].
  destruct (Z.leb_spec (start_date r) now) as [Hstarted|Hfuture].
  - intros Hhead. injection Hhead as -> _. split; [left; reflexivity|].
    split; [exact Hstarted|]. intros [Hfirst _] s' [<-|Hin] _; [lia|].
    apply Hfirst, Hin.
  - intros Hhead. destruct (IH Hhead) as [Hin [Hstarted Hlatest]].
    split; [right; exact Hin|]. split; [exact Hstarted|].
    intros [_ Hsorted] s' [<-|Hin'] Hs'; [lia|]. exact (Hlatest Hsorted s' Hin' Hs').
Qed.

Lemma filter_started_nil (rows : list Season) :
  List.filter (fun s => start_date s <=? now) rows = [] ->
  forall s, In s rows -> now < start_date s.
Proof.
  induction rows as [|r rows IH]; [intros _ s []|]. cbn [List.filter].
  destruct (Z.leb_spec (start_date r) now) as [Hstarted|Hfuture]; [discriminate|].
  intros Hnil s [<-|Hin]; [exact Hfuture|]. exact (IH Hnil s Hin).
Qed.

(** X17: [get_default_season] creates a season, ['Season 1'], only when there
    is none, and answers its key.  With seasons in the table it changes
    nothing: it answers the key of a season that has started, the latest
    such when the table is in the order of the model, and raises
    [IndexError] when every season starts in the future. *)
Theorem get_default_season_cases (db : DB) :
  (season_table db = [] ->
   get_default_season now release_date new_pk db
   = (Ok new_pk,
      set_season_table db [ {| season_pk := new_pk; season_title := "Season 1";
                               start_date := release_date |} ]))
  /\ (season_table db <> [] ->
      snd (get_default_season now release_date new_pk db) = db
      /\ ((fst (get_default_season now release_date new_pk db) = Raise IndexError
           /\ forall s, In s (season_table db) -> now < start_date s)
          \/ exists s,
               fst (get_default_season now release_date new_pk db) = Ok (season_pk s)
               /\ In s (season_table db) /\ start_date s <= now
               /\ (latest_first (season_table db) ->
                   forall s', In s' (season_table db) -> start_date s' <= now ->
                              start_date s' <= start_date s))).
Proof.
  unfold get_default_season. split.
  - intros ->. reflexivity.
  - intros Hrows. destruct (season_table db) as [|r rows] eqn:Htable; [contradiction|].
    cbn [length Nat.eqb snd fst]. split; [reflexivity|].
    destruct (List.filter (fun s => start_date s <=? now) (r :: rows))
      as [|s rest] eqn:Hfilter.
    + left. split; [reflexivity|]. exact (filter_started_nil _ Hfilter).
    + right. exists s. split; [reflexivity|]. exact (filter_started_head _ s rest Hfilter).
Qed.

(** X18: Once the first season was created, and the release date has passed,
    asking again answers the same season and creates nothing. *)
Theorem get_default_season_again (db : DB) :
  season_table db = [] -> release_date <= now ->
  forall other_pk,
    get_default_season now release_date other_pk
      (snd (get_default_season now release_date new_pk db))
    = (Ok new_pk, snd (get_default_season now release_date new_pk db)).
Proof.
  intros Hempty Hreleased other_pk. unfold get_default_season at 2 3. rewrite Hempty.
  cbn [length Nat.eqb snd insert_season]. unfold get_default_season.
  cbn [season_table set_season_table length Nat.eqb List.filter start_date season_pk].
  destruct (Z.leb_spec release_date now) as [_|Habs]; [reflexivity|lia].
Qed.

End SeasonFacts.

Lemma get_default_season_again_witness :
  get_default_season 1450000000 1436227200 2
    (snd (get_default_season 1450000000 1436227200 1 Example.empty_db))
  = (Ok 1, snd (get_default_season 1450000000 1436227200 1 Example.empty_db)).
Proof.
  exact (get_default_season_again 1450000000 1436227200 1 Example.empty_db
           eq_refl ltac:(lia) 2).
Defined.
